(** * TalkTwin: the two-persona dialogue driver, its fallback generator and
      its transcript exporters

    A shallow embedding of [convo/dialog.py], [convo/interface_dilogue.py]
    and [convo/main.py].  Python [str] values are strings of code points
    below 256 (one [ascii] per code point); Python dicts with string keys
    are insertion-ordered association lists; exceptions are an explicit
    outcome. *)

From Stdlib Require Import String Ascii List ZArith Lia Bool Arith.
Import ListNotations.
Open Scope string_scope.

(** ** Python strings *)

Module Py.

(** [str.lower()] on one code point below 256: the ASCII capitals and the
    Latin-1 capitals 192..222 (215, the multiplication sign, apart) move up
    by 32; every other code point is its own lower case.  On strings of
    such code points [str.lower()] works code point by code point, as
    [lower] below does.  On other text it does not (a capital sigma is
    lowered by its place in the word, and some code points are lowered to
    two), and that text is outside this development. *)
Definition lower_char (c : ascii) : ascii :=
  let n := nat_of_ascii c in
  if (((65 <=? n) && (n <=? 90))
      || ((192 <=? n) && (n <=? 222) && negb (n =? 215)))%nat
  then ascii_of_nat (n + 32)
  else c.

Fixpoint lower (s : string) : string :=
  match s with
  | EmptyString => EmptyString
  | String c s' => String (lower_char c) (lower s')
  end.

(** [sub in s]: some suffix of [s] starts with [sub]. *)
Fixpoint contains (sub s : string) : bool :=
  if prefix sub s then true
  else match s with
       | EmptyString => false
       | String _ s' => contains sub s'
       end.

(** [str.isspace()] on one code point below 256. *)
Definition isspace (c : ascii) : bool :=
  let n := nat_of_ascii c in
  (((9 <=? n) && (n <=? 13)) || ((28 <=? n) && (n <=? 32))
   || (n =? 133) || (n =? 160))%nat.

(** [str.split()] without arguments: the maximal runs of non-space code
    points, in order.  [cur] is the word being read, reversed. *)
Fixpoint split_aux (cur : list ascii) (s : string) : list string :=
  let flush := match cur with
               | [] => []
               | _ => [string_of_list_ascii (rev cur)]
               end in
  match s with
  | EmptyString => flush
  | String c s' =>
      if isspace c then flush ++ split_aux [] s'
      else split_aux (c :: cur) s'
  end.

Definition split (s : string) : list string := split_aux [] s.

End Py.

(** ** Outcomes of fallible code *)

(** The exceptions: [ProviderError] is whatever a call to the provider
    raises, [OtherException] any other exception, with the name of its
    class and its message. *)
Inductive exn : Type :=
| IndexError
| KeyError (key : string)
| TypeError
| JSONDecodeError (msg : string)
| ProviderError (msg : string)
| OtherException (cls msg : string).

(** [str(e)] *)
Definition exn_str (e : exn) : string :=
  match e with
  | IndexError => "list index out of range"
  | KeyError k => "'" ++ k ++ "'"
  | TypeError => "object is not subscriptable"
  | JSONDecodeError m => m
  | ProviderError m => m
  | OtherException _ m => m
  end.

(** A call returns, raises, or (in a model with fuel) runs out of fuel. *)
Inductive outcome (A : Type) : Type :=
| Ok (a : A)
| Raise (e : exn)
| OutOfFuel.
Arguments Ok {A} a.
Arguments Raise {A} e.
Arguments OutOfFuel {A}.

Definition bind {A B} (m : outcome A) (k : A -> outcome B) : outcome B :=
  match m with
  | Ok a => k a
  | Raise e => Raise e
  | OutOfFuel => OutOfFuel
  end.

Declare Scope outcome_scope.
Delimit Scope outcome_scope with outcome.
Notation "x <- m ;; k" := (bind m (fun x => k))
  (at level 61, m at next level, right associativity) : outcome_scope.
Open Scope outcome_scope.

(** ** Dicts with string keys and string values *)

Definition dict := list (string * string).

(** [d.get(k)] *)
Fixpoint get (d : dict) (k : string) : option string :=
  match d with
  | [] => None
  | (k', v) :: d' => if String.eqb k' k then Some v else get d' k
  end.

(** [d.get(k, dflt)] *)
Definition get_default (d : dict) (k dflt : string) : string :=
  match get d k with
  | Some v => v
  | None => dflt
  end.

Definition option_eqb (a b : option string) : bool :=
  match a, b with
  | Some x, Some y => String.eqb x y
  | None, None => true
  | _, _ => false
  end.

(** [d[k]] *)
Definition item (d : dict) (k : string) : outcome string :=
  match get d k with
  | Some v => Ok v
  | None => Raise (KeyError k)
  end.

(** ** Termination predicates *)

(** dialog.py, [create_dialogue] and [generate_specific_dialogue]:
    [termination_condition.lower() in msg["content"].lower()] *)
Definition is_termination_msg (termination_condition : string) (msg : dict)
  : outcome bool :=
  content <- item msg "content" ;;
  Ok (Py.contains (Py.lower termination_condition) (Py.lower content)).

(** dialog.py, [generate_fibonacci_dialogue]: the student's predicate. *)
Definition fibonacci_phrase : string :=
  "I understand how to solve Fibonacci problems now".

Definition student_is_termination_msg (msg : dict) : outcome bool :=
  content <- item msg "content" ;;
  Ok (Py.contains fibonacci_phrase content).

(** main.py: the shopkeeper's predicate. *)
Definition shopkeeper_phrase : string := "thank you for your service".

Definition shopkeeper_is_termination_msg (msg : dict) : outcome bool :=
  content <- item msg "content" ;;
  Ok (Py.contains shopkeeper_phrase content).

(** What "occurs as a substring, compared case-insensitively" means:
    letter by letter equal up to case, at some offset. *)
Inductive ci_eq : string -> string -> Prop :=
| ci_eq_nil : ci_eq "" ""
| ci_eq_cons c d s t :
    Py.lower_char c = Py.lower_char d -> ci_eq s t ->
    ci_eq (String c s) (String d t).

Definition ci_occurs (p t : string) : Prop :=
  exists a w b, t = a ++ w ++ b /\ ci_eq p w.

Definition occurs (p t : string) : Prop :=
  exists a b, t = a ++ p ++ b.

(** ** Transcripts and dialogue results *)

Definition nl : string := String (ascii_of_nat 10) "".

(** An item of a chat history: a dict, or any other Python value. *)
Inductive entry : Type :=
| EDict (d : dict)
| EOther.

(** What the generators hand to the exporters: a Python dict (with or
    without the key ["messages"]), or an object with whatever of the
    attributes [chat_history] and [messages] it has. *)
Inductive dialogue : Type :=
| PyDict (messages : option (list dict))
| PyObject (chat_history : option (list entry)) (messages : option (list dict)).

(** The library's [ChatResult]: an object with a [chat_history]. *)
Definition ChatResult (chat_history : list dict) : dialogue :=
  PyObject (Some (map EDict chat_history)) None.

(** [l.append(x)] *)
Definition list_append {A} (l : list A) (x : A) : list A := (l ++ [x])%list.

(** [l[0]] *)
Definition subscript0 {A} (l : list A) : outcome A :=
  match l with
  | x :: _ => Ok x
  | [] => Raise IndexError
  end.

(** [random.choice(seq)]: [seq[randbelow(len(seq))]]; [draw] is the number
    the generator produces for this call. *)
Definition random_choice {A} (draw : nat) (seq : list A) : outcome A :=
  match nth_error seq (draw mod length seq) with
  | Some x => Ok x
  | None => Raise IndexError
  end.

Definition placeholder_note : string :=
  "This is a placeholder dialogue. To generate real dialogues, please configure your API keys properly.".

(** interface_dilogue.py, [generate_dialogue_fallback] *)
Definition generate_dialogue_fallback (draw : nat)
    (character1_name character2_name situation : string) (max_turns : Z)
  : outcome dialogue :=
  let messages : list dict := [] in
  w1 <- subscript0 (Py.split situation) ;;
  w2 <- subscript0 (Py.split situation) ;;
  w3 <- subscript0 (Py.split situation) ;;
  let starter_options :=
    [ "Hello " ++ character2_name ++ ", I wanted to talk about " ++ w1 ++ "...";
      "Hey " ++ character2_name ++ ", do you have a moment? I need to discuss " ++ w2 ++ ".";
      "Hi " ++ character2_name ++ "! I've been thinking about " ++ w3 ++ "." ] in
  starter <- random_choice draw starter_options ;;
  let messages := list_append messages
    [("role", "assistant"); ("name", character1_name); ("content", starter)] in
  let messages := list_append messages
    [("role", "system"); ("content", placeholder_note)] in
  w4 <- subscript0 (Py.split situation) ;;
  let messages := list_append messages
    [("role", "assistant"); ("name", character2_name);
     ("content", "Hi " ++ character1_name ++ "! Sure, what about " ++ w4
                 ++ " did you want to discuss?")] in
  let messages := list_append messages
    [("role", "assistant"); ("name", character1_name);
     ("content", "Well, regarding " ++ situation
                 ++ ", I was hoping we could work through it together.")] in
  Ok (PyDict (Some messages)).

(** interface_dilogue.py, [extract_messages] *)
Definition extract_messages (d : dialogue) : list dict :=
  match d with
  | PyDict (Some messages) => messages
  | PyDict None => []
  | PyObject (Some chat_history) _ =>
      fold_left
        (fun messages e =>
           match e with
           | EDict entry =>
               let sender_name := get_default entry "name" "Unknown" in
               let content := get_default entry "content" "" in
               list_append messages
                 [("role", "assistant"); ("name", sender_name);
                  ("content", content)]
           | EOther => messages
           end)
        chat_history []
  | PyObject None (Some messages) => messages
  | PyObject None None => []
  end.

(** interface_dilogue.py, [format_dialogue_text]: the loop body, on the
    text built so far. *)
Definition format_dialogue_text_step (text : string) (message : dict) : string :=
  if option_eqb (get message "role") (Some "system") then text
  else
    let speaker :=
      if option_eqb (get message "role") (Some "assistant")
      then get_default message "name" "Unknown"
      else get_default message "role" "Unknown" in
    text ++ (speaker ++ ": " ++ get_default message "content" "" ++ nl ++ nl).

Definition format_dialogue_text (d : dialogue)
    (character1_name character2_name situation : string) : string :=
  let text := "Dialogue between " ++ character1_name ++ " and "
              ++ character2_name ++ nl in
  let text := text ++ ("Situation: " ++ situation ++ nl ++ nl) in
  let messages := extract_messages d in
  fold_left format_dialogue_text_step messages text.

(** dialog.py, [format_dialogue]: the loop body. *)
Definition format_dialogue_step (formatted_dialogue : outcome string)
    (message : dict) : outcome string :=
  acc <- formatted_dialogue ;;
  role <- item message "role" ;;
  sender <- (if negb (String.eqb role "assistant") then item message "role"
             else item message "name") ;;
  content <- item message "content" ;;
  Ok (acc ++ (sender ++ ": " ++ content ++ nl ++ nl)).

(** [dialogue["messages"]]: only a dict can be subscripted. *)
Definition messages_item (d : dialogue) : outcome (list dict) :=
  match d with
  | PyDict (Some messages) => Ok messages
  | PyDict None => Raise (KeyError "messages")
  | PyObject _ _ => Raise TypeError
  end.

Definition format_dialogue (d : dialogue) : outcome string :=
  let formatted_dialogue := nl ++ "FULL DIALOGUE:" ++ nl ++ nl in
  messages <- messages_item d ;;
  fold_left format_dialogue_step messages (Ok formatted_dialogue).

(** ** The agent library's conversation protocol

    [ConversableAgent] comes from the agent library the three files import;
    the repository builds agents and calls [generate_reply],
    [initiate_chat] and [send] on them, and the turn loop itself runs
    inside the library.  Below are the constructor, which may refuse the
    agent it is asked for, and the protocol of the library's [send],
    [receive], [generate_reply], [check_termination_and_human_reply] and
    [generate_oai_reply] for agents built with [human_input_mode="NEVER"],
    as the repository builds them all: a message sent is logged by the
    sender (role ["assistant"]) and by the receiver (role ["user"]), both
    under the sender's name; the receiver then ends the chat without a
    reply when it has replied [MAX_CONSECUTIVE_AUTO_REPLY] times in a row
    or when its own [is_termination_msg] is true of the message it just
    received, and otherwise sends back the provider's reply.  The
    predicate of an agent is never asked about the messages that agent
    sends. *)

Module Autogen.

(** What a call to the provider comes back with: the generated text, or
    the error it raises. *)
Inductive completion : Type :=
| Text (text : string)
| Failed (e : exn).

Section Protocol.

(** The reply-generation capability: what the provider answers under a
    configuration to a system message and a role-tagged history. *)
Variable llm : dict -> string -> list dict -> completion.

(** What the termination closures capture and update. *)
Variable St : Type.

Record ConversableAgent : Type := {
  name : string;
  system_message : string;
  llm_config : dict;
  agent_is_termination_msg : St -> dict -> outcome (bool * St) }.

Definition MAX_CONSECUTIVE_AUTO_REPLY : nat := 100.

(** The predicate of an agent built without [is_termination_msg]. *)
Definition default_is_termination_msg (st : St) (msg : dict)
  : outcome (bool * St) :=
  Ok (String.eqb (get_default msg "content" "") "TERMINATE", st).

(** What the constructor raises, if anything, for an agent of this name,
    system message and configuration: before it returns the agent it
    checks the configuration and builds the provider's client from it. *)
Variable refuses : string -> string -> dict -> option exn.

(** [ConversableAgent(name=..., system_message=..., llm_config=...,
    human_input_mode="NEVER", is_termination_msg=...)] *)
Definition __init__ (a : ConversableAgent) : outcome ConversableAgent :=
  match refuses (name a) (system_message a) (llm_config a) with
  | Some e => Raise e
  | None => Ok a
  end.

(** An agent's side of one conversation: its message log and the number
    of replies it has sent in a row. *)
Record agent_state : Type := {
  chat_messages : list dict;
  consecutive_auto_reply_counter : nat }.

Definition fresh : agent_state :=
  {| chat_messages := []; consecutive_auto_reply_counter := 0 |}.

Definition stopped (s : agent_state) : agent_state :=
  {| chat_messages := chat_messages s; consecutive_auto_reply_counter := 0 |}.

Definition replied (s : agent_state) : agent_state :=
  {| chat_messages := chat_messages s;
     consecutive_auto_reply_counter := S (consecutive_auto_reply_counter s) |}.

Definition logged (s : agent_state) (role speaker message : string) : agent_state :=
  {| chat_messages :=
       list_append (chat_messages s)
         [("content", message); ("role", role); ("name", speaker)];
     consecutive_auto_reply_counter := consecutive_auto_reply_counter s |}.

(** The reply an agent generates to a history: the provider's, under the
    agent's configuration and system message. *)
Definition generate_oai_reply (a : ConversableAgent) (messages : list dict)
  : outcome string :=
  match llm (llm_config a) (system_message a) messages with
  | Text text => Ok text
  | Failed e => Raise e
  end.

(** [generate_reply(messages)] called directly on an agent, outside any
    conversation (the one message the repository passes is a request in
    its own words, which no predicate ends). *)
Definition generate_reply (a : ConversableAgent) (messages : list dict)
  : outcome string :=
  generate_oai_reply a messages.

(** [speaker.send(message, listener)], with everything it triggers; the
    result is the state of the speaker, of the listener, and of the
    closures when the chat stops.  Every round but the last sends one
    reply, so [fuel] rounds are enough once [fuel] exceeds the replies
    the two agents may still send. *)
Fixpoint send (fuel : nat) (speaker listener : ConversableAgent)
    (sp ls : agent_state) (st : St) (message : string)
  : outcome (agent_state * agent_state * St) :=
  match fuel with
  | O => OutOfFuel
  | S fuel' =>
      let sp := logged sp "assistant" (name speaker) message in
      let ls := logged ls "user" (name speaker) message in
      if (MAX_CONSECUTIVE_AUTO_REPLY <=? consecutive_auto_reply_counter ls)%nat
      then Ok (sp, stopped ls, st)
      else
        r <- agent_is_termination_msg listener st
               [("content", message); ("role", "user"); ("name", name speaker)] ;;
        let '(fin, st) := r in
        if fin then Ok (sp, stopped ls, st)
        else
          let ls := replied ls in
          reply <- generate_oai_reply listener (chat_messages ls) ;;
          r <- send fuel' listener speaker ls sp st reply ;;
          let '(ls, sp, st) := r in
          Ok (sp, ls, st)
  end.

(** [a.initiate_chat(recipient=b, message=message)]: both logs are cleared,
    [a] sends [message], and the chat history returned is [a]'s log. *)
Definition initiate_chat (a b : ConversableAgent) (st : St) (message : string)
  : outcome (list dict * (agent_state * agent_state * St)) :=
  r <- send (2 * MAX_CONSECUTIVE_AUTO_REPLY + 1) a b fresh fresh st message ;;
  let '(sa, sb, st) := r in
  Ok (chat_messages sa, (sa, sb, st)).

End Protocol.

End Autogen.

(** ** The sessions of dialog.py and main.py *)

Section Sessions.

Variable llm : dict -> string -> list dict -> Autogen.completion.
Variable refuses : string -> string -> dict -> option exn.

Definition stateless (p : dict -> outcome bool) (st : unit) (msg : dict)
  : outcome (bool * unit) :=
  b <- p msg ;; Ok (b, st).

(** dialog.py, [DialogueGenerator._generate_starter_message] *)
Definition _generate_starter_message (config_list : list dict)
    (character1_name character2_name situation : string) : outcome string :=
  llm_config <- subscript0 config_list ;;
  starter_agent <-
    Autogen.__init__ unit refuses
      {| Autogen.name := "starter_helper";
         Autogen.system_message :=
           "You are an assistant that generates the first line of dialogue for "
           ++ character1_name ++ " to say to " ++ character2_name
           ++ " in this situation: " ++ situation ++ ". "
           ++ "Provide only the dialogue line, nothing else.";
         Autogen.llm_config := llm_config;
         Autogen.agent_is_termination_msg :=
           Autogen.default_is_termination_msg unit |} ;;
  Autogen.generate_reply llm unit starter_agent
    [[("role", "user");
      ("content", "Generate the first line of dialogue for " ++ character1_name ++ ".")]].

(** dialog.py, [DialogueGenerator.create_dialogue]: the two agents it
    asks the constructor for. *)
Definition create_dialogue_character1 (llm_config : dict)
    (character1_name character2_name situation : string)
  : Autogen.ConversableAgent unit :=
  {| Autogen.name := character1_name;
     Autogen.system_message :=
       "You are " ++ character1_name ++ ". You are in the following situation: "
       ++ situation ++ ". "
       ++ "Your goal is to have a realistic conversation with " ++ character2_name ++ " "
       ++ "that addresses the situation naturally.";
     Autogen.llm_config := llm_config;
     Autogen.agent_is_termination_msg := Autogen.default_is_termination_msg unit |}.

Definition create_dialogue_character2 (llm_config : dict)
    (character1_name character2_name situation termination_condition : string)
  : Autogen.ConversableAgent unit :=
  {| Autogen.name := character2_name;
     Autogen.system_message :=
       "You are " ++ character2_name ++ ". You are in the following situation: "
       ++ situation ++ ". "
       ++ "Your goal is to have a realistic conversation with " ++ character1_name ++ " "
       ++ "that addresses the situation naturally.";
     Autogen.llm_config := llm_config;
     Autogen.agent_is_termination_msg :=
       stateless (is_termination_msg termination_condition) |}.

(** dialog.py, [DialogueGenerator.create_dialogue] *)
Definition create_dialogue (config_list : list dict)
    (character1_name character2_name situation termination_condition : string)
  : outcome dialogue :=
  llm_config1 <- subscript0 config_list ;;
  character1 <-
    Autogen.__init__ unit refuses
      (create_dialogue_character1 llm_config1 character1_name character2_name
         situation) ;;
  llm_config2 <- subscript0 config_list ;;
  character2 <-
    Autogen.__init__ unit refuses
      (create_dialogue_character2 llm_config2 character1_name character2_name
         situation termination_condition) ;;
  starter_message <-
    _generate_starter_message config_list character1_name character2_name situation ;;
  r <- Autogen.initiate_chat llm unit character1 character2 tt starter_message ;;
  let chat_result := ChatResult (fst r) in
  Ok chat_result.

(** main.py: the two agents, and [chat_result] as it is when
    [initiate_chat] returns (line 37).  Its [chat_history] is the list the
    shopkeeper keeps of the conversation, not a copy of it: what the rest
    of the script does to that list is in [main_py] below. *)
Definition customer (config_list : list dict) : outcome (Autogen.ConversableAgent unit) :=
  llm_config <- subscript0 config_list ;;
  Autogen.__init__ unit refuses
    {| Autogen.name := "customer";
       Autogen.system_message :=
         "You are a customer going to a supermarket."
         ++ "Once you complete your purchase, you should exactly say in all lowercase without any punctuation or symbols: 'thank you for your service'";
       Autogen.llm_config := llm_config;
       Autogen.agent_is_termination_msg := Autogen.default_is_termination_msg unit |}.

Definition shopkeeper (config_list : list dict) : outcome (Autogen.ConversableAgent unit) :=
  llm_config <- subscript0 config_list ;;
  Autogen.__init__ unit refuses
    {| Autogen.name := "shopkeeper";
       Autogen.system_message :=
         "You are the shopkeeper of a supermarket."
         ++ "If a customer says exactly 'Thank you for your service', you should say exactly 'Thank you, visit again.'";
       Autogen.llm_config := llm_config;
       Autogen.agent_is_termination_msg := stateless shopkeeper_is_termination_msg |}.

Definition chat_result (config_list : list dict) : outcome dialogue :=
  customer <- customer config_list ;;
  shopkeeper <- shopkeeper config_list ;;
  r <- Autogen.initiate_chat llm unit shopkeeper customer tt
         "What do you want to find?" ;;
  Ok (ChatResult (fst r)).

End Sessions.

(** ** The sessions of interface_dilogue.py *)

(** What the functions show on the page while they run. *)
Inductive ui_event : Type :=
| st_spinner (text : string)
| st_error (text : string)
| st_warning (text : string).

(** [turn_counter = {"count": 0, "max": max_turns}] *)
Record TurnCounter : Type := { count : Z; max : Z }.

(** interface_dilogue.py, [is_max_turns_reached] *)
Definition is_max_turns_reached (turn_counter : TurnCounter) (msg : dict)
  : outcome (bool * TurnCounter) :=
  let turn_counter :=
    {| count := count turn_counter + 1; max := max turn_counter |} in
  Ok ((count turn_counter >=? max turn_counter)%Z, turn_counter).

(** Truth value of a configuration: [None] and the empty dict are false. *)
Definition truthy (model_config : option dict) : bool :=
  match model_config with
  | Some (_ :: _) => true
  | _ => false
  end.

Section Interface.

Variable llm : dict -> string -> list dict -> Autogen.completion.
Variable refuses : string -> string -> dict -> option exn.

(** interface_dilogue.py, [generate_dialogue_with_autogen]: the [try]
    block, with what it has shown on the page when it returns or raises. *)
Definition generate_dialogue_with_autogen_try
    (character1_name character2_name situation : string) (max_turns : Z)
    (model_config : dict) : list ui_event * outcome dialogue :=
  let turn_counter := {| count := 0; max := max_turns |} in
  let character1_system_message :=
    "You are " ++ character1_name ++ ". You are in the following situation: "
    ++ situation ++ ". "
    ++ "Your goal is to have a realistic conversation with " ++ character2_name ++ " "
    ++ "that addresses the situation naturally. Keep your responses concise and focused on the dialogue." in
  let character2_system_message :=
    "You are " ++ character2_name ++ ". You are in the following situation: "
    ++ situation ++ ". "
    ++ "Your goal is to have a realistic conversation with " ++ character1_name ++ " "
    ++ "that addresses the situation naturally. Keep your responses concise and focused on the dialogue." in
  match
    (character1 <-
       Autogen.__init__ TurnCounter refuses
         {| Autogen.name := character1_name;
            Autogen.system_message := character1_system_message;
            Autogen.llm_config := model_config;
            Autogen.agent_is_termination_msg :=
              Autogen.default_is_termination_msg TurnCounter |} ;;
     character2 <-
       Autogen.__init__ TurnCounter refuses
         {| Autogen.name := character2_name;
            Autogen.system_message := character2_system_message;
            Autogen.llm_config := model_config;
            Autogen.agent_is_termination_msg := is_max_turns_reached |} ;;
     starter_agent <-
       Autogen.__init__ TurnCounter refuses
         {| Autogen.name := "starter_helper";
            Autogen.system_message :=
              "You are an assistant that generates the first line of dialogue for "
              ++ character1_name ++ " to say to " ++ character2_name
              ++ " in this situation: " ++ situation ++ ". "
              ++ "Provide only the dialogue line, nothing else. Keep it concise and natural.";
            Autogen.llm_config := model_config;
            Autogen.agent_is_termination_msg :=
              Autogen.default_is_termination_msg TurnCounter |} ;;
     Ok (character1, character2, starter_agent))
  with
  | Ok (character1, character2, starter_agent) =>
      let shown := [st_spinner "Generating dialogue starter..."] in
      match Autogen.generate_reply llm TurnCounter starter_agent
              [[("role", "user");
                ("content", "Generate the first line of dialogue for "
                            ++ character1_name ++ ".")]] with
      | Ok starter_message =>
          let shown := list_append shown (st_spinner "Generating dialogue...") in
          (shown,
           chat_result <- Autogen.initiate_chat llm TurnCounter character1
                            character2 turn_counter starter_message ;;
           Ok (ChatResult (fst chat_result)))
      | Raise e => (shown, Raise e)
      | OutOfFuel => (shown, OutOfFuel)
      end
  | Raise e => ([], Raise e)
  | OutOfFuel => ([], OutOfFuel)
  end.

(** interface_dilogue.py, [generate_dialogue_with_autogen]; the result
    [None] is Python's [None]. *)
Definition generate_dialogue_with_autogen
    (character1_name character2_name situation : string) (max_turns : Z)
    (model_config : option dict) : list ui_event * outcome (option dialogue) :=
  match model_config with
  | Some ((_ :: _) as model_config) =>
      match generate_dialogue_with_autogen_try character1_name character2_name
              situation max_turns model_config with
      | (shown, Ok chat_result) => (shown, Ok (Some chat_result))
      | (shown, Raise e) =>
          (list_append shown
             (st_error ("Error generating dialogue: " ++ exn_str e)),
           Ok None)
      | (shown, OutOfFuel) => (shown, OutOfFuel)
      end
  | _ => ([], Ok None)
  end.

(** interface_dilogue.py, [generate_dialogue]; [draw] is the random number
    the fallback consumes. *)
Definition generate_dialogue (AUTOGEN_AVAILABLE : bool) (draw : nat)
    (character1_name character2_name situation : string) (max_turns : Z)
    (model_config : option dict) : list ui_event * outcome dialogue :=
  let fallback (shown : list ui_event) :=
    (shown, generate_dialogue_fallback draw character1_name character2_name
              situation max_turns) in
  if AUTOGEN_AVAILABLE && truthy model_config then
    match generate_dialogue_with_autogen character1_name character2_name
            situation max_turns model_config with
    | (shown, Ok (Some dialogue)) => (shown, Ok dialogue)
    | (shown, Ok None) => fallback shown
    | (shown, Raise e) =>
        fallback (list_append shown
                    (st_warning ("API Error: " ++ exn_str e ++ nl ++ nl
                                 ++ "Switching to fallback mode.")))
    | (shown, OutOfFuel) => (shown, OutOfFuel)
    end
  else fallback [].

End Interface.

(** ** The JSON export

    [save_dialogue_to_file] hands a dict of strings and of a list of
    dicts of strings to Python's [json.dump(data, f, indent=2)]; reading
    the file back is [json.load].  Of the [json] module this is the part
    such data goes through: strings, lists and dicts. *)

Module Json.

(** The Python values the export is made of. *)
#[warnings="-register-all"]
Inductive value : Type :=
| VStr (s : string)
| VList (lst : list value)
| VDict (dct : list (string * value)).

Definition dq : ascii := ascii_of_nat 34.
Definition backslash : ascii := ascii_of_nat 92.

Definition hex_digit (n : nat) : ascii :=
  match n with
  | 0 => "0" | 1 => "1" | 2 => "2" | 3 => "3" | 4 => "4" | 5 => "5"
  | 6 => "6" | 7 => "7" | 8 => "8" | 9 => "9" | 10 => "a" | 11 => "b"
  | 12 => "c" | 13 => "d" | 14 => "e" | _ => "f"
  end%char.

(** [encode_basestring_ascii], one code point: the quote, the backslash
    and five control characters have a two-letter escape, the printable
    ASCII characters stand for themselves, every other code point is
    written [\u00xx]. *)
Definition escape_char (c : ascii) : string :=
  let n := nat_of_ascii c in
  if (n =? 34)%nat then String backslash (String dq "")
  else if (n =? 92)%nat then String backslash (String backslash "")
  else if (n =? 10)%nat then String backslash "n"
  else if (n =? 13)%nat then String backslash "r"
  else if (n =? 9)%nat then String backslash "t"
  else if (n =? 12)%nat then String backslash "f"
  else if (n =? 8)%nat then String backslash "b"
  else if ((32 <=? n) && (n <=? 126))%nat then String c ""
  else String backslash
         (String "u" (String "0" (String "0"
            (String (hex_digit (n / 16)) (String (hex_digit (n mod 16)) ""))))).

Fixpoint escape (s : string) : string :=
  match s with
  | EmptyString => ""
  | String c s' => escape_char c ++ escape s'
  end.

Definition encode_basestring_ascii (s : string) : string :=
  String dq (escape s ++ String dq "").

(** [_indent * _current_indent_level], for [indent=2]. *)
Fixpoint indentation (level : nat) : string :=
  match level with
  | O => ""
  | S level' => "  " ++ indentation level'
  end.

Definition newline_indent (level : nat) : string := nl ++ indentation level.

(** The loops of [_iterencode_list] and [_iterencode_dict]: [separator]
    goes before every item but the first. *)
Fixpoint _iterencode_list (encode : value -> string) (separator : string)
    (lst : list value) (first : bool) : string :=
  match lst with
  | [] => ""
  | v :: lst' =>
      (if first then "" else separator)
      ++ encode v ++ _iterencode_list encode separator lst' false
  end.

Fixpoint _iterencode_dict (encode : value -> string) (separator : string)
    (dct : list (string * value)) (first : bool) : string :=
  match dct with
  | [] => ""
  | (k, v) :: dct' =>
      (if first then "" else separator)
      ++ encode_basestring_ascii k ++ ": "
      ++ encode v ++ _iterencode_dict encode separator dct' false
  end.

(** [_iterencode], with [indent=2] (so the item separator is ","
    followed by a new line and the key separator is ": "); the chunks it
    yields are joined. *)
Fixpoint _iterencode (o : value) (_current_indent_level : nat) : string :=
  match o with
  | VStr s => encode_basestring_ascii s
  | VList [] => "[]"
  | VList lst =>
      let level := S _current_indent_level in
      "[" ++ newline_indent level
      ++ _iterencode_list (fun v => _iterencode v level)
           ("," ++ newline_indent level) lst true
      ++ newline_indent _current_indent_level ++ "]"
  | VDict [] => "{}"
  | VDict dct =>
      let level := S _current_indent_level in
      "{" ++ newline_indent level
      ++ _iterencode_dict (fun v => _iterencode v level)
           ("," ++ newline_indent level) dct true
      ++ newline_indent _current_indent_level ++ "}"
  end.

(** [json.dumps(obj, indent=2)]: what [json.dump] writes. *)
Definition dumps (obj : value) : string := _iterencode obj 0.

(** White space between tokens: space, tab, new line, carriage return. *)
Definition is_ws (c : ascii) : bool :=
  let n := nat_of_ascii c in
  ((n =? 32) || (n =? 9) || (n =? 10) || (n =? 13))%nat.

Fixpoint skip_ws (s : string) : string :=
  match s with
  | EmptyString => ""
  | String c s' => if is_ws c then skip_ws s' else s
  end.

Definition hex_value (c : ascii) : option nat :=
  let n := nat_of_ascii c in
  if ((48 <=? n) && (n <=? 57))%nat then Some (n - 48)
  else if ((97 <=? n) && (n <=? 102))%nat then Some (n - 87)
  else if ((65 <=? n) && (n <=? 70))%nat then Some (n - 55)
  else None.

(** [BACKSLASH]: the two-letter escapes. *)
Definition unescape (e : ascii) : option ascii :=
  let n := nat_of_ascii e in
  if (n =? 34)%nat then Some dq
  else if (n =? 92)%nat then Some backslash
  else if (n =? 47)%nat then Some "/"%char
  else if (n =? 98)%nat then Some (ascii_of_nat 8)
  else if (n =? 102)%nat then Some (ascii_of_nat 12)
  else if (n =? 110)%nat then Some (ascii_of_nat 10)
  else if (n =? 114)%nat then Some (ascii_of_nat 13)
  else if (n =? 116)%nat then Some (ascii_of_nat 9)
  else None.

Definition cons_char (c : ascii) (r : string * string) : string * string :=
  (String c (fst r), snd r).

(** [scanstring], strict, from just after the opening quote: the string
    read and the text after its closing quote.  A [\u] escape of a code
    point from 256 on is outside the strings of this development. *)
Fixpoint scanstring (s : string) : outcome (string * string) :=
  match s with
  | EmptyString => Raise (JSONDecodeError "Unterminated string starting at")
  | String c s' =>
      if (nat_of_ascii c =? 34)%nat then Ok ("", s')
      else if (nat_of_ascii c =? 92)%nat then
        match s' with
        | EmptyString => Raise (JSONDecodeError "Unterminated string starting at")
        | String esc s'' =>
            if (nat_of_ascii esc =? 117)%nat then
              match s'' with
              | String h1 (String h2 (String h3 (String h4 rest))) =>
                  match hex_value h1, hex_value h2, hex_value h3, hex_value h4 with
                  | Some 0, Some 0, Some d3, Some d4 =>
                      r <- scanstring rest ;;
                      Ok (cons_char (ascii_of_nat (16 * d3 + d4)) r)
                  | Some _, Some _, Some _, Some _ =>
                      Raise (JSONDecodeError "code point beyond 255")
                  | _, _, _, _ => Raise (JSONDecodeError "Invalid \uXXXX escape")
                  end
              | _ => Raise (JSONDecodeError "Invalid \uXXXX escape")
              end
            else
              match unescape esc with
              | Some char => r <- scanstring s'' ;; Ok (cons_char char r)
              | None => Raise (JSONDecodeError "Invalid \escape")
              end
        end
      else if (nat_of_ascii c <? 32)%nat
      then Raise (JSONDecodeError "Invalid control character at")
      else r <- scanstring s' ;; Ok (cons_char c r)
  end.

(** [d[k] = v] *)
Fixpoint dict_set (d : list (string * value)) (k : string) (v : value)
  : list (string * value) :=
  match d with
  | [] => [(k, v)]
  | (k', v') :: d' =>
      if String.eqb k' k then (k', v) :: d' else (k', v') :: dict_set d' k v
  end.

(** [dict(pairs)] *)
Definition dict_of_pairs (pairs : list (string * value)) : list (string * value) :=
  fold_left (fun d kv => dict_set d (fst kv) (snd kv)) pairs [].

(** [scan_once] with [JSONArray] and [JSONObject]; numbers and the
    literals [true], [false] and [null] are outside this development.
    [JSONArray_loop] starts at a value, [JSONObject_loop] just after the
    opening quote of a key. *)
Fixpoint scan_once (fuel : nat) (s : string) : outcome (value * string) :=
  match fuel with
  | O => OutOfFuel
  | S fuel =>
      match s with
      | EmptyString => Raise (JSONDecodeError "Expecting value")
      | String c s' =>
          if (nat_of_ascii c =? 34)%nat then
            r <- scanstring s' ;; Ok (VStr (fst r), snd r)
          else if (nat_of_ascii c =? 123)%nat then
            match skip_ws s' with
            | String c' s'' =>
                if (nat_of_ascii c' =? 125)%nat then Ok (VDict [], s'')
                else if (nat_of_ascii c' =? 34)%nat
                then JSONObject_loop fuel s'' []
                else Raise (JSONDecodeError
                              "Expecting property name enclosed in double quotes")
            | EmptyString =>
                Raise (JSONDecodeError
                         "Expecting property name enclosed in double quotes")
            end
          else if (nat_of_ascii c =? 91)%nat then
            match skip_ws s' with
            | String c' s'' =>
                if (nat_of_ascii c' =? 93)%nat then Ok (VList [], s'')
                else JSONArray_loop fuel (skip_ws s') []
            | EmptyString => Raise (JSONDecodeError "Expecting value")
            end
          else Raise (JSONDecodeError "Expecting value")
      end
  end

with JSONArray_loop (fuel : nat) (s : string) (values : list value)
  : outcome (value * string) :=
  match fuel with
  | O => OutOfFuel
  | S fuel =>
      r <- scan_once fuel s ;;
      let values := list_append values (fst r) in
      match skip_ws (snd r) with
      | String c s' =>
          if (nat_of_ascii c =? 93)%nat then Ok (VList values, s')
          else if (nat_of_ascii c =? 44)%nat
          then JSONArray_loop fuel (skip_ws s') values
          else Raise (JSONDecodeError "Expecting ',' delimiter")
      | EmptyString => Raise (JSONDecodeError "Expecting ',' delimiter")
      end
  end

with JSONObject_loop (fuel : nat) (s : string) (pairs : list (string * value))
  : outcome (value * string) :=
  match fuel with
  | O => OutOfFuel
  | S fuel =>
      k <- scanstring s ;;
      match skip_ws (snd k) with
      | String c s' =>
          if (nat_of_ascii c =? 58)%nat then
            r <- scan_once fuel (skip_ws s') ;;
            let pairs := list_append pairs (fst k, fst r) in
            match skip_ws (snd r) with
            | String c s' =>
                if (nat_of_ascii c =? 125)%nat
                then Ok (VDict (dict_of_pairs pairs), s')
                else if (nat_of_ascii c =? 44)%nat then
                  match skip_ws s' with
                  | String c' s'' =>
                      if (nat_of_ascii c' =? 34)%nat
                      then JSONObject_loop fuel s'' pairs
                      else Raise (JSONDecodeError
                             "Expecting property name enclosed in double quotes")
                  | EmptyString =>
                      Raise (JSONDecodeError
                             "Expecting property name enclosed in double quotes")
                  end
                else Raise (JSONDecodeError "Expecting ',' delimiter")
            | EmptyString => Raise (JSONDecodeError "Expecting ',' delimiter")
            end
          else Raise (JSONDecodeError "Expecting ':' delimiter")
      | EmptyString => Raise (JSONDecodeError "Expecting ':' delimiter")
      end
  end.

(** [json.loads(s)]: one value, with white space around it and nothing
    else.  No call of the scanner reads less than one code point, so the
    length of the text is fuel enough. *)
Definition loads (s : string) : outcome value :=
  r <- scan_once (S (String.length s)) (skip_ws s) ;;
  match skip_ws (snd r) with
  | EmptyString => Ok (fst r)
  | String _ _ => Raise (JSONDecodeError "Extra data")
  end.

End Json.

(** A message dict as a Python value. *)
Definition value_of_message (m : dict) : Json.value :=
  Json.VDict (map (fun kv => (fst kv, Json.VStr (snd kv))) m).

(** The disk: the paths that exist on it ([os.path.exists]) and what its
    files hold. *)
Record filesystem : Type := {
  path_exists : string -> bool;
  read_file : string -> option string }.

(** interface_dilogue.py, [save_dialogue_to_file]: the [data] it dumps. *)
Definition save_dialogue_data (character1_name character2_name situation
    isoformat : string) (messages : list dict) : Json.value :=
  Json.VDict
    [ ("character1", Json.VStr character1_name);
      ("character2", Json.VStr character2_name);
      ("situation", Json.VStr situation);
      ("timestamp", Json.VStr isoformat);
      ("messages", Json.VList (map value_of_message messages)) ].

Section Saving.

(** What the operating system answers when a directory is made and when
    a path is opened for writing on a disk: nothing, or the error the
    call raises (no such directory, a directory in the way, no
    permission, ...). *)
Variable makedirs_error : filesystem -> string -> option exn.
Variable open_error : filesystem -> string -> option exn.

(** [os.makedirs(path)] *)
Definition makedirs (fs : filesystem) (path : string)
  : filesystem * outcome unit :=
  match makedirs_error fs path with
  | Some e => (fs, Raise e)
  | None =>
      ({| path_exists := fun p => if String.eqb p path then true
                                  else path_exists fs p;
          read_file := read_file fs |},
       Ok tt)
  end.

(** [with open(filename, "w") as f: f.write(text)]: nothing is written
    when the file does not open. *)
Definition write_file (fs : filesystem) (filename text : string)
  : filesystem * outcome unit :=
  match open_error fs filename with
  | Some e => (fs, Raise e)
  | None =>
      ({| path_exists := fun p => if String.eqb p filename then true
                                  else path_exists fs p;
          read_file := fun p => if String.eqb p filename then Some text
                                else read_file fs p |},
       Ok tt)
  end.

(** interface_dilogue.py, [save_dialogue_to_file]: the disk it leaves and
    the file name it returns, or what it raises; [strftime] and
    [isoformat] are what the two readings of the clock give. *)
Definition save_dialogue_to_file (fs : filesystem) (strftime isoformat : string)
    (d : dialogue) (character1_name character2_name situation : string)
  : filesystem * outcome string :=
  let '(fs, made) :=
    if negb (path_exists fs "saved_dialogues")
    then makedirs fs "saved_dialogues" else (fs, Ok tt) in
  match made with
  | Ok _ =>
      let timestamp := strftime in
      let filename := "saved_dialogues/dialogue_" ++ character1_name ++ "_"
                      ++ character2_name ++ "_" ++ timestamp ++ ".json" in
      let messages := extract_messages d in
      let data := save_dialogue_data character1_name character2_name situation
                    isoformat messages in
      let '(fs, written) := write_file fs filename (Json.dumps data) in
      (fs, _ <- written ;; Ok filename)
  | Raise e => (fs, Raise e)
  | OutOfFuel => (fs, OutOfFuel)
  end.

End Saving.

(** ** Notions the properties are stated with *)

(** Every code point of [s] is white space (so also when [s] is empty). *)
Fixpoint blank (s : string) : bool :=
  match s with
  | EmptyString => true
  | String c s' => Py.isspace c && blank s'
  end.

Definition is_system (m : dict) : bool :=
  option_eqb (get m "role") (Some "system").

(** The speaker a rendering names for a turn: the [name] of an
    ["assistant"] turn, the role tag of any other. *)
Definition speaker (m : dict) : string :=
  if option_eqb (get m "role") (Some "assistant")
  then get_default m "name" "Unknown"
  else get_default m "role" "Unknown".

(** One rendered turn: "speaker: content" and an empty line. *)
Definition line (m : dict) : string :=
  speaker m ++ ": " ++ get_default m "content" "" ++ nl ++ nl.

Definition concat_lines (l : list string) : string :=
  fold_right append "" l.

(** The result carries the placeholder note as a [system] turn. *)
Definition carries_placeholder_note (d : dialogue) : bool :=
  existsb (fun m => is_system m
                    && option_eqb (get m "content") (Some placeholder_note))
    (extract_messages d).

(** The speaker names of a two-party transcript of [n] turns that starts
    with [a]: a, b, a, b, ... *)
Fixpoint alternation (a b : string) (n : nat) : list string :=
  match n with
  | O => []
  | S n' => a :: alternation b a n'
  end.

(** The three starter sentences, about the word [w], addressed to [b]. *)
Definition starter_templates (b w : string) : list string :=
  [ "Hello " ++ b ++ ", I wanted to talk about " ++ w ++ "...";
    "Hey " ++ b ++ ", do you have a moment? I need to discuss " ++ w ++ ".";
    "Hi " ++ b ++ "! I've been thinking about " ++ w ++ "." ].

(** The transcript of the fallback generator around a starter sentence. *)
Definition fallback_messages (a b situation w starter : string) : list dict :=
  [ [("role", "assistant"); ("name", a); ("content", starter)];
    [("role", "system"); ("content", placeholder_note)];
    [("role", "assistant"); ("name", b);
     ("content", "Hi " ++ a ++ "! Sure, what about " ++ w
                 ++ " did you want to discuss?")];
    [("role", "assistant"); ("name", a);
     ("content", "Well, regarding " ++ situation
                 ++ ", I was hoping we could work through it together.")] ].

(** A turn has the keys [format_dialogue] subscripts. *)
Definition subscriptable (m : dict) : bool :=
  match get m "role", get m "content" with
  | Some role, Some _ =>
      if String.eqb role "assistant"
      then match get m "name" with Some _ => true | None => false end
      else true
  | _, _ => false
  end.

(** What [extract_messages] makes of a dict of the chat history. *)
Definition normalised (entry : dict) : dict :=
  [("role", "assistant"); ("name", get_default entry "name" "Unknown");
   ("content", get_default entry "content" "")].

(** The log of a two-party exchange of [texts], kept by the party that
    holds [role1] on the first of them: the roles and the speaker names
    alternate. *)
Fixpoint turns (role1 role2 name1 name2 : string) (texts : list string)
  : list dict :=
  match texts with
  | [] => []
  | t :: ts =>
      [("content", t); ("role", role1); ("name", name1)]
        :: turns role2 role1 name2 name1 ts
  end.

(** Every text but the last was received by a party whose predicate said
    no: [P1] is asked about the first text, [P2] about the second, and so
    on in turn; the speakers are [name1], [name2], ... *)
Fixpoint answered (P1 P2 : dict -> Prop) (name1 name2 : string)
    (texts : list string) : Prop :=
  match texts with
  | [] => True
  | t :: ts =>
      match ts with
      | [] => True
      | _ :: _ =>
          P1 [("content", t); ("role", "user"); ("name", name1)]
          /\ answered P2 P1 name2 name1 ts
      end
  end.

(** The agent's predicate said no to [msg] (in some state of its
    closure). *)
Definition declined {St : Type} (a : Autogen.ConversableAgent St) (msg : dict)
  : Prop :=
  exists st st', Autogen.agent_is_termination_msg St a st msg = Ok (false, st').

(** The rounds of the scanner a value takes. *)
Fixpoint weight (v : Json.value) : nat :=
  match v with
  | Json.VStr _ => 1
  | Json.VList lst => S (list_sum (map (fun v => S (weight v)) lst))
  | Json.VDict dct => S (list_sum (map (fun kv => S (weight (snd kv))) dct))
  end.

(** The value is one a Python program can hold: no dict in it has a key
    twice. *)
#[warnings="-register-all"]
Inductive is_python : Json.value -> Prop :=
| is_python_str s : is_python (Json.VStr s)
| is_python_list lst : Forall is_python lst -> is_python (Json.VList lst)
| is_python_dict dct :
    NoDup (map fst dct) -> Forall (fun kv => is_python (snd kv)) dct ->
    is_python (Json.VDict dct).

(** The association list is a Python dict: no key occurs twice. *)
Fixpoint unique_keys (m : dict) : bool :=
  match m with
  | [] => true
  | (k, _) :: m' => negb (existsb (String.eqb k) (map fst m')) && unique_keys m'
  end.

(** Reading a message dict, and the turn list [data["messages"]], back
    from a parsed export. *)
Fixpoint strings_of_pairs (dct : list (string * Json.value)) : option dict :=
  match dct with
  | [] => Some []
  | (k, Json.VStr v) :: dct' =>
      option_map (cons (k, v)) (strings_of_pairs dct')
  | _ :: _ => None
  end.

Definition message_of_value (v : Json.value) : option dict :=
  match v with
  | Json.VDict dct => strings_of_pairs dct
  | _ => None
  end.

Fixpoint messages_of_values (lst : list Json.value) : option (list dict) :=
  match lst with
  | [] => Some []
  | v :: lst' =>
      match message_of_value v, messages_of_values lst' with
      | Some m, Some ms => Some (m :: ms)
      | _, _ => None
      end
  end.

Fixpoint value_get (dct : list (string * Json.value)) (k : string)
  : option Json.value :=
  match dct with
  | [] => None
  | (k', v) :: dct' => if String.eqb k' k then Some v else value_get dct' k
  end.

Definition export_messages (data : Json.value) : option (list dict) :=
  match data with
  | Json.VDict dct =>
      match value_get dct "messages" with
      | Some (Json.VList lst) => messages_of_values lst
      | _ => None
      end
  | _ => None
  end.

(** What the scanner is shown to do on the text of a value. *)
Definition scans (v : Json.value) : Prop :=
  forall level rest fuel,
    (weight v <= fuel)%nat ->
    Json.scan_once fuel (Json._iterencode v level ++ rest) = Ok (v, rest).

(** ** Providers used as examples *)

(** A provider that answers "ok" to everything. *)
Definition llm_ok : dict -> string -> list dict -> Autogen.completion :=
  fun _ _ _ => Autogen.Text "ok".

(** A provider under which the second participant says the termination
    phrase first and the first participant repeats it. *)
Definition llm_understands : dict -> string -> list dict -> Autogen.completion :=
  fun _ system_message messages =>
    if prefix "You are an assistant" system_message
    then Autogen.Text "Let us begin."
    else match length messages with
         | 1 => Autogen.Text "Now I understand."
         | _ => Autogen.Text "Good, I understand that you do."
         end.

(** A provider that writes the starter line and fails on every later
    call. *)
Definition llm_rate_limited : dict -> string -> list dict -> Autogen.completion :=
  fun _ system_message _ =>
    if prefix "You are an assistant" system_message
    then Autogen.Text "Shall we look at the sequence?"
    else Autogen.Failed (ProviderError "rate limit reached").

(** A configuration as [config_list_from_dotenv] makes them, and a
    library that refuses to build an agent from a configuration without
    an API key. *)
Definition example_config : dict :=
  [("model", "llama-3.3-70b-versatile"); ("api_key", "gsk_example");
   ("api_type", "groq")].

Definition wants_api_key : string -> string -> dict -> option exn :=
  fun _ _ llm_config =>
    match get llm_config "api_key" with
    | Some _ => None
    | None => Some (OtherException "AssertionError" "no api_key in the configuration")
    end.

(** An operating system that makes every directory it is asked for and
    opens a file for writing when the directory named before the last
    slash of its path exists. *)
Fixpoint dirname (path : string) : string :=
  match path with
  | EmptyString => ""
  | String c rest =>
      if Py.contains "/" rest then String c (dirname rest) else ""
  end.

Definition makes_directories : filesystem -> string -> option exn :=
  fun _ _ => None.

Definition opens_in_directories : filesystem -> string -> option exn :=
  fun fs path =>
    if path_exists fs (dirname path) then None
    else Some (OtherException "FileNotFoundError"
                 ("[Errno 2] No such file or directory: '" ++ path ++ "'")).

Definition empty_disk : filesystem :=
  {| path_exists := fun _ => false; read_file := fun _ => None |}.

(** ** More of dialog.py *)

Section DialogPy.

Variable llm : dict -> string -> list dict -> Autogen.completion.
Variable refuses : string -> string -> dict -> option exn.

(** dialog.py, [generate_specific_dialogue]; [config_list] is what
    [config_list_from_dotenv] loaded. *)
Definition generate_specific_dialogue (config_list : list dict)
    (character1_name character2_name situation termination_condition : string)
  : outcome dialogue :=
  let is_termination_msg := is_termination_msg termination_condition in
  let character1_system_message :=
    "You are " ++ character1_name ++ ". You are in the following situation: "
    ++ situation ++ ". "
    ++ "Your goal is to have a realistic conversation with " ++ character2_name ++ " "
    ++ "that addresses the situation naturally." in
  let character2_system_message :=
    "You are " ++ character2_name ++ ". You are in the following situation: "
    ++ situation ++ ". "
    ++ "Your goal is to have a realistic conversation with " ++ character1_name ++ " "
    ++ "that addresses the situation naturally." in
  llm_config1 <- subscript0 config_list ;;
  character1 <-
    Autogen.__init__ unit refuses
      {| Autogen.name := character1_name;
         Autogen.system_message := character1_system_message;
         Autogen.llm_config := llm_config1;
         Autogen.agent_is_termination_msg :=
           Autogen.default_is_termination_msg unit |} ;;
  llm_config2 <- subscript0 config_list ;;
  character2 <-
    Autogen.__init__ unit refuses
      {| Autogen.name := character2_name;
         Autogen.system_message := character2_system_message;
         Autogen.llm_config := llm_config2;
         Autogen.agent_is_termination_msg := stateless is_termination_msg |} ;;
  llm_config3 <- subscript0 config_list ;;
  starter_agent <-
    Autogen.__init__ unit refuses
      {| Autogen.name := "starter_helper";
         Autogen.system_message :=
           "You are an assistant that generates the first line of dialogue for "
           ++ character1_name ++ " to say to " ++ character2_name
           ++ " in this situation: " ++ situation ++ ". "
           ++ "Provide only the dialogue line, nothing else.";
         Autogen.llm_config := llm_config3;
         Autogen.agent_is_termination_msg :=
           Autogen.default_is_termination_msg unit |} ;;
  starter_message <-
    Autogen.generate_reply llm unit starter_agent
      [[("role", "user");
        ("content", "Generate the first line of dialogue for " ++ character1_name ++ ".")]] ;;
  chat_result <-
    Autogen.initiate_chat llm unit character1 character2 tt starter_message ;;
  Ok (ChatResult (fst chat_result)).

(** dialog.py, [generate_fibonacci_dialogue]: the two agents it asks the
    constructor for and the line the teacher opens with. *)
Definition teacher (llm_config : dict) : Autogen.ConversableAgent unit :=
  {| Autogen.name := "Teacher";
     Autogen.system_message :=
       "You are a math teacher helping a student understand the Fibonacci sequence. "
       ++ "Your goal is to guide the student to understand and solve Fibonacci problems. "
       ++ "Explain concepts clearly and provide examples. Ask questions to check understanding. "
       ++ "Be patient and encouraging.";
     Autogen.llm_config := llm_config;
     Autogen.agent_is_termination_msg := Autogen.default_is_termination_msg unit |}.

Definition student (llm_config : dict) : Autogen.ConversableAgent unit :=
  {| Autogen.name := "Student";
     Autogen.system_message :=
       "You are a student learning about the Fibonacci sequence. "
       ++ "You're struggling to understand the concept but are eager to learn. "
       ++ "Ask questions when you don't understand. "
       ++ "When you finally understand how to solve Fibonacci problems, "
       ++ "say exactly 'I understand how to solve Fibonacci problems now! Thank you for your help.'";
     Autogen.llm_config := llm_config;
     Autogen.agent_is_termination_msg := stateless student_is_termination_msg |}.

Definition fibonacci_opening : string :=
  "Today we're going to learn about the Fibonacci sequence. Have you heard of it before?".

(** dialog.py, [generate_fibonacci_dialogue] *)
Definition generate_fibonacci_dialogue (config_list : list dict)
  : outcome dialogue :=
  llm_config1 <- subscript0 config_list ;;
  teacher <- Autogen.__init__ unit refuses (teacher llm_config1) ;;
  llm_config2 <- subscript0 config_list ;;
  student <- Autogen.__init__ unit refuses (student llm_config2) ;;
  chat_result <-
    Autogen.initiate_chat llm unit teacher student tt fibonacci_opening ;;
  Ok (ChatResult (fst chat_result)).

(** The calls dialog.py's [main] makes to [print] and to [input], in
    order.  What the agent library writes on the terminal on its own
    while a chat runs is no part of it. *)
Inductive console : Type :=
| print (text : string)
| prompt (text : string).

(** dialog.py, [main]: the calls to [print] and [input] it has made when
    it returns or raises, and its outcome; [choice], [character1],
    [character2], [situation] and [termination] are what the user types at
    the five prompts (the last four are asked for under choice 2 only),
    and [config_list] is what [config_list_from_dotenv] loads. *)
Definition dialog_main (config_list : list dict)
    (choice character1 character2 situation termination : string)
  : list console * outcome unit :=
  let out :=
    [ print "Dialogue Generator - Choose an option:";
      print "1. Use predefined Teacher-Student Fibonacci dialogue";
      print "2. Create a custom dialogue";
      prompt "Enter your choice (1 or 2): " ] in
  if String.eqb choice "1" then
    match (dialogue <- generate_fibonacci_dialogue config_list ;;
           format_dialogue dialogue) with
    | Ok text => (list_append out (print text), Ok tt)
    | Raise e => (out, Raise e)
    | OutOfFuel => (out, OutOfFuel)
    end
  else if String.eqb choice "2" then
    let out := (out ++ [ prompt "Enter name for Character 1: ";
                         prompt "Enter name for Character 2: ";
                         prompt "Enter the situation: ";
                         prompt "Enter the termination condition: " ])%list in
    match (dialogue <- create_dialogue llm refuses config_list character1
                         character2 situation termination ;;
           format_dialogue dialogue) with
    | Ok text => (list_append out (print text), Ok tt)
    | Raise e => (out, Raise e)
    | OutOfFuel => (out, OutOfFuel)
    end
  else (list_append out (print "Invalid choice!"), Ok tt).

(** main.py, the whole script: the chat, then the customer's question
    sent on the same two logs.  The result is the shopkeeper's and the
    customer's log at the end. *)
Definition main_py (config_list : list dict) : outcome (list dict * list dict) :=
  customer <- customer refuses config_list ;;
  shopkeeper <- shopkeeper refuses config_list ;;
  r <- Autogen.initiate_chat llm unit shopkeeper customer tt
         "What do you want to find?" ;;
  let '(_, (s_shopkeeper, s_customer, st)) := r in
  r <- Autogen.send llm unit (2 * Autogen.MAX_CONSECUTIVE_AUTO_REPLY + 1)
         customer shopkeeper s_customer s_shopkeeper st
         "What did I ask you previously?" ;;
  let '(s_customer, s_shopkeeper, _) := r in
  Ok (Autogen.chat_messages s_shopkeeper, Autogen.chat_messages s_customer).

(** main.py, [chat_result] at the end of the script: [initiate_chat] put
    the shopkeeper's own list of the conversation in
    [chat_result.chat_history], and line 39 makes the shopkeeper append to
    that very list. *)
Definition chat_result_at_exit (config_list : list dict) : outcome dialogue :=
  logs <- main_py config_list ;;
  Ok (ChatResult (fst logs)).

End DialogPy.

(** ** More of interface_dilogue.py *)

(** interface_dilogue.py, [initialize_model_config];
    [config_list_from_dotenv] is what the library's loader returns
    ([inl]) or raises ([inr]). *)
Definition initialize_model_config (AUTOGEN_AVAILABLE : bool)
    (config_list_from_dotenv : list dict + exn) : list ui_event * option dict :=
  if negb AUTOGEN_AVAILABLE then ([], None)
  else
    match config_list_from_dotenv with
    | inl config_list =>
        ([], match config_list with
             | config :: _ => Some config
             | [] => None
             end)
    | inr e =>
        ([st_error ("Error initializing model configuration: " ++ exn_str e)],
         None)
    end.

(** What [display_dialogue] puts on the page. *)
Module Page.

Inductive item : Type :=
| write (text : string)
| warning (text : string)
| markdown (body : string) (unsafe_allow_html : bool)
| sleep.

End Page.

Definition quote : string := String Json.dq "".

(** The markup of one chat bubble. *)
Definition bubble (name_class bubble_class speaker content : string) : string :=
  nl ++ "            <div class=" ++ quote ++ "chat-name " ++ name_class ++ quote
  ++ ">" ++ speaker ++ "</div>"
  ++ nl ++ "            <div class=" ++ quote ++ "chat-bubble " ++ bubble_class
  ++ quote ++ ">" ++ content ++ "</div>"
  ++ nl ++ "            ".

(** interface_dilogue.py, [display_dialogue]: the loop body, on what the
    page shows so far. *)
Definition display_dialogue_step (debug_mode : bool)
    (character1_name character2_name : string)
    (page : list Page.item) (message : dict) : list Page.item :=
  if option_eqb (get message "role") (Some "system") && negb debug_mode
  then page
  else
    let speaker :=
      if option_eqb (get message "role") (Some "assistant")
      then get_default message "name" "Unknown"
      else get_default message "role" "Unknown" in
    let content := get_default message "content" "" in
    let '(name_class, bubble_class) :=
      if String.eqb speaker character1_name
      then ("character1-name", "character1-bubble")
      else if String.eqb speaker character2_name
      then ("character2-name", "character2-bubble")
      else ("character1-name", "character1-bubble") in
    (page ++ [ Page.markdown (bubble name_class bubble_class speaker content) true;
               Page.sleep ])%list.

(** interface_dilogue.py, [extract_messages]: what it writes on the page
    before it returns.  It writes about an object of unknown format only
    (one that is no dict with messages and has neither a chat history nor
    messages), and in debug mode only: its type, and the first 500 code
    points of its text.  [type_] and [str_] are what Python makes of
    [type(dialogue)] in a string and of [str(dialogue)]. *)
Definition extract_messages_writes (debug_mode : bool)
    (type_ str_ : dialogue -> string) (d : dialogue) : list Page.item :=
  match d with
  | PyDict None | PyObject None None =>
      if debug_mode
      then [ Page.write ("Unknown dialogue format: " ++ type_ d);
             Page.write (substring 0 500 (str_ d)) ]
      else []
  | _ => []
  end.

(** interface_dilogue.py, [display_dialogue]; [debug_mode] is the flag of
    the session state and [debug_report], what the debug block writes
    about the Python object it is given. *)
Definition display_dialogue (debug_mode : bool)
    (debug_report : dialogue -> list Page.item)
    (type_ str_ : dialogue -> string) (d : dialogue)
    (character1_name character2_name : string) : list Page.item :=
  let page := if debug_mode then debug_report d else [] in
  let page := (page ++ extract_messages_writes debug_mode type_ str_ d)%list in
  let messages := extract_messages d in
  match messages with
  | [] =>
      list_append page
        (Page.warning "No dialogue generated or messages couldn't be extracted.")
  | _ :: _ =>
      let page :=
        list_append page
          (Page.markdown ("### Dialogue between " ++ character1_name ++ " and "
                          ++ character2_name) false) in
      fold_left (display_dialogue_step debug_mode character1_name character2_name)
        messages page
  end.

(** ** Notions for the further properties *)

(** The agent's predicate said yes to [msg] (in some state of its
    closure). *)
Definition accepted {St : Type} (a : Autogen.ConversableAgent St) (msg : dict)
  : Prop :=
  exists st st', Autogen.agent_is_termination_msg St a st msg = Ok (true, st').

(** How a chat of [texts] went, [x] having sent the first of them to [y]
    when [x] had replied [cx] times in a row and [y], [cy] times: before
    the last text every receiver was below the reply limit, its predicate
    said no and it replied; at the last text the receiver was at the
    limit or its predicate said yes. *)
Fixpoint chat_trace {St : Type} (x y : Autogen.ConversableAgent St)
    (cx cy : nat) (texts : list string) : Prop :=
  match texts with
  | [] => False
  | t :: ts =>
      let msg := [("content", t); ("role", "user"); ("name", Autogen.name St x)] in
      match ts with
      | [] => (Autogen.MAX_CONSECUTIVE_AUTO_REPLY <= cy)%nat \/ accepted y msg
      | _ :: _ =>
          (cy < Autogen.MAX_CONSECUTIVE_AUTO_REPLY)%nat /\ declined y msg
          /\ chat_trace y x (S cy) cx ts
      end
  end.

(** The markup items of a page, in order. *)
Fixpoint bubbles (page : list Page.item) : list string :=
  match page with
  | [] => []
  | Page.markdown body true :: page' => body :: bubbles page'
  | _ :: page' => bubbles page'
  end.

(** The provider always answers, and never with the one word that ends
    a chat at an agent without a predicate of its own. *)
Definition talkative (llm : dict -> string -> list dict -> Autogen.completion)
  : Prop :=
  forall llm_config system_message messages,
    exists text,
      llm llm_config system_message messages = Autogen.Text text
      /\ text <> "TERMINATE".

(** The longest prefix of [s] without white space, and what follows it. *)
Fixpoint take_word (s : string) : string :=
  match s with
  | EmptyString => ""
  | String c s' => if Py.isspace c then "" else String c (take_word s')
  end.

Fixpoint drop_word (s : string) : string :=
  match s with
  | EmptyString => ""
  | String c s' => if Py.isspace c then s else drop_word s'
  end.

Fixpoint drop_spaces (s : string) : string :=
  match s with
  | EmptyString => ""
  | String c s' => if Py.isspace c then drop_spaces s' else s
  end.

(** A provider under which the student says the agreed sentence at once
    and the teacher quotes it back. *)
Definition llm_fibonacci : dict -> string -> list dict -> Autogen.completion :=
  fun _ system_message _ =>
    if prefix "You are a student" system_message
    then Autogen.Text
           "I understand how to solve Fibonacci problems now! Thank you for your help."
    else Autogen.Text
           "You said: I understand how to solve Fibonacci problems now. Well done.".

(** The key [format_dialogue] misses first in a message it cannot
    render. *)
Definition missing_key (m : dict) : string :=
  match get m "role" with
  | None => "role"
  | Some role =>
      if String.eqb role "assistant"
      then match get m "name" with
           | None => "name"
           | Some _ => "content"
           end
      else "content"
  end.

(** The bubble [display_dialogue] draws for a message. *)
Definition bubble_of (character1_name character2_name : string) (m : dict)
  : string :=
  if negb (String.eqb (speaker m) character1_name)
     && String.eqb (speaker m) character2_name
  then bubble "character2-name" "character2-bubble" (speaker m)
         (get_default m "content" "")
  else bubble "character1-name" "character1-bubble" (speaker m)
         (get_default m "content" "").

(** The dicts among the entries of a chat history. *)
Fixpoint dict_entries (chat_history : list entry) : list dict :=
  match chat_history with
  | [] => []
  | EDict d :: rest => d :: dict_entries rest
  | EOther :: rest => dict_entries rest
  end.

(** A provider under which the customer thanks the shopkeeper at once
    and the shopkeeper answers what it is asked. *)
Definition llm_thanks : dict -> string -> list dict -> Autogen.completion :=
  fun _ system_message _ =>
    if prefix "You are a customer" system_message
    then Autogen.Text "milk, thank you for your service"
    else Autogen.Text "You asked what I want to find.".

(** * Properties *)

(** ** Strings *)

Lemma append_assoc (a b c : string) : (a ++ b) ++ c = a ++ (b ++ c).
Proof. induction a as [|x a IH]; simpl; [reflexivity | now rewrite IH]. Qed.

Lemma append_nil_r (a : string) : a ++ "" = a.
Proof. induction a as [|x a IH]; simpl; [reflexivity | now rewrite IH]. Qed.

Lemma prefix_iff (p s : string) : prefix p s = true <-> exists b, s = p ++ b.
Proof.
  revert s; induction p as [|c p IH]; intros s.
  - split; [intros _; now exists s | intros _; now destruct s].
  - destruct s as [|d s]; simpl;
      [split; [discriminate | intros [b H]; discriminate] |].
    destruct (ascii_dec c d) as [->|ne].
    + rewrite IH. split; intros [b H]; exists b; [now rewrite H | now inversion H].
    + split; [discriminate | intros [b H]; inversion H; congruence].
Qed.

Lemma contains_iff (p s : string) : Py.contains p s = true <-> occurs p s.
Proof.
  unfold occurs. induction s as [|d s IH]; cbn [Py.contains].
  - destruct (prefix p "") eqn:E.
    + split; [intros _ | reflexivity].
      apply prefix_iff in E. destruct E as [b E]. now exists "", b.
    + split; [discriminate |].
      intros (a & b & H). destruct a as [|x a]; [|discriminate].
      simpl in H. assert (prefix p "" = true) by (apply prefix_iff; now exists b).
      congruence.
  - destruct (prefix p (String d s)) eqn:E.
    + split; [intros _ | reflexivity].
      apply prefix_iff in E. destruct E as [b E]. now exists "", b.
    + rewrite IH. split.
      * intros (a & b & H). exists (String d a), b. simpl. now rewrite H.
      * intros (a & b & H). destruct a as [|x a].
        -- simpl in H. assert (prefix p (String d s) = true)
             by (apply prefix_iff; now exists b). congruence.
        -- inversion H. now exists a, b.
Qed.

Lemma lower_app (a b : string) : Py.lower (a ++ b) = Py.lower a ++ Py.lower b.
Proof. induction a as [|x a IH]; simpl; [reflexivity | now rewrite IH]. Qed.

Lemma lower_split (t x y : string) :
  Py.lower t = x ++ y ->
  exists t1 t2, t = t1 ++ t2 /\ Py.lower t1 = x /\ Py.lower t2 = y.
Proof.
  revert t; induction x as [|c x IH]; intros t H; simpl in H.
  - now exists "", t.
  - destruct t as [|d t]; [discriminate |]. simpl in H. inversion H as [[Hc Ht]].
    destruct (IH t Ht) as (t1 & t2 & -> & H1 & H2).
    exists (String d t1), t2. simpl. now rewrite H1.
Qed.

Lemma ci_eq_iff (p w : string) : ci_eq p w <-> Py.lower p = Py.lower w.
Proof.
  split.
  - induction 1 as [|c d s t Hc _ IH]; simpl; [reflexivity | now rewrite Hc, IH].
  - revert w; induction p as [|c p IH]; intros [|d w] H; simpl in H;
      try discriminate; [constructor |].
    inversion H. constructor; [assumption | now apply IH].
Qed.

Lemma lower_occurs_iff (p t : string) :
  occurs (Py.lower p) (Py.lower t) <-> ci_occurs p t.
Proof.
  split.
  - intros (a & b & H).
    destruct (lower_split _ _ _ H) as (t1 & t2 & -> & H1 & H2).
    destruct (lower_split _ _ _ H2) as (w & t3 & -> & Hw & H3).
    exists t1, w, t3. split; [reflexivity | now apply ci_eq_iff].
  - intros (a & w & b & -> & H). apply ci_eq_iff in H.
    exists (Py.lower a), (Py.lower b). now rewrite !lower_app, H.
Qed.

Lemma is_termination_msg_content (p : string) (msg : dict) (t : string) :
  get msg "content" = Some t ->
  is_termination_msg p msg = Ok (Py.contains (Py.lower p) (Py.lower t)).
Proof. intros H. unfold is_termination_msg, item. now rewrite H. Qed.

(** ** The constructor of agents *)

Lemma init_ok (St : Type) (refuses : string -> string -> dict -> option exn)
    (a a' : Autogen.ConversableAgent St) :
  Autogen.__init__ St refuses a = Ok a' ->
  a' = a
  /\ refuses (Autogen.name St a) (Autogen.system_message St a)
       (Autogen.llm_config St a) = None.
Proof.
  unfold Autogen.__init__.
  destruct (refuses _ _ _); [discriminate|]. intros H. now injection H as <-.
Qed.

Lemma init_raises (St : Type) (refuses : string -> string -> dict -> option exn)
    (a : Autogen.ConversableAgent St) (e : exn) :
  Autogen.__init__ St refuses a = Raise e ->
  refuses (Autogen.name St a) (Autogen.system_message St a)
    (Autogen.llm_config St a) = Some e.
Proof.
  unfold Autogen.__init__.
  destruct (refuses _ _ _); [|discriminate]. intros H. now injection H as <-.
Qed.

Lemma init_returns (St : Type) (refuses : string -> string -> dict -> option exn)
    (a : Autogen.ConversableAgent St) :
  Autogen.__init__ St refuses a <> OutOfFuel.
Proof. unfold Autogen.__init__. destruct (refuses _ _ _); discriminate. Qed.

Lemma init_built (St : Type) (refuses : string -> string -> dict -> option exn)
    (a : Autogen.ConversableAgent St) :
  refuses (Autogen.name St a) (Autogen.system_message St a)
    (Autogen.llm_config St a) = None ->
  Autogen.__init__ St refuses a = Ok a.
Proof. unfold Autogen.__init__. now intros ->. Qed.

(** An agent asked for is built, or the step raises or runs out, which the
    goal at hand excludes. *)
Ltac built :=
  match goal with
  | |- context [Autogen.__init__ ?St ?r ?a] =>
      let c := fresh "agent" in
      let I := fresh "I" in
      destruct (Autogen.__init__ St r a) as [c| |] eqn:I; cbn [bind];
      try discriminate;
      [apply init_ok in I; destruct I as [-> _]]
  end.

(** An agent asked for is built or refused. *)
Ltac built_or_refused :=
  match goal with
  | |- context [Autogen.__init__ ?St ?r ?a] =>
      let c := fresh "agent" in
      let I := fresh "I" in
      destruct (Autogen.__init__ St r a) as [c| |] eqn:I; cbn [bind];
      [ apply init_ok in I; destruct I as [-> _]
      | apply init_raises in I
      | exfalso; exact (init_returns _ _ _ I) ]
  end.

(** ** Content-match predicates *)

(** C3, counterexample: the shopkeeper's predicate of main.py is false of
    a text in which its phrase occurs up to letter case. *)
Lemma shopkeeper_predicate_is_case_sensitive :
  ~ (shopkeeper_is_termination_msg
       [("content", "Thank you for your service"); ("role", "user");
        ("name", "customer")] = Ok true
     <-> ci_occurs shopkeeper_phrase "Thank you for your service").
Proof.
  intros [_ H].
  assert (O : ci_occurs shopkeeper_phrase "Thank you for your service").
  { apply lower_occurs_iff, contains_iff. reflexivity. }
  specialize (H O). vm_compute in H. discriminate.
Qed.

(** C3, as amended: on a phrase and a text of code points below 256 (the
    strings of this development), the predicate built from a termination
    phrase in dialog.py ([create_dialogue], [generate_specific_dialogue])
    is true exactly when the phrase occurs in the text up to letter case,
    and does not change when the case of the phrase or of the text
    changes; the fixed-phrase predicates of [generate_fibonacci_dialogue]
    and of main.py are true exactly when their phrase occurs in the text
    letter for letter. *)
Theorem content_match_predicates :
  (forall p t msg, get msg "content" = Some t ->
     (is_termination_msg p msg = Ok true <-> ci_occurs p t)) /\
  (forall p p' t t' msg msg',
     get msg "content" = Some t -> get msg' "content" = Some t' ->
     ci_eq p p' -> ci_eq t t' ->
     is_termination_msg p msg = is_termination_msg p' msg') /\
  (forall t msg, get msg "content" = Some t ->
     (student_is_termination_msg msg = Ok true <-> occurs fibonacci_phrase t)) /\
  (forall t msg, get msg "content" = Some t ->
     (shopkeeper_is_termination_msg msg = Ok true <-> occurs shopkeeper_phrase t)).
Proof.
  split; [|split; [|split]].
  - intros p t msg Hm. rewrite (is_termination_msg_content _ _ _ Hm).
    rewrite <- lower_occurs_iff, <- contains_iff.
    split; [congruence | now intros ->].
  - intros p p' t t' msg msg' Hm Hm' Hp Ht.
    rewrite (is_termination_msg_content _ _ _ Hm),
            (is_termination_msg_content _ _ _ Hm').
    apply ci_eq_iff in Hp, Ht. now rewrite Hp, Ht.
  - intros t msg Hm. unfold student_is_termination_msg, item.
    rewrite Hm. simpl. rewrite <- contains_iff.
    split; [congruence | now intros ->].
  - intros t msg Hm. unfold shopkeeper_is_termination_msg, item.
    rewrite Hm. simpl. rewrite <- contains_iff.
    split; [congruence | now intros ->].
Qed.

Lemma content_match_predicates_witness :
  is_termination_msg "I Understand"
    [("content", "Ok, i UNDERSTAND now"); ("role", "user"); ("name", "Student")]
  = Ok true
  <-> ci_occurs "I Understand" "Ok, i UNDERSTAND now".
Proof. apply (proj1 content_match_predicates). reflexivity. Defined.

(** ** The fallback generator *)

Lemma split_aux_nil (cur : list ascii) (s : string) :
  Py.split_aux cur s = [] <-> cur = [] /\ blank s = true.
Proof.
  revert cur; induction s as [|c s IH]; intros cur; simpl.
  - destruct cur; split; try tauto; try discriminate.
    intros [H _]; discriminate.
  - destruct (Py.isspace c); simpl.
    + destruct cur as [|x cur]; simpl.
      * rewrite IH. tauto.
      * split; [discriminate | intros [H _]; discriminate].
    + rewrite IH. split; [intros [H _]; discriminate | intros [_ H]; discriminate].
Qed.

Lemma split_nil (s : string) : Py.split s = [] <-> blank s = true.
Proof. unfold Py.split. rewrite split_aux_nil. tauto. Qed.

Lemma mod3_cases (n : nat) : n mod 3 = 0 \/ n mod 3 = 1 \/ n mod 3 = 2.
Proof. pose proof (Nat.mod_upper_bound n 3). lia. Qed.

Lemma fallback_ok (draw : nat) (a b situation : string) (n : Z)
    (w : string) (rest : list string) :
  Py.split situation = w :: rest ->
  exists starter,
    nth_error (starter_templates b w) (draw mod 3) = Some starter /\
    generate_dialogue_fallback draw a b situation n
    = Ok (PyDict (Some (fallback_messages a b situation w starter))).
Proof.
  intros H. unfold generate_dialogue_fallback. rewrite H. cbn [subscript0 bind].
  unfold random_choice. cbn [length].
  fold (starter_templates b w).
  destruct (mod3_cases draw) as [E|[E|E]]; rewrite E;
    eexists; (split; [reflexivity|]); reflexivity.
Qed.

Lemma fallback_blank (draw : nat) (a b situation : string) (n : Z) :
  blank situation = true ->
  generate_dialogue_fallback draw a b situation n = Raise IndexError.
Proof.
  intros H. apply split_nil in H. unfold generate_dialogue_fallback.
  now rewrite H.
Qed.

Lemma starter_templates_distinct (b w : string) (i j : nat) (x : string) :
  nth_error (starter_templates b w) i = Some x ->
  nth_error (starter_templates b w) j = Some x ->
  i = j.
Proof.
  destruct i as [|[|[|i]]], j as [|[|[|j]]]; simpl; intros Hi Hj;
    try reflexivity; try (destruct i; discriminate);
    try (destruct j; discriminate);
    rewrite <- Hj in Hi; discriminate.
Qed.

(** C10: the fallback generator returns a transcript record with a messages
    list whenever the situation has some word, i.e. a code point that is
    not white space, and raises [IndexError] when the situation is empty or
    white space only. *)
Theorem generate_dialogue_fallback_partial
    (draw : nat) (character1_name character2_name situation : string)
    (max_turns : Z) :
  (blank situation = false ->
   exists messages,
     generate_dialogue_fallback draw character1_name character2_name
       situation max_turns = Ok (PyDict (Some messages))) /\
  (blank situation = true ->
   generate_dialogue_fallback draw character1_name character2_name
     situation max_turns = Raise IndexError).
Proof.
  split; [|apply fallback_blank].
  intros H. destruct (Py.split situation) as [|w rest] eqn:E.
  - apply split_nil in E. congruence.
  - destruct (fallback_ok draw character1_name character2_name situation
                max_turns w rest E) as (starter & _ & R).
    eexists. exact R.
Qed.

Lemma generate_dialogue_fallback_partial_witness :
  (exists messages,
     generate_dialogue_fallback 0 "Teacher" "Student"
       "The teacher is helping the student." 5 = Ok (PyDict (Some messages))) /\
  generate_dialogue_fallback 0 "Teacher" "Student" "   " 5 = Raise IndexError.
Proof.
  split.
  - apply (proj1 (generate_dialogue_fallback_partial 0 "Teacher" "Student"
                    "The teacher is helping the student." 5)).
    reflexivity.
  - apply (proj2 (generate_dialogue_fallback_partial 0 "Teacher" "Student"
                    "   " 5)).
    reflexivity.
Defined.

(** C7, counterexample: two runs of the fallback generator on the same
    names and situation return different texts when the random draws
    differ. *)
Lemma fallback_runs_differ :
  generate_dialogue_fallback 0 "Teacher" "Student" "Fibonacci problems" 5
  <> generate_dialogue_fallback 1 "Teacher" "Student" "Fibonacci problems" 5.
Proof. vm_compute. discriminate. Qed.

(** C7, as amended: for fixed names and situation, two runs of the fallback
    generator return the same turns after the starter turn; the starter is
    one of three templated sentences naming the first word of the
    situation, picked by the random draw, and the two runs return the same
    transcript exactly when their draws pick the same template. *)
Theorem fallback_deterministic_up_to_starter
    (d1 d2 : nat) (character1_name character2_name situation : string)
    (max_turns : Z) (m1 m2 : list dict) :
  generate_dialogue_fallback d1 character1_name character2_name situation
    max_turns = Ok (PyDict (Some m1)) ->
  generate_dialogue_fallback d2 character1_name character2_name situation
    max_turns = Ok (PyDict (Some m2)) ->
  tl m1 = tl m2 /\
  (m1 = m2 <-> d1 mod 3 = d2 mod 3) /\
  exists w rest s1,
    Py.split situation = w :: rest /\
    nth_error (starter_templates character2_name w) (d1 mod 3) = Some s1 /\
    hd [] m1 = [("role", "assistant"); ("name", character1_name); ("content", s1)].
Proof.
  intros H1 H2. destruct (Py.split situation) as [|w rest] eqn:E.
  - apply split_nil in E. rewrite (fallback_blank _ _ _ _ _ E) in H1. discriminate.
  - destruct (fallback_ok d1 character1_name character2_name situation
                max_turns w rest E) as (s1 & T1 & R1).
    destruct (fallback_ok d2 character1_name character2_name situation
                max_turns w rest E) as (s2 & T2 & R2).
    rewrite R1 in H1; rewrite R2 in H2.
    injection H1 as <-. injection H2 as <-.
    split; [reflexivity|]. split.
    + split.
      * intros M. injection M as M. subst s2.
        exact (starter_templates_distinct _ _ _ _ _ T1 T2).
      * intros D. rewrite D in T1. congruence.
    + exists w, rest, s1. auto.
Qed.

Lemma fallback_deterministic_up_to_starter_witness :
  fallback_messages "Teacher" "Student" "Fibonacci problems" "Fibonacci"
    "Hey Student, do you have a moment? I need to discuss Fibonacci."
  = fallback_messages "Teacher" "Student" "Fibonacci problems" "Fibonacci"
      "Hi Student! I've been thinking about Fibonacci."
  <-> 1 mod 3 = 2 mod 3.
Proof.
  exact (proj1 (proj2 (fallback_deterministic_up_to_starter 1 2
           "Teacher" "Student" "Fibonacci problems" 5 _ _ eq_refl eq_refl))).
Defined.

(** ** Renderings *)

Lemma concat_lines_app (l1 l2 : list string) :
  concat_lines (l1 ++ l2)%list = concat_lines l1 ++ concat_lines l2.
Proof.
  induction l1 as [|x l1 IH]; simpl; [reflexivity|].
  now rewrite IH, append_assoc.
Qed.

Lemma format_dialogue_text_step_line (text : string) (m : dict) :
  format_dialogue_text_step text m
  = if is_system m then text else text ++ line m.
Proof. reflexivity. Qed.

Lemma format_dialogue_text_loop (ms : list dict) (text : string) :
  fold_left format_dialogue_text_step ms text
  = text ++ concat_lines (map line (filter (fun m => negb (is_system m)) ms)).
Proof.
  revert text; induction ms as [|m ms IH]; intros text; simpl.
  - now rewrite append_nil_r.
  - rewrite IH, format_dialogue_text_step_line.
    destruct (is_system m); simpl; [reflexivity | now rewrite append_assoc].
Qed.

Lemma format_dialogue_step_line (acc : string) (m : dict) :
  subscriptable m = true ->
  format_dialogue_step (Ok acc) m = Ok (acc ++ line m).
Proof.
  unfold subscriptable, format_dialogue_step, line, speaker, item, get_default.
  cbn [bind]. destruct (get m "role") as [role|]; [|discriminate].
  destruct (get m "content") as [content|]; [|discriminate].
  cbn [bind option_eqb]. destruct (String.eqb role "assistant"); cbn [negb].
  - destruct (get m "name"); [reflexivity | discriminate].
  - reflexivity.
Qed.

Lemma format_dialogue_loop (ms : list dict) (acc : string) :
  forallb subscriptable ms = true ->
  fold_left format_dialogue_step ms (Ok acc)
  = Ok (acc ++ concat_lines (map line ms)).
Proof.
  revert acc; induction ms as [|m ms IH]; intros acc H; cbn [fold_left map].
  - simpl. now rewrite append_nil_r.
  - simpl in H. apply andb_prop in H. destruct H as [Hm Hms].
    rewrite (format_dialogue_step_line _ _ Hm), (IH _ Hms).
    simpl. now rewrite append_assoc.
Qed.

(** C8, counterexample: [format_dialogue] of dialog.py renders the system
    turn of a transcript. *)
Lemma format_dialogue_renders_system_turns :
  exists text,
    format_dialogue
      (PyDict (Some [ [("role", "assistant"); ("name", "Teacher"); ("content", "Hello")];
                      [("role", "system"); ("content", "placeholder")] ]))
    = Ok text /\
    occurs "system: placeholder" text.
Proof.
  eexists. split; [reflexivity|]. apply contains_iff. reflexivity.
Qed.

(** C8, as amended: the text rendering of interface_dilogue.py
    ([format_dialogue_text]) is its two header lines followed by one
    "speaker: content" line for every turn that is not a system turn, in
    transcript order, and by nothing for a system turn; the rendering of
    dialog.py ([format_dialogue]) is its header followed by one line for
    every turn, system turns included. *)
Theorem renderings
    (character1_name character2_name situation : string) :
  (forall d,
     format_dialogue_text d character1_name character2_name situation
     = ("Dialogue between " ++ character1_name ++ " and " ++ character2_name ++ nl
        ++ "Situation: " ++ situation ++ nl ++ nl)
       ++ concat_lines
            (map line (filter (fun m => negb (is_system m)) (extract_messages d)))) /\
  (forall messages,
     forallb subscriptable messages = true ->
     format_dialogue (PyDict (Some messages))
     = Ok ((nl ++ "FULL DIALOGUE:" ++ nl ++ nl)
           ++ concat_lines (map line messages))).
Proof.
  split.
  - intros d. unfold format_dialogue_text. rewrite format_dialogue_text_loop.
    f_equal. now rewrite !append_assoc.
  - intros messages H. unfold format_dialogue. cbn [messages_item bind].
    now apply format_dialogue_loop.
Qed.

Lemma renderings_witness :
  format_dialogue
    (PyDict (Some [ [("role", "assistant"); ("name", "Teacher"); ("content", "Hello")];
                    [("role", "system"); ("content", "placeholder")] ]))
  = Ok ((nl ++ "FULL DIALOGUE:" ++ nl ++ nl)
        ++ concat_lines
             (map line [ [("role", "assistant"); ("name", "Teacher"); ("content", "Hello")];
                         [("role", "system"); ("content", "placeholder")] ])).
Proof. apply (proj2 (renderings "Teacher" "Student" "school")). reflexivity. Defined.

(** ** Results of [generate_dialogue] *)

Lemma extract_messages_loop (h : list dict) (acc : list dict) :
  fold_left
    (fun messages e =>
       match e with
       | EDict entry =>
           let sender_name := get_default entry "name" "Unknown" in
           let content := get_default entry "content" "" in
           list_append messages
             [("role", "assistant"); ("name", sender_name); ("content", content)]
       | EOther => messages
       end)
    (map EDict h) acc
  = (acc ++ map normalised h)%list.
Proof.
  revert acc; induction h as [|e h IH]; intros acc; simpl.
  - now rewrite app_nil_r.
  - rewrite IH. unfold list_append. now rewrite <- app_assoc.
Qed.

Lemma extract_messages_ChatResult (h : list dict) :
  extract_messages (ChatResult h) = map normalised h.
Proof. unfold ChatResult, extract_messages. now rewrite extract_messages_loop. Qed.

Lemma ChatResult_carries_no_note (h : list dict) :
  carries_placeholder_note (ChatResult h) = false.
Proof.
  unfold carries_placeholder_note. rewrite extract_messages_ChatResult.
  induction h as [|e h IH]; simpl; [reflexivity | exact IH].
Qed.

Lemma generate_dialogue_with_autogen_result
    (llm : dict -> string -> list dict -> Autogen.completion)
    (refuses : string -> string -> dict -> option exn)
    (a b situation : string) (n : Z) (cfg : option dict)
    (shown : list ui_event) (d : dialogue) :
  generate_dialogue_with_autogen llm refuses a b situation n cfg = (shown, Ok (Some d)) ->
  exists h, d = ChatResult h.
Proof.
  unfold generate_dialogue_with_autogen.
  destruct cfg as [[|kv cfg]|]; try discriminate.
  unfold generate_dialogue_with_autogen_try. do 3 built.
  match goal with |- context [Autogen.generate_reply ?l ?S ?ag ?ms] =>
    destruct (Autogen.generate_reply l S ag ms) as [starter|e|] end;
    try discriminate.
  match goal with |- context [Autogen.initiate_chat ?l ?S ?x ?y ?st ?m] =>
    destruct (Autogen.initiate_chat l S x y st m) as [r|e|] end;
    cbn [bind]; try discriminate.
  intros H. injection H as _ <-. now eexists.
Qed.

(** C5: whatever [generate_dialogue] returns, either it is the transcript
    of the fallback generator, a dict whose messages carry the placeholder
    note as a system turn, or it is the provider's chat result, an object
    whose messages carry no such note: the two are told apart in the result
    itself. *)
Theorem fallback_result_is_tagged
    (llm : dict -> string -> list dict -> Autogen.completion)
    (refuses : string -> string -> dict -> option exn)
    (AUTOGEN_AVAILABLE : bool) (draw : nat)
    (character1_name character2_name situation : string) (max_turns : Z)
    (model_config : option dict) (shown : list ui_event) (d : dialogue) :
  generate_dialogue llm refuses AUTOGEN_AVAILABLE draw character1_name character2_name
    situation max_turns model_config = (shown, Ok d) ->
  (generate_dialogue_fallback draw character1_name character2_name situation
     max_turns = Ok d /\
   (exists messages, d = PyDict (Some messages)) /\
   carries_placeholder_note d = true)
  \/
  (generate_dialogue_with_autogen llm refuses character1_name character2_name
     situation max_turns model_config = (shown, Ok (Some d)) /\
   (exists chat_history, d = ChatResult chat_history) /\
   carries_placeholder_note d = false).
Proof.
  assert (F : forall d', generate_dialogue_fallback draw character1_name
                character2_name situation max_turns = Ok d' ->
              (exists messages, d' = PyDict (Some messages)) /\
              carries_placeholder_note d' = true).
  { intros d' H. destruct (Py.split situation) as [|w rest] eqn:E.
    - apply split_nil in E. rewrite (fallback_blank _ _ _ _ _ E) in H. discriminate.
    - destruct (fallback_ok draw character1_name character2_name situation
                  max_turns w rest E) as (s & _ & R).
      rewrite R in H. injection H as <-. split; [now eexists | reflexivity]. }
  unfold generate_dialogue.
  destruct (AUTOGEN_AVAILABLE && truthy model_config).
  - destruct (generate_dialogue_with_autogen llm refuses character1_name character2_name
                situation max_turns model_config) as [shown' [[d'|]|e|]] eqn:G;
      intros H.
    + inversion H; subst. right.
      destruct (generate_dialogue_with_autogen_result _ _ _ _ _ _ _ _ _ G) as [h ->].
      split; [reflexivity|]. split; [now exists h | apply ChatResult_carries_no_note].
    + injection H as Hs Hd. left. split; [exact Hd | now apply F].
    + injection H as Hs Hd. left. split; [exact Hd | now apply F].
    + discriminate.
  - intros H. injection H as Hs Hd. left. split; [exact Hd | now apply F].
Qed.

Lemma fallback_result_is_tagged_witness :
  carries_placeholder_note
    (PyDict (Some (fallback_messages "Teacher" "Student" "Fibonacci problems"
                     "Fibonacci" "Hello Student, I wanted to talk about Fibonacci...")))
  = true.
Proof.
  destruct (fallback_result_is_tagged (fun _ _ _ => Autogen.Text "ok")
              wants_api_key false 0
              "Teacher" "Student" "Fibonacci problems" 5 None [] _ eq_refl)
    as [(_ & _ & H)|(H & _)].
  - exact H.
  - discriminate H.
Defined.

(** ** The conversation protocol *)

Section ProtocolFacts.

Variable llm : dict -> string -> list dict -> Autogen.completion.
Variable St : Type.

#[local] Abbreviation send := (Autogen.send llm St).
#[local] Abbreviation agent := (Autogen.ConversableAgent St).
#[local] Abbreviation log := (Autogen.chat_messages).
#[local] Abbreviation name := (Autogen.name St).

(** One round of [send], by cases. *)
Lemma send_cases (fuel : nat) (x y : agent) (sx sy : Autogen.agent_state)
    (st : St) (m : string) (sx' sy' : Autogen.agent_state) (st' : St) :
  send (S fuel) x y sx sy st m = Ok (sx', sy', st') ->
  let sx1 := Autogen.logged sx "assistant" (name x) m in
  let sy1 := Autogen.logged sy "user" (name x) m in
  let msg := [("content", m); ("role", "user"); ("name", name x)] in
  (sx' = sx1 /\ sy' = Autogen.stopped sy1 /\
   ((Autogen.MAX_CONSECUTIVE_AUTO_REPLY
       <=? Autogen.consecutive_auto_reply_counter sy1)%nat = true /\ st' = st
    \/ Autogen.agent_is_termination_msg St y st msg = Ok (true, st')))
  \/
  (exists st1 reply,
     (Autogen.MAX_CONSECUTIVE_AUTO_REPLY
        <=? Autogen.consecutive_auto_reply_counter sy1)%nat = false /\
     Autogen.agent_is_termination_msg St y st msg = Ok (false, st1) /\
     Autogen.generate_oai_reply llm St y (log (Autogen.replied sy1)) = Ok reply /\
     send fuel y x (Autogen.replied sy1) sx1 st1 reply = Ok (sy', sx', st')).
Proof.
  intros H sx1 sy1 msg. cbn [Autogen.send] in H.
  change (Autogen.logged sx "assistant" (name x) m) with sx1 in H.
  change (Autogen.logged sy "user" (name x) m) with sy1 in H.
  change [("content", m); ("role", "user"); ("name", name x)] with msg in H.
  destruct (Autogen.MAX_CONSECUTIVE_AUTO_REPLY
              <=? Autogen.consecutive_auto_reply_counter sy1)%nat eqn:A.
  - left. inversion H; subst. auto.
  - destruct (Autogen.agent_is_termination_msg St y st msg)
      as [[fin st1]|e|] eqn:P; cbn [bind] in H; try discriminate.
    destruct fin.
    + left. inversion H; subst. auto.
    + right. exists st1.
      destruct (Autogen.generate_oai_reply llm St y (log (Autogen.replied sy1)))
        as [reply|e|] eqn:G; cbn [bind] in H; try discriminate.
      exists reply.
      destruct (send fuel y x (Autogen.replied sy1) sx1 st1 reply)
        as [[[a b] c]|e|] eqn:R; cbn [bind] in H; try discriminate.
      inversion H; subst. auto.
Qed.

Lemma send_shape (fuel : nat) :
  forall (x y : agent) (sx sy : Autogen.agent_state) (st : St) (m : string)
         (sx' sy' : Autogen.agent_state) (st' : St),
  send fuel x y sx sy st m = Ok (sx', sy', st') ->
  exists texts,
    log sx' = (log sx ++ turns "assistant" "user" (name x) (name y) (m :: texts))%list /\
    log sy' = (log sy ++ turns "user" "assistant" (name x) (name y) (m :: texts))%list /\
    answered (declined y) (declined x) (name x) (name y) (m :: texts).
Proof.
  induction fuel as [|fuel IH]; intros x y sx sy st m sx' sy' st' H;
    [discriminate|].
  apply send_cases in H. cbv zeta in H.
  destruct H as [(-> & -> & _)|(st1 & reply & _ & P & _ & R)].
  - exists []. simpl. auto.
  - apply IH in R. destruct R as (texts & Ly & Lx & A).
    exists (reply :: texts). cbn [Autogen.replied Autogen.logged log] in Ly, Lx.
    unfold list_append in Ly, Lx. rewrite <- !app_assoc in Ly, Lx.
    split; [exact Lx|]. split; [exact Ly|].
    cbn [answered]. split; [now exists st, st1 | exact A].
Qed.

(** [send] never runs out of fuel when it starts with one round more than
    the replies the two agents may still send. *)
Lemma send_fuel (fuel : nat) :
  forall (x y : agent) (sx sy : Autogen.agent_state) (st : St) (m : string),
  (forall st msg, Autogen.agent_is_termination_msg St x st msg <> OutOfFuel) ->
  (forall st msg, Autogen.agent_is_termination_msg St y st msg <> OutOfFuel) ->
  ((Autogen.MAX_CONSECUTIVE_AUTO_REPLY - Autogen.consecutive_auto_reply_counter sx)
   + (Autogen.MAX_CONSECUTIVE_AUTO_REPLY - Autogen.consecutive_auto_reply_counter sy)
   + 1 <= fuel)%nat ->
  send fuel x y sx sy st m <> OutOfFuel.
Proof.
  induction fuel as [|fuel IH]; intros x y sx sy st m Px Py F; [lia|].
  cbn [Autogen.send Autogen.logged Autogen.consecutive_auto_reply_counter].
  destruct (Autogen.MAX_CONSECUTIVE_AUTO_REPLY
              <=? Autogen.consecutive_auto_reply_counter sy)%nat eqn:A;
    [discriminate|].
  apply Nat.leb_gt in A.
  match goal with |- context [Autogen.agent_is_termination_msg St y st ?msg] =>
    pose proof (Py st msg) as Pm;
    destruct (Autogen.agent_is_termination_msg St y st msg) as [[fin st1]|e|]
  end; cbn [bind]; [|discriminate|congruence].
  destruct fin; [discriminate|].
  unfold Autogen.generate_oai_reply.
  match goal with |- context [llm ?c ?s ?h] => destruct (llm c s h) as [reply|e] end;
    cbn [bind]; [|discriminate].
  match goal with |- context [send fuel y x ?sy1 ?sx1 st1 reply] =>
    specialize (IH y x sy1 sx1 st1 reply Py Px);
    destruct (send fuel y x sy1 sx1 st1 reply) as [[[a b] c]|e|]
  end; cbn [bind]; try discriminate.
  exfalso. apply IH; [|reflexivity].
  cbn [Autogen.replied Autogen.logged Autogen.consecutive_auto_reply_counter]. lia.
Qed.

Lemma initiate_chat_returns (a b : agent) (st : St) (message : string) :
  (forall st msg, Autogen.agent_is_termination_msg St a st msg <> OutOfFuel) ->
  (forall st msg, Autogen.agent_is_termination_msg St b st msg <> OutOfFuel) ->
  Autogen.initiate_chat llm St a b st message <> OutOfFuel.
Proof.
  intros Pa Pb. unfold Autogen.initiate_chat.
  pose proof (send_fuel (2 * Autogen.MAX_CONSECUTIVE_AUTO_REPLY + 1) a b
                Autogen.fresh Autogen.fresh st message Pa Pb) as F.
  destruct (send (2 * Autogen.MAX_CONSECUTIVE_AUTO_REPLY + 1) a b
              Autogen.fresh Autogen.fresh st message) as [[[sa sb] st']|e|];
    cbn [bind]; try discriminate.
  exfalso. apply F; [|reflexivity].
  cbn [Autogen.fresh Autogen.consecutive_auto_reply_counter]. lia.
Qed.

Lemma initiate_chat_shape (a b : agent) (st : St) (message : string)
    (h : list dict) (r : Autogen.agent_state * Autogen.agent_state * St) :
  Autogen.initiate_chat llm St a b st message = Ok (h, r) ->
  exists texts,
    h = turns "assistant" "user" (name a) (name b) (message :: texts) /\
    answered (declined b) (declined a) (name a) (name b) (message :: texts).
Proof.
  unfold Autogen.initiate_chat.
  destruct (send (2 * Autogen.MAX_CONSECUTIVE_AUTO_REPLY + 1) a b
              Autogen.fresh Autogen.fresh st message) as [[[sa sb] st']|e|] eqn:R;
    cbn [bind]; try discriminate.
  intros H. inversion H; subst. apply send_shape in R.
  destruct R as (texts & La & _ & A). exists texts. split; [exact La | exact A].
Qed.

End ProtocolFacts.

Lemma default_predicate_returns (St : Type) (st : St) (msg : dict) :
  Autogen.default_is_termination_msg St st msg <> OutOfFuel.
Proof. discriminate. Qed.

Lemma stateless_predicate_returns (p : dict -> outcome bool) (st : unit) (msg : dict) :
  p msg <> OutOfFuel -> stateless p st msg <> OutOfFuel.
Proof. unfold stateless. destruct (p msg); cbn [bind]; congruence. Qed.

Lemma speakers_of_turns (texts : list string) :
  forall role1 role2 name1 name2,
  map speaker (map normalised (turns role1 role2 name1 name2 texts))
  = alternation name1 name2 (length texts).
Proof.
  induction texts as [|t ts IH]; intros role1 role2 name1 name2;
    [reflexivity|].
  cbn [turns map length alternation]. now rewrite IH.
Qed.

(** ** Sessions of dialog.py and main.py *)

Lemma create_dialogue_shape
    (llm : dict -> string -> list dict -> Autogen.completion)
    (refuses : string -> string -> dict -> option exn)
    (config_list : list dict)
    (character1_name character2_name situation termination_condition : string)
    (d : dialogue) :
  create_dialogue llm refuses config_list character1_name character2_name situation
    termination_condition = Ok d ->
  exists starter texts,
    _generate_starter_message llm refuses config_list character1_name character2_name
      situation = Ok starter /\
    d = ChatResult (turns "assistant" "user" character1_name character2_name
                      (starter :: texts)) /\
    answered (fun msg => is_termination_msg termination_condition msg = Ok false)
      (fun _ => True) character1_name character2_name (starter :: texts).
Proof.
  unfold create_dialogue. destruct (subscript0 config_list) as [cfg|e|];
    cbn [bind]; try discriminate.
  do 2 built.
  destruct (_generate_starter_message llm refuses config_list character1_name
              character2_name situation) as [starter|e|]; cbn [bind];
    try discriminate.
  match goal with |- context [Autogen.initiate_chat llm unit ?a ?b tt starter] =>
    destruct (Autogen.initiate_chat llm unit a b tt starter) as [[h r]|e|] eqn:R
  end; cbn [bind]; try discriminate.
  intros H. inversion H; subst. apply initiate_chat_shape in R.
  destruct R as (texts & -> & A). exists starter, texts.
  split; [reflexivity|]. split; [reflexivity|].
  unfold create_dialogue_character1 in A at 2.
  unfold create_dialogue_character2 in A at 2.
  cbn [Autogen.name] in A. clear H.
  revert A. generalize (starter :: texts). clear.
  intros l. revert character1_name character2_name.
  assert (G : forall (P1 P2 Q1 Q2 : dict -> Prop) n1 n2,
             (forall m, P1 m -> Q1 m) -> (forall m, P2 m -> Q2 m) ->
             answered P1 P2 n1 n2 l -> answered Q1 Q2 n1 n2 l).
  { induction l as [|t ts IH]; intros P1 P2 Q1 Q2 n1 n2 H1 H2; [auto|].
    cbn [answered]. destruct ts as [|u us]; [auto|].
    intros [Ht Hts]. split; [now apply H1|]. revert Hts. now apply IH. }
  intros n1 n2. apply G.
  - intros m (st & st' & Hm).
    unfold create_dialogue_character2 in Hm.
    cbn [Autogen.agent_is_termination_msg] in Hm. unfold stateless in Hm.
    destruct (is_termination_msg termination_condition m) as [[|]|e|];
      cbn [bind] in Hm; congruence.
  - auto.
Qed.

Lemma main_py_shape
    (llm : dict -> string -> list dict -> Autogen.completion)
    (refuses : string -> string -> dict -> option exn)
    (config_list : list dict) (shopkeeper_log customer_log : list dict) :
  main_py llm refuses config_list = Ok (shopkeeper_log, customer_log) ->
  exists texts1 texts2,
    chat_result llm refuses config_list
    = Ok (ChatResult (turns "assistant" "user" "shopkeeper" "customer"
                        ("What do you want to find?" :: texts1))) /\
    shopkeeper_log
    = (turns "assistant" "user" "shopkeeper" "customer"
         ("What do you want to find?" :: texts1)
       ++ turns "user" "assistant" "customer" "shopkeeper"
            ("What did I ask you previously?" :: texts2))%list.
Proof.
  unfold main_py, chat_result, customer, shopkeeper, Autogen.initiate_chat.
  destruct (subscript0 config_list) as [cfg|e|]; cbn [bind]; try discriminate.
  do 2 built.
  match goal with |- context [Autogen.send llm unit ?f ?a ?b Autogen.fresh Autogen.fresh tt ?m] =>
    destruct (Autogen.send llm unit f a b Autogen.fresh Autogen.fresh tt m)
      as [[[ss sc] st]|e|] eqn:R1
  end; cbn [bind fst]; try discriminate.
  match goal with |- context [Autogen.send llm unit ?f ?a ?b sc ss st ?m] =>
    destruct (Autogen.send llm unit f a b sc ss st m)
      as [[[sc' ss'] st']|e|] eqn:R2
  end; cbn [bind]; try discriminate.
  intros H. inversion H; subst. clear H.
  apply send_shape in R1. destruct R1 as (texts1 & L1 & _ & _).
  apply send_shape in R2. destruct R2 as (texts2 & _ & L2 & _).
  cbn [Autogen.fresh Autogen.chat_messages Autogen.name app] in L1, L2.
  exists texts1, texts2. rewrite L1 in *. split; [reflexivity | exact L2].
Qed.

(** C4, counterexample: at the end of main.py's script, under a provider
    whose customer thanks the shopkeeper at once, the history
    [chat_result] holds has the customer speak twice in a row: the line
    that ended the chat, then the question of line 39. *)
Lemma customer_speaks_twice_in_a_row :
  exists d,
    chat_result_at_exit llm_thanks wants_api_key [example_config] = Ok d /\
    map speaker (extract_messages d)
    = ["shopkeeper"; "customer"; "customer"; "shopkeeper"; "customer"].
Proof. eexists. split; vm_compute; reflexivity. Qed.

(** C4, as amended: the transcript of a completed session of
    [create_dialogue] starts with the generated starter line, said by the
    first participant, and from there on the turns are said by the second
    and the first participant in alternation (so are their roles in the
    log); the same holds of [chat_result] in main.py, which the shopkeeper
    starts, when [initiate_chat] returns.  At the end of main.py's script
    the history [chat_result] holds is that chat followed by the exchange
    the customer's question of line 39 opens: two alternating runs, the
    second of which the customer starts, whoever spoke last in the
    first. *)
Theorem transcript_alternates
    (llm : dict -> string -> list dict -> Autogen.completion)
    (refuses : string -> string -> dict -> option exn)
    (config_list : list dict) :
  (forall character1_name character2_name situation termination_condition d,
     create_dialogue llm refuses config_list character1_name character2_name
       situation termination_condition = Ok d ->
     exists starter texts,
       _generate_starter_message llm refuses config_list character1_name
         character2_name situation = Ok starter /\
       d = ChatResult (turns "assistant" "user" character1_name character2_name
                         (starter :: texts)) /\
       map speaker (extract_messages d)
       = alternation character1_name character2_name (S (length texts))) /\
  (forall d,
     chat_result llm refuses config_list = Ok d ->
     exists texts,
       d = ChatResult (turns "assistant" "user" "shopkeeper" "customer"
                         ("What do you want to find?" :: texts)) /\
       map speaker (extract_messages d)
       = alternation "shopkeeper" "customer" (S (length texts))) /\
  (forall d,
     chat_result_at_exit llm refuses config_list = Ok d ->
     exists texts1 texts2,
       chat_result llm refuses config_list
       = Ok (ChatResult (turns "assistant" "user" "shopkeeper" "customer"
                           ("What do you want to find?" :: texts1))) /\
       d = ChatResult
             (turns "assistant" "user" "shopkeeper" "customer"
                ("What do you want to find?" :: texts1)
              ++ turns "user" "assistant" "customer" "shopkeeper"
                   ("What did I ask you previously?" :: texts2))%list /\
       map speaker (extract_messages d)
       = (alternation "shopkeeper" "customer" (S (length texts1))
          ++ alternation "customer" "shopkeeper" (S (length texts2)))%list).
Proof.
  split; [|split].
  - intros a b situation tc d H. apply create_dialogue_shape in H.
    destruct H as (starter & texts & S & -> & _). exists starter, texts.
    split; [exact S|]. split; [reflexivity|].
    rewrite extract_messages_ChatResult. apply speakers_of_turns.
  - intros d. unfold chat_result, customer, shopkeeper.
    destruct (subscript0 config_list) as [cfg|e|]; cbn [bind]; try discriminate.
    do 2 built.
    match goal with |- context [Autogen.initiate_chat llm unit ?a ?b tt ?m] =>
      destruct (Autogen.initiate_chat llm unit a b tt m) as [[h r]|e|] eqn:R
    end; cbn [bind]; try discriminate.
    intros H. inversion H; subst. apply initiate_chat_shape in R.
    destruct R as (texts & -> & _). exists texts. split; [reflexivity|].
    rewrite extract_messages_ChatResult. apply speakers_of_turns.
  - intros d. unfold chat_result_at_exit.
    destruct (main_py llm refuses config_list) as [[shopkeeper_log customer_log]|e|]
      eqn:M; cbn [bind fst]; try discriminate.
    intros H. injection H as <-. apply main_py_shape in M.
    destruct M as (texts1 & texts2 & C & ->). exists texts1, texts2.
    split; [exact C|]. split; [reflexivity|].
    rewrite extract_messages_ChatResult, !map_app.
    rewrite (speakers_of_turns ("What do you want to find?" :: texts1)),
            (speakers_of_turns ("What did I ask you previously?" :: texts2)).
    reflexivity.
Qed.

Lemma transcript_alternates_witness :
  exists starter texts,
    _generate_starter_message llm_understands wants_api_key [example_config] "Teacher"
      "Student" "Fibonacci problems" = Ok starter /\
    ChatResult
      [ [("content", "Let us begin."); ("role", "assistant"); ("name", "Teacher")];
        [("content", "Now I understand."); ("role", "user"); ("name", "Student")];
        [("content", "Good, I understand that you do."); ("role", "assistant");
         ("name", "Teacher")] ]
    = ChatResult (turns "assistant" "user" "Teacher" "Student" (starter :: texts)) /\
    map speaker
      (extract_messages
         (ChatResult
            [ [("content", "Let us begin."); ("role", "assistant"); ("name", "Teacher")];
              [("content", "Now I understand."); ("role", "user"); ("name", "Student")];
              [("content", "Good, I understand that you do."); ("role", "assistant");
               ("name", "Teacher")] ]))
    = alternation "Teacher" "Student" (S (length texts)).
Proof.
  apply (proj1 (transcript_alternates llm_understands wants_api_key
                  [example_config])
           "Teacher" "Student" "Fibonacci problems" "I understand").
  vm_compute. reflexivity.
Defined.

Lemma answered_nth (l : list string) :
  forall (P1 P2 : dict -> Prop) (n1 n2 : string) (i : nat) (t : string),
  answered P1 P2 n1 n2 l ->
  nth_error l i = Some t -> (S i < length l)%nat ->
  if Nat.even i
  then P1 [("content", t); ("role", "user"); ("name", n1)]
  else P2 [("content", t); ("role", "user"); ("name", n2)].
Proof.
  induction l as [|t0 ts IH]; intros P1 P2 n1 n2 i t A N L;
    [simpl in L; lia|].
  cbn [answered] in A. destruct ts as [|u us]; [simpl in L; lia|].
  destruct A as [A0 A]. destruct i as [|j].
  - simpl in N. injection N as <-. exact A0.
  - cbn [nth_error] in N. cbn [length] in L.
    assert (L' : (S j < length (u :: us))%nat) by (cbn [length]; lia).
    pose proof (IH P2 P1 n2 n1 j t A N L') as H.
    rewrite Nat.even_succ, <- Nat.negb_even.
    destruct (Nat.even j); exact H.
Qed.

(** C2, the code at the failing input: in a session of [create_dialogue]
    with the phrase "I understand", the second turn, said by the second
    participant, contains the phrase (the predicate is true of it), and
    the session goes on: a third turn follows it. *)
Lemma matching_turn_is_followed :
  exists h m m',
    create_dialogue llm_understands wants_api_key [example_config] "Teacher" "Student"
      "Fibonacci problems" "I understand" = Ok (ChatResult h) /\
    nth_error h 1 = Some m /\
    is_termination_msg "I understand" m = Ok true /\
    nth_error h 2 = Some m'.
Proof.
  exists [ [("content", "Let us begin."); ("role", "assistant"); ("name", "Teacher")];
           [("content", "Now I understand."); ("role", "user"); ("name", "Student")];
           [("content", "Good, I understand that you do."); ("role", "assistant");
            ("name", "Teacher")] ].
  eexists. eexists.
  split; [vm_compute; reflexivity|].
  split; [reflexivity|]. split; reflexivity.
Qed.

(** ** Sessions of interface_dilogue.py *)

Lemma length_turns (texts : list string) :
  forall role1 role2 name1 name2,
  length (turns role1 role2 name1 name2 texts) = length texts.
Proof.
  induction texts as [|t ts IH]; intros; cbn [turns length]; [reflexivity|].
  now rewrite IH.
Qed.

Section TurnCounting.

Variable llm : dict -> string -> list dict -> Autogen.completion.

#[local] Abbreviation send := (Autogen.send llm TurnCounter).
#[local] Abbreviation log := (Autogen.chat_messages).

Variables character1 character2 : Autogen.ConversableAgent TurnCounter.

Hypothesis character1_predicate :
  Autogen.agent_is_termination_msg _ character1
  = Autogen.default_is_termination_msg TurnCounter.

Hypothesis character2_predicate :
  Autogen.agent_is_termination_msg _ character2 = is_max_turns_reached.

(** The length of the first participant's log when the chat stops, when
    it is the first participant that sends (the counter is at half the
    length of the log) and when it is the second (the counter is one
    ahead). *)
Lemma send_turn_bound (fuel : nat) :
  forall (s1 s2 : Autogen.agent_state) (st : TurnCounter) (m : string)
         (s1' s2' : Autogen.agent_state) (st' : TurnCounter),
  (send fuel character1 character2 s1 s2 st m = Ok (s1', s2', st') ->
   Z.of_nat (length (log s1)) = 2 * count st ->
   (count st = 0 \/ 0 <= count st < max st) ->
   Z.of_nat (length (log s1')) <= Z.max 1 (2 * max st - 1))%Z /\
  (send fuel character2 character1 s2 s1 st m = Ok (s2', s1', st') ->
   Z.of_nat (length (log s1)) = 2 * count st - 1 ->
   1 <= count st < max st ->
   Z.of_nat (length (log s1')) <= Z.max 1 (2 * max st - 1))%Z.
Proof.
  induction fuel as [|fuel IH]; intros s1 s2 st m s1' s2' st';
    [split; discriminate|].
  split; intros H L C; apply send_cases in H; cbv zeta in H.
  - destruct H as [(-> & _ & _)|(st1 & reply & _ & P & _ & R)].
    + cbn [Autogen.logged log]. unfold list_append.
      rewrite length_app. cbn [length]. lia.
    + rewrite character2_predicate in P. unfold is_max_turns_reached in P.
      injection P as P <-. cbn [count max] in P.
      apply (proj2 (IH _ _ _ _ _ _ _)) in R.
      * exact R.
      * cbn [Autogen.logged log count]. unfold list_append.
        rewrite length_app. cbn [length]. lia.
      * cbn [count max]. lia.
  - destruct H as [(_ & -> & _)|(st1 & reply & _ & P & _ & R)].
    + cbn [Autogen.stopped Autogen.logged log]. unfold list_append.
      rewrite length_app. cbn [length]. lia.
    + rewrite character1_predicate in P.
      unfold Autogen.default_is_termination_msg in P. injection P as _ <-.
      apply (proj1 (IH _ _ _ _ _ _ _)) in R.
      * exact R.
      * cbn [Autogen.replied Autogen.logged log]. unfold list_append.
        rewrite length_app. cbn [length]. lia.
      * lia.
Qed.

Lemma initiate_chat_turn_bound (max_turns : Z) (message : string)
    (h : list dict)
    (r : Autogen.agent_state * Autogen.agent_state * TurnCounter) :
  Autogen.initiate_chat llm TurnCounter character1 character2
    {| count := 0; max := max_turns |} message = Ok (h, r) ->
  (Z.of_nat (length h) <= Z.max 1 (2 * max_turns - 1))%Z.
Proof.
  unfold Autogen.initiate_chat.
  destruct (send (2 * Autogen.MAX_CONSECUTIVE_AUTO_REPLY + 1) character1
              character2 Autogen.fresh Autogen.fresh
              {| count := 0; max := max_turns |} message)
    as [[[sa sb] st']|e|] eqn:R; cbn [bind]; try discriminate.
  intros H. inversion H; subst.
  apply (proj1 (send_turn_bound _ _ _ _ _ _ _ _)) in R;
    cbn [count max Autogen.fresh log length] in *; [exact R | lia | lia].
Qed.

End TurnCounting.

(** C1, counterexample: with a bound of 5 turns and a provider that always
    answers, the transcript has 8 turns after the starter line. *)
Lemma max_turns_exceeded :
  exists shown h,
    generate_dialogue_with_autogen llm_ok wants_api_key "Teacher" "Student"
      "Fibonacci problems" 5 (Some example_config)
    = (shown, Ok (Some (ChatResult h))) /\
    (5 < length h - 1)%nat.
Proof.
  eexists.
  exists (turns "assistant" "user" "Teacher" "Student" (repeat "ok" 9)).
  split; [vm_compute; reflexivity | vm_compute; lia].
Qed.

(** C1, as amended: in a session of [generate_dialogue_with_autogen] with
    bound N the turn counter counts the messages the second participant
    receives, the starter line included, and the second participant stops
    replying as soon as it reaches N: the transcript has at most 2N-1
    turns, that is at most 2N-2 after the starter line, and the starter
    line alone when N is 1 or less. *)
Theorem max_turns_bound
    (llm : dict -> string -> list dict -> Autogen.completion)
    (refuses : string -> string -> dict -> option exn)
    (character1_name character2_name situation : string) (max_turns : Z)
    (model_config : option dict) (shown : list ui_event) (d : dialogue) :
  generate_dialogue_with_autogen llm refuses character1_name character2_name situation
    max_turns model_config = (shown, Ok (Some d)) ->
  exists texts,
    d = ChatResult (turns "assistant" "user" character1_name character2_name texts) /\
    (1 <= length texts)%nat /\
    (Z.of_nat (length texts) - 1 <= Z.max 0 (2 * max_turns - 2))%Z.
Proof.
  unfold generate_dialogue_with_autogen.
  destruct model_config as [[|kv cfg]|]; try discriminate.
  unfold generate_dialogue_with_autogen_try. do 3 built.
  match goal with |- context [Autogen.generate_reply ?l ?S ?ag ?ms] =>
    destruct (Autogen.generate_reply l S ag ms) as [starter|e|] end;
    try discriminate.
  match goal with |- context [Autogen.initiate_chat ?l ?S ?x ?y ?st ?m] =>
    destruct (Autogen.initiate_chat l S x y st m) as [[h r]|e|] eqn:R end;
    cbn [bind]; try discriminate.
  intros H. inversion H; subst. clear H.
  pose proof R as B. apply initiate_chat_turn_bound in B; [|reflexivity..].
  apply initiate_chat_shape in R. destruct R as (texts & -> & _).
  exists (starter :: texts). cbn [Autogen.name]. split; [reflexivity|].
  rewrite length_turns in B. cbn [length] in *. split; lia.
Qed.

Lemma max_turns_bound_witness :
  exists texts,
    ChatResult (turns "assistant" "user" "Teacher" "Student" (repeat "ok" 9))
    = ChatResult (turns "assistant" "user" "Teacher" "Student" texts) /\
    (1 <= length texts)%nat /\
    (Z.of_nat (length texts) - 1 <= Z.max 0 (2 * 5 - 2))%Z.
Proof.
  apply (max_turns_bound llm_ok wants_api_key "Teacher" "Student" "Fibonacci problems" 5
           (Some example_config)
           [st_spinner "Generating dialogue starter..."; st_spinner "Generating dialogue..."]).
  vm_compute. reflexivity.
Defined.

(** ** Failed provider calls *)






(** ** The JSON export *)

Lemma scanstring_escape_char (c : ascii) (tail : string) :
  Json.scanstring (Json.escape_char c ++ tail)
  = (r <- Json.scanstring tail ;; Ok (Json.cons_char c r)).
Proof.
  destruct c as [[] [] [] [] [] [] [] []]; reflexivity.
Qed.

Lemma scanstring_escape (s rest : string) :
  Json.scanstring (Json.escape s ++ String Json.dq rest) = Ok (s, rest).
Proof.
  induction s as [|c s IH]; [reflexivity|].
  cbn [Json.escape]. rewrite append_assoc, scanstring_escape_char, IH.
  reflexivity.
Qed.

Lemma scanstring_encoded (s rest : string) :
  Json.scanstring (Json.escape s ++ String Json.dq "" ++ rest) = Ok (s, rest).
Proof. apply scanstring_escape. Qed.

Lemma skip_ws_indentation (level : nat) (s : string) :
  Json.skip_ws (Json.indentation level ++ s) = Json.skip_ws s.
Proof. induction level as [|level IH]; [reflexivity | exact IH]. Qed.

Lemma skip_ws_newline_indent (level : nat) (s : string) :
  Json.skip_ws (Json.newline_indent level ++ s) = Json.skip_ws s.
Proof.
  unfold Json.newline_indent. rewrite append_assoc. apply skip_ws_indentation.
Qed.

Lemma value_nested_ind (P : Json.value -> Prop) :
  (forall s, P (Json.VStr s)) ->
  (forall lst, Forall P lst -> P (Json.VList lst)) ->
  (forall dct, Forall (fun kv => P (snd kv)) dct -> P (Json.VDict dct)) ->
  forall v, P v.
Proof.
  intros Hs Hl Hd.
  fix rec 1. intros [s|lst|dct].
  - apply Hs.
  - apply Hl. induction lst as [|v lst IH]; constructor; [apply rec | exact IH].
  - apply Hd. induction dct as [|[k v] dct IH]; constructor; [apply rec | exact IH].
Qed.

Lemma iterencode_head (v : Json.value) (level : nat) (rest : string) :
  exists c t,
    Json._iterencode v level ++ rest = String c t /\
    Json.is_ws c = false /\ (nat_of_ascii c =? 93)%nat = false.
Proof.
  destruct v as [s|[|v lst]|[|[k v] dct]]; cbn; eexists; eexists;
    (split; [reflexivity | split; reflexivity]).
Qed.

Lemma skip_ws_value (v : Json.value) (level : nat) (rest : string) :
  Json.skip_ws (Json._iterencode v level ++ rest)
  = Json._iterencode v level ++ rest.
Proof.
  destruct (iterencode_head v level rest) as (c & t & -> & W & _).
  cbn [Json.skip_ws]. now rewrite W.
Qed.

Lemma skip_ws_cons (c : ascii) (s : string) :
  Json.is_ws c = false -> Json.skip_ws (String c s) = String c s.
Proof. intros H. cbn [Json.skip_ws]. now rewrite H. Qed.

Lemma JSONArray_loop_items (vs : list Json.value) :
  Forall scans vs ->
  forall (v0 : Json.value) (values : list Json.value) (level : nat)
         (rest : string) (fuel : nat),
  scans v0 ->
  (list_sum (map (fun v => S (weight v)) (v0 :: vs)) <= fuel)%nat ->
  Json.JSONArray_loop fuel
    (Json._iterencode v0 (S level)
     ++ Json._iterencode_list (fun v => Json._iterencode v (S level))
          ("," ++ Json.newline_indent (S level)) vs false
     ++ Json.newline_indent level ++ "]" ++ rest)
    values
  = Ok (Json.VList (values ++ v0 :: vs)%list, rest).
Proof.
  induction 1 as [|v1 vs H1 Hvs IH]; intros v0 values level rest fuel H0 F;
    (destruct fuel as [|fuel]; [cbn in F; lia|]);
    cbn [Json.JSONArray_loop]; simpl in F.
  all: rewrite H0 by lia; cbn [bind fst snd Json._iterencode_list].
  - cbn [append]. rewrite skip_ws_newline_indent. reflexivity.
  - rewrite !append_assoc. cbn [append].
    rewrite (skip_ws_cons "," _ eq_refl). cbv beta iota.
    change (nat_of_ascii ",") with 44. cbn [Nat.eqb].
    rewrite skip_ws_newline_indent, skip_ws_value.
    unfold list_append.
    replace (values ++ v0 :: v1 :: vs)%list
      with ((values ++ [v0]) ++ v1 :: vs)%list by now rewrite <- app_assoc.
    apply IH; [exact H1 | simpl; lia].
Qed.

Lemma skip_ws_space (s : string) :
  Json.skip_ws (String " " s) = Json.skip_ws s.
Proof. reflexivity. Qed.

Lemma JSONObject_loop_items (dct : list (string * Json.value)) :
  Forall (fun kv => scans (snd kv)) dct ->
  forall (k0 : string) (v0 : Json.value) (pairs : list (string * Json.value))
         (level : nat) (rest : string) (fuel : nat),
  scans v0 ->
  (list_sum (map (fun kv => S (weight (snd kv))) ((k0, v0) :: dct)) <= fuel)%nat ->
  Json.JSONObject_loop fuel
    (Json.escape k0
     ++ String Json.dq
          (": " ++ Json._iterencode v0 (S level)
           ++ Json._iterencode_dict (fun v => Json._iterencode v (S level))
                ("," ++ Json.newline_indent (S level)) dct false
           ++ Json.newline_indent level ++ "}" ++ rest))
    pairs
  = Ok (Json.VDict (Json.dict_of_pairs (pairs ++ (k0, v0) :: dct)%list), rest).
Proof.
  induction 1 as [|[k1 v1] dct H1 Hd IH];
    intros k0 v0 pairs level rest fuel H0 F;
    (destruct fuel as [|fuel]; [cbn in F; lia|]);
    cbn [Json.JSONObject_loop]; simpl in F.
  all: rewrite scanstring_escape; cbn [bind fst snd append].
  all: rewrite (skip_ws_cons ":" _ eq_refl); cbv beta iota.
  all: change (nat_of_ascii ":") with 58; cbn [Nat.eqb].
  all: rewrite skip_ws_space, skip_ws_value.
  all: rewrite H0 by lia; cbn [bind fst snd Json._iterencode_dict].
  - cbn [append]. rewrite skip_ws_newline_indent. reflexivity.
  - rewrite !append_assoc. cbn [append].
    rewrite (skip_ws_cons "," _ eq_refl). cbv beta iota.
    change (nat_of_ascii ",") with 44. cbn [Nat.eqb].
    rewrite skip_ws_newline_indent.
    unfold Json.encode_basestring_ascii. cbn [append].
    rewrite (skip_ws_cons Json.dq _ eq_refl). cbv beta iota.
    change (nat_of_ascii Json.dq) with 34. cbn [Nat.eqb].
    unfold list_append.
    replace (pairs ++ (k0, v0) :: (k1, v1) :: dct)%list
      with ((pairs ++ [(k0, v0)]) ++ (k1, v1) :: dct)%list
      by now rewrite <- app_assoc.
    rewrite !append_assoc.
    apply IH; [exact H1 | simpl; lia].
Qed.

Lemma dict_set_fresh (d : list (string * Json.value)) (k : string) (v : Json.value) :
  ~ In k (map fst d) -> Json.dict_set d k v = (d ++ [(k, v)])%list.
Proof.
  induction d as [|[k' v'] d IH]; intros N; [reflexivity|].
  cbn [Json.dict_set]. destruct (String.eqb_spec k' k) as [->|ne].
  - exfalso. apply N. now left.
  - cbn [app]. rewrite IH; [reflexivity|]. intros I. apply N. now right.
Qed.

Lemma dict_of_pairs_loop (pairs acc : list (string * Json.value)) :
  NoDup (map fst (acc ++ pairs)%list) ->
  fold_left (fun d kv => Json.dict_set d (fst kv) (snd kv)) pairs acc
  = (acc ++ pairs)%list.
Proof.
  revert acc; induction pairs as [|[k v] pairs IH]; intros acc N;
    cbn [fold_left fst snd].
  - now rewrite app_nil_r.
  - rewrite dict_set_fresh.
    + rewrite IH; rewrite <- app_assoc; [reflexivity | exact N].
    + rewrite map_app in N. cbn [map fst] in N.
      apply NoDup_remove_2 in N. intros I. apply N.
      apply in_or_app. now left.
Qed.

Lemma dict_of_pairs_id (pairs : list (string * Json.value)) :
  NoDup (map fst pairs) -> Json.dict_of_pairs pairs = pairs.
Proof. intros N. unfold Json.dict_of_pairs. now rewrite dict_of_pairs_loop. Qed.

Lemma scans_python (v : Json.value) : is_python v -> scans v.
Proof.
  induction v as [s|lst IH|dct IH] using value_nested_ind; intros Py.
  - intros level rest [|fuel] F; [cbn in F; lia|].
    cbn [Json._iterencode Json.encode_basestring_ascii append Json.scan_once].
    change (nat_of_ascii Json.dq) with 34. cbn [Nat.eqb].
    rewrite append_assoc. cbn [append]. now rewrite scanstring_escape.
  - inversion Py as [|lst' Pl|]; subst.
    assert (S : Forall scans lst).
    { clear Py. induction IH as [|v lst Hv _ IHl]; inversion Pl; subst;
        constructor; auto. }
    clear IH Py Pl. intros level rest [|fuel] F; [cbn in F; lia|].
    destruct S as [|v0 vs H0 Hvs]; [reflexivity|].
    cbn [Json._iterencode Json._iterencode_list].
    rewrite !append_assoc. cbn [append Json.scan_once].
    change (nat_of_ascii "[") with 91. cbn [Nat.eqb].
    rewrite skip_ws_newline_indent, skip_ws_value.
    match goal with
    | |- context [Json.JSONArray_loop _ (Json._iterencode v0 _ ++ ?tl) _] =>
        destruct (iterencode_head v0 (S level) tl) as (c & t & E & W & N)
    end.
    rewrite E at 1. rewrite N.
    simpl in F.
    apply (JSONArray_loop_items vs Hvs v0 [] level rest fuel H0).
    simpl. lia.
  - inversion Py as [| |dct' Nd Pd]; subst.
    assert (S : Forall (fun kv => scans (snd kv)) dct).
    { clear Py Nd. induction IH as [|kv dct Hv _ IHl]; inversion Pd; subst;
        constructor; auto. }
    clear IH Py Pd. intros level rest [|fuel] F; [cbn in F; lia|].
    destruct S as [|[k0 v0] dct H0 Hd]; [reflexivity|].
    cbn [Json._iterencode Json._iterencode_dict].
    rewrite !append_assoc. cbn [append Json.scan_once].
    change (nat_of_ascii "{") with 123. cbn [Nat.eqb].
    rewrite skip_ws_newline_indent.
    unfold Json.encode_basestring_ascii. cbn [append].
    rewrite (skip_ws_cons Json.dq _ eq_refl). cbv beta iota.
    change (nat_of_ascii Json.dq) with 34. cbn [Nat.eqb].
    rewrite !append_assoc. simpl in F. cbn [snd] in H0.
    transitivity
      (Ok (Json.VDict (Json.dict_of_pairs ([] ++ (k0, v0) :: dct)%list), rest)).
    + apply (JSONObject_loop_items dct Hd k0 v0 [] level rest fuel H0).
      simpl. lia.
    + cbn [app]. now rewrite dict_of_pairs_id.
Qed.

Lemma string_length_append (a b : string) :
  String.length (a ++ b) = (String.length a + String.length b)%nat.
Proof. induction a as [|c a IH]; simpl; [reflexivity | now rewrite IH]. Qed.

Lemma newline_indent_length (level : nat) :
  (1 <= String.length (Json.newline_indent level))%nat.
Proof. unfold Json.newline_indent. cbn. lia. Qed.

Lemma list_items_length (encode : Json.value -> string) (separator : string)
    (lst : list Json.value) :
  (1 <= String.length separator)%nat ->
  Forall (fun v => (weight v <= String.length (encode v))%nat) lst ->
  forall first : bool,
  (list_sum (map (fun v => S (weight v)) lst)
   <= String.length (Json._iterencode_list encode separator lst first)
      + (if first then 1 else 0))%nat.
Proof.
  intros Hs. induction 1 as [|v lst Hv _ IH]; intros first; [simpl; lia|].
  cbn [map list_sum Json._iterencode_list]. specialize (IH false).
  rewrite !string_length_append.
  destruct first; simpl in *; lia.
Qed.

Lemma dict_items_length (encode : Json.value -> string) (separator : string)
    (dct : list (string * Json.value)) :
  (1 <= String.length separator)%nat ->
  Forall (fun kv => (weight (snd kv) <= String.length (encode (snd kv)))%nat) dct ->
  forall first : bool,
  (list_sum (map (fun kv => S (weight (snd kv))) dct)
   <= String.length (Json._iterencode_dict encode separator dct first)
      + (if first then 1 else 0))%nat.
Proof.
  intros Hs. induction 1 as [|[k v] dct Hv _ IH]; intros first; [simpl; lia|].
  cbn [map list_sum Json._iterencode_dict snd] in *. specialize (IH false).
  rewrite !string_length_append.
  destruct first; simpl in *; lia.
Qed.

Lemma weight_le_length (v : Json.value) :
  forall level, (weight v <= String.length (Json._iterencode v level))%nat.
Proof.
  induction v as [s|lst IH|dct IH] using value_nested_ind; intros level.
  - cbn. lia.
  - destruct lst as [|v0 vs]; [cbn; lia|].
    cbn [Json._iterencode weight]. rewrite !string_length_append.
    pose proof (list_items_length (fun v => Json._iterencode v (S level))
                  ("," ++ Json.newline_indent (S level)) (v0 :: vs)) as L.
    specialize (L ltac:(cbn; lia)).
    specialize (L ltac:(eapply Forall_impl; [|exact IH]; cbv beta; auto) true).
    pose proof (newline_indent_length level).
    pose proof (newline_indent_length (S level)).
    cbn [String.length]. cbv iota in L. lia.
  - destruct dct as [|kv0 dct]; [cbn; lia|].
    cbn [Json._iterencode weight]. rewrite !string_length_append.
    pose proof (dict_items_length (fun v => Json._iterencode v (S level))
                  ("," ++ Json.newline_indent (S level)) (kv0 :: dct)) as L.
    specialize (L ltac:(cbn; lia)).
    specialize (L ltac:(eapply Forall_impl; [|exact IH]; cbv beta; auto) true).
    pose proof (newline_indent_length level).
    pose proof (newline_indent_length (S level)).
    cbn [String.length]. cbv iota in L. lia.
Qed.

Lemma loads_dumps (v : Json.value) :
  is_python v -> Json.loads (Json.dumps v) = Ok v.
Proof.
  intros Py. unfold Json.loads, Json.dumps.
  pose proof (skip_ws_value v 0 "") as W. rewrite append_nil_r in W.
  rewrite W.
  pose proof (scans_python v Py 0 "" (S (String.length (Json._iterencode v 0)))) as R.
  rewrite append_nil_r in R. rewrite R; [reflexivity|].
  pose proof (weight_le_length v 0). lia.
Qed.

Lemma strings_of_pairs_message (m : dict) :
  strings_of_pairs (map (fun kv => (fst kv, Json.VStr (snd kv))) m) = Some m.
Proof.
  induction m as [|[k v] m IH]; [reflexivity|].
  cbn [map strings_of_pairs fst snd]. now rewrite IH.
Qed.

Lemma messages_of_values_messages (messages : list dict) :
  messages_of_values (map value_of_message messages) = Some messages.
Proof.
  induction messages as [|m ms IH]; [reflexivity|].
  cbn [map messages_of_values]. unfold value_of_message at 1.
  cbn [message_of_value]. now rewrite strings_of_pairs_message, IH.
Qed.

Lemma is_python_message (m : dict) :
  NoDup (map fst m) -> is_python (value_of_message m).
Proof.
  intros N. unfold value_of_message. constructor.
  - rewrite map_map. cbn [fst]. exact N.
  - clear N. induction m as [|[k v] m IH]; constructor; [constructor | exact IH].
Qed.

Lemma is_python_data (character1_name character2_name situation isoformat : string)
    (messages : list dict) :
  Forall (fun m => NoDup (map fst m)) messages ->
  is_python (save_dialogue_data character1_name character2_name situation
               isoformat messages).
Proof.
  intros N. unfold save_dialogue_data. constructor.
  - cbn [map fst].
    repeat (constructor; [cbn [In]; intuition discriminate|]). constructor.
  - repeat (constructor; [cbn [snd]; try constructor|]); [|constructor].
    induction N as [|m ms Hm _ IH]; constructor;
      [now apply is_python_message | exact IH].
Qed.

Lemma unique_keys_NoDup (m : dict) :
  unique_keys m = true -> NoDup (map fst m).
Proof.
  induction m as [|[k v] m IH]; intros U; [constructor|].
  cbn [unique_keys] in U. apply andb_prop in U. destruct U as [E U].
  cbn [map fst]. constructor; [|now apply IH].
  intros I. apply negb_true_iff in E.
  assert (X : existsb (String.eqb k) (map fst m) = true)
    by (apply existsb_exists; exists k; split; [exact I | apply String.eqb_refl]).
  congruence.
Qed.


(** What a call of [save_dialogue_to_file] comes to: the file name, with
    the text in that file and every other file as it was, or an error of
    the operating system, with every file as it was. *)
Lemma save_dialogue_to_file_cases
    (makedirs_error open_error : filesystem -> string -> option exn)
    (fs : filesystem) (strftime isoformat : string) (d : dialogue)
    (character1_name character2_name situation : string) :
  let filename := "saved_dialogues/dialogue_" ++ character1_name ++ "_"
                  ++ character2_name ++ "_" ++ strftime ++ ".json" in
  let text := Json.dumps (save_dialogue_data character1_name character2_name
                            situation isoformat (extract_messages d)) in
  let saved := save_dialogue_to_file makedirs_error open_error fs strftime
                 isoformat d character1_name character2_name situation in
  (snd saved = Ok filename /\
   path_exists (fst saved) "saved_dialogues" = true /\
   forall p, read_file (fst saved) p
             = if String.eqb p filename then Some text else read_file fs p)
  \/
  (exists e,
     snd saved = Raise e /\
     (forall p, read_file (fst saved) p = read_file fs p) /\
     (makedirs_error fs "saved_dialogues" = Some e
      \/ exists fs1 path, open_error fs1 path = Some e)).
Proof.
  intros filename text saved. unfold saved, save_dialogue_to_file.
  fold filename. fold text.
  destruct (path_exists fs "saved_dialogues") eqn:E; cbn [negb].
  - unfold write_file.
    destruct (open_error fs filename) as [e|] eqn:O; cbn [fst snd bind].
    + right. exists e. split; [reflexivity|]. split; [reflexivity|].
      right. now exists fs, filename.
    + left. split; [reflexivity|]. cbn [path_exists read_file].
      split; [|reflexivity].
      destruct (String.eqb "saved_dialogues" filename); [reflexivity | exact E].
  - unfold makedirs.
    destruct (makedirs_error fs "saved_dialogues") as [e|] eqn:M;
      cbn [fst snd].
    + right. exists e. split; [reflexivity|]. split; [reflexivity|]. now left.
    + unfold write_file.
      match goal with |- context [open_error ?fs1 filename] =>
        destruct (open_error fs1 filename) as [e|] eqn:O end;
        cbn [fst snd bind].
      * right. exists e. split; [reflexivity|]. split; [reflexivity|].
        right. eauto.
      * left. split; [reflexivity|]. cbn [path_exists read_file].
        split; [|reflexivity].
        destruct (String.eqb "saved_dialogues" filename); reflexivity.
Qed.

Lemma export_messages_data
    (character1_name character2_name situation isoformat : string)
    (messages : list dict) :
  export_messages (save_dialogue_data character1_name character2_name situation
                     isoformat messages) = Some messages.
Proof.
  unfold save_dialogue_data. cbn [export_messages value_get].
  change (String.eqb "character1" "messages") with false.
  change (String.eqb "character2" "messages") with false.
  change (String.eqb "situation" "messages") with false.
  change (String.eqb "timestamp" "messages") with false.
  change (String.eqb "messages" "messages") with true.
  cbv iota. apply messages_of_values_messages.
Qed.

(** C9: when [save_dialogue_to_file] returns a file name, that file holds
    the JSON text of the record with character1, character2, situation,
    timestamp and the turn list, and parsing the text gives the record
    back.  The turn list read from it is, turn for turn, the list of
    messages of a transcript that is a dict with messages (the fallback
    transcript) or an object with messages; for a chat result it names,
    in order, the speaker and the content of every entry of the chat
    history. *)
Theorem export_round_trip
    (makedirs_error open_error : filesystem -> string -> option exn)
    (fs fs' : filesystem) (strftime isoformat : string) (d : dialogue)
    (character1_name character2_name situation filename : string) :
  forallb unique_keys (extract_messages d) = true ->
  save_dialogue_to_file makedirs_error open_error fs strftime isoformat d
    character1_name character2_name situation = (fs', Ok filename) ->
  exists text data,
    read_file fs' filename = Some text /\
    Json.loads text = Ok data /\
    data = save_dialogue_data character1_name character2_name situation
             isoformat (extract_messages d) /\
    export_messages data = Some (extract_messages d) /\
    (forall messages,
       d = PyDict (Some messages) \/ d = PyObject None (Some messages) ->
       export_messages data = Some messages) /\
    (forall chat_history,
       d = ChatResult chat_history ->
       exists turns_read,
         export_messages data = Some turns_read /\
         map (fun m => (speaker m, get_default m "content" "")) turns_read
         = map (fun e => (get_default e "name" "Unknown",
                          get_default e "content" "")) chat_history).
Proof.
  intros U S.
  assert (N : Forall (fun m => NoDup (map fst m)) (extract_messages d)).
  { apply Forall_forall. intros m I. apply unique_keys_NoDup.
    rewrite forallb_forall in U. now apply U. }
  pose proof (save_dialogue_to_file_cases makedirs_error open_error fs strftime
                isoformat d character1_name character2_name situation) as C.
  cbv zeta in C. rewrite S in C. cbn [fst snd] in C.
  destruct C as [(F & _ & R)|(e & F & _)]; [|discriminate F].
  injection F as ->.
  exists (Json.dumps (save_dialogue_data character1_name character2_name
                        situation isoformat (extract_messages d))).
  eexists. split; [|split; [|split; [reflexivity|split; [|split]]]].
  - rewrite R. now rewrite String.eqb_refl.
  - apply loads_dumps. now apply is_python_data.
  - apply export_messages_data.
  - intros messages [-> | ->]; apply export_messages_data.
  - intros h ->. eexists. split; [apply export_messages_data|].
    rewrite extract_messages_ChatResult, map_map.
    apply map_ext. intros e. reflexivity.
Qed.

Lemma export_round_trip_witness :
  let d := PyDict (Some (fallback_messages "Teacher" "Student"
                           "Fibonacci problems" "Fibonacci"
                           "Hi Student! I've been thinking about Fibonacci.")) in
  let saved := save_dialogue_to_file makes_directories opens_in_directories
                 empty_disk "20261104_100000" "2026-11-04T10:00:00" d
                 "Teacher" "Student" "Fibonacci problems" in
  exists text data,
    read_file (fst saved)
      "saved_dialogues/dialogue_Teacher_Student_20261104_100000.json"
    = Some text /\
    Json.loads text = Ok data /\
    data = save_dialogue_data "Teacher" "Student" "Fibonacci problems"
             "2026-11-04T10:00:00" (extract_messages d) /\
    export_messages data = Some (extract_messages d) /\
    (forall messages,
       d = PyDict (Some messages) \/ d = PyObject None (Some messages) ->
       export_messages data = Some messages) /\
    (forall chat_history,
       d = ChatResult chat_history ->
       exists turns_read,
         export_messages data = Some turns_read /\
         map (fun m => (speaker m, get_default m "content" "")) turns_read
         = map (fun e => (get_default e "name" "Unknown",
                          get_default e "content" "")) chat_history).
Proof.
  intros d saved.
  apply (export_round_trip makes_directories opens_in_directories empty_disk
           (fst saved) "20261104_100000" "2026-11-04T10:00:00" d
           "Teacher" "Student" "Fibonacci problems").
  - reflexivity.
  - reflexivity.
Defined.

(** ** The sessions return *)

Lemma create_dialogue_returns
    (llm : dict -> string -> list dict -> Autogen.completion)
    (refuses : string -> string -> dict -> option exn)
    (config_list : list dict)
    (character1_name character2_name situation termination_condition : string) :
  create_dialogue llm refuses config_list character1_name character2_name situation
    termination_condition <> OutOfFuel.
Proof.
  unfold create_dialogue. destruct (subscript0 config_list) as [cfg|e|] eqn:C;
    cbn [bind]; try discriminate.
  - do 2 (built_or_refused; [|discriminate]).
    unfold _generate_starter_message. rewrite C. cbn [bind].
    built_or_refused; [|discriminate].
    unfold Autogen.generate_reply, Autogen.generate_oai_reply.
    match goal with |- context [llm ?c ?s ?h] => destruct (llm c s h) as [starter|e] end;
      cbn [bind]; [|discriminate].
    match goal with |- context [Autogen.initiate_chat llm unit ?a ?b tt starter] =>
      pose proof (initiate_chat_returns llm unit a b tt starter) as R;
      destruct (Autogen.initiate_chat llm unit a b tt starter) as [[h r]|e|]
    end; cbn [bind]; try discriminate.
    exfalso. apply R; [| |reflexivity].
    + intros st msg. apply default_predicate_returns.
    + intros st msg. apply stateless_predicate_returns.
      unfold is_termination_msg, item.
      destruct (get msg "content"); discriminate.
  - destruct config_list; discriminate.
Qed.

Lemma generate_dialogue_returns
    (llm : dict -> string -> list dict -> Autogen.completion)
    (refuses : string -> string -> dict -> option exn)
    (AUTOGEN_AVAILABLE : bool) (draw : nat)
    (character1_name character2_name situation : string) (max_turns : Z)
    (model_config : option dict) :
  snd (generate_dialogue llm refuses AUTOGEN_AVAILABLE draw character1_name
         character2_name situation max_turns model_config) <> OutOfFuel.
Proof.
  assert (F : generate_dialogue_fallback draw character1_name character2_name
                situation max_turns <> OutOfFuel).
  { destruct (Py.split situation) as [|w rest] eqn:E.
    - apply split_nil in E. now rewrite fallback_blank.
    - destruct (fallback_ok draw character1_name character2_name situation
                  max_turns w rest E) as (starter & _ & ->).
      discriminate. }
  unfold generate_dialogue. destruct (AUTOGEN_AVAILABLE && truthy model_config);
    [|exact F].
  unfold generate_dialogue_with_autogen.
  destruct model_config as [[|kv cfg]|]; [exact F| |exact F].
  unfold generate_dialogue_with_autogen_try.
  do 3 (built_or_refused; [|exact F]).
  unfold Autogen.generate_reply, Autogen.generate_oai_reply.
  match goal with |- context [llm ?c ?s ?h] => destruct (llm c s h) as [starter|e] end;
    [|exact F].
  match goal with |- context [Autogen.initiate_chat llm _ ?a ?b ?st starter] =>
    pose proof (initiate_chat_returns llm _ a b st starter) as R;
    destruct (Autogen.initiate_chat llm TurnCounter a b st starter) as [[h r]|e|]
  end; cbn [bind snd]; [discriminate | exact F |].
  exfalso. apply R; [| |reflexivity].
  - intros st msg. apply default_predicate_returns.
  - intros st msg. discriminate.
Qed.

(** * Further properties *)

(** ** How a chat ends *)

Section TraceFacts.

Variable llm : dict -> string -> list dict -> Autogen.completion.
Variable St : Type.

#[local] Abbreviation send := (Autogen.send llm St).
#[local] Abbreviation agent := (Autogen.ConversableAgent St).
#[local] Abbreviation log := (Autogen.chat_messages).
#[local] Abbreviation replies := (Autogen.consecutive_auto_reply_counter).
#[local] Abbreviation name := (Autogen.name St).

Lemma send_trace (fuel : nat) :
  forall (x y : agent) (sx sy : Autogen.agent_state) (st : St) (m : string)
         (sx' sy' : Autogen.agent_state) (st' : St),
  send fuel x y sx sy st m = Ok (sx', sy', st') ->
  exists texts,
    log sx' = (log sx ++ turns "assistant" "user" (name x) (name y) (m :: texts))%list /\
    log sy' = (log sy ++ turns "user" "assistant" (name x) (name y) (m :: texts))%list /\
    chat_trace x y (replies sx) (replies sy) (m :: texts).
Proof.
  induction fuel as [|fuel IH]; intros x y sx sy st m sx' sy' st' H;
    [discriminate|].
  apply send_cases in H. cbv zeta in H.
  destruct H as [(-> & -> & E)|(st1 & reply & A & P & _ & R)].
  - exists []. cbn [turns chat_trace Autogen.logged Autogen.stopped log].
    unfold list_append. split; [reflexivity|]. split; [reflexivity|].
    destruct E as [[E _]|E].
    + left. cbn [Autogen.logged replies] in E. now apply Nat.leb_le in E.
    + right. now exists st, st'.
  - apply IH in R. destruct R as (texts & Ly & Lx & T).
    exists (reply :: texts).
    cbn [Autogen.replied Autogen.logged log replies] in Ly, Lx, T, A.
    unfold list_append in Ly, Lx. rewrite <- !app_assoc in Ly, Lx.
    split; [exact Lx|]. split; [exact Ly|].
    cbn [chat_trace]. apply Nat.leb_gt in A.
    split; [exact A|]. split; [now exists st, st1 | exact T].
Qed.

Lemma initiate_chat_trace (a b : agent) (st : St) (message : string)
    (h : list dict) (r : Autogen.agent_state * Autogen.agent_state * St) :
  Autogen.initiate_chat llm St a b st message = Ok (h, r) ->
  exists texts,
    h = turns "assistant" "user" (name a) (name b) (message :: texts) /\
    chat_trace a b 0 0 (message :: texts).
Proof.
  unfold Autogen.initiate_chat.
  destruct (send (2 * Autogen.MAX_CONSECUTIVE_AUTO_REPLY + 1) a b
              Autogen.fresh Autogen.fresh st message) as [[[sa sb] st']|e|] eqn:R;
    cbn [bind]; try discriminate.
  intros H. inversion H; subst. apply send_trace in R.
  destruct R as (texts & La & _ & T). exists texts. split; [exact La | exact T].
Qed.

Lemma chat_trace_length (texts : list string) :
  forall (x y : agent) (cx cy : nat),
  chat_trace x y cx cy texts ->
  (cx <= Autogen.MAX_CONSECUTIVE_AUTO_REPLY)%nat ->
  (cy <= Autogen.MAX_CONSECUTIVE_AUTO_REPLY)%nat ->
  (length texts + cx + cy <= 2 * Autogen.MAX_CONSECUTIVE_AUTO_REPLY + 1)%nat.
Proof.
  induction texts as [|t ts IH]; intros x y cx cy T Hx Hy; [destruct T|].
  cbn [chat_trace] in T. destruct ts as [|u us]; [cbn [length]; lia|].
  destruct T as (A & _ & T). apply IH in T; [|lia|lia].
  cbn [length] in *. lia.
Qed.

(** A chat that stops short of the reply limit stops on a text its
    receiver's predicate accepts. *)
Lemma chat_trace_end (texts : list string) :
  forall (x y : agent) (cx cy : nat),
  chat_trace x y cx cy texts ->
  (cy <= cx <= S cy)%nat ->
  (2 * Autogen.MAX_CONSECUTIVE_AUTO_REPLY + 1 <= length texts + cx + cy)%nat \/
  exists i t,
    S i = length texts /\ nth_error texts i = Some t /\
    if Nat.even i
    then accepted y [("content", t); ("role", "user"); ("name", name x)]
    else accepted x [("content", t); ("role", "user"); ("name", name y)].
Proof.
  induction texts as [|t ts IH]; intros x y cx cy T C; [destruct T|].
  cbn [chat_trace] in T. destruct ts as [|u us].
  - destruct T as [T|T]; [left; cbn [length]; lia|].
    right. exists 0, t. auto.
  - destruct T as (A & _ & T). apply IH in T; [|lia].
    destruct T as [T|(j & v & L & N & P)]; [left; cbn [length] in *; lia|].
    right. exists (S j), v. cbn [length nth_error] in *.
    split; [lia|]. split; [exact N|].
    rewrite Nat.even_succ, <- Nat.negb_even. destruct (Nat.even j); exact P.
Qed.

(** A message of a chat is raised on by nothing but the provider or a
    predicate. *)
Lemma send_raises (fuel : nat) :
  forall (x y : agent) (sx sy : Autogen.agent_state) (st : St) (m : string)
         (e : exn),
  send fuel x y sx sy st m = Raise e ->
  (exists llm_config system_message messages,
     llm llm_config system_message messages = Autogen.Failed e) \/
  (exists a st t n,
     (a = x \/ a = y) /\
     Autogen.agent_is_termination_msg St a st
       [("content", t); ("role", "user"); ("name", n)] = Raise e).
Proof.
  induction fuel as [|fuel IH]; intros x y sx sy st m e H; [discriminate|].
  cbn [Autogen.send] in H.
  match type of H with context [if ?c then _ else _] => destruct c end;
    [discriminate|].
  match type of H with
  | context [Autogen.agent_is_termination_msg St y st ?msg] =>
      destruct (Autogen.agent_is_termination_msg St y st msg)
        as [[fin st1]|e1|] eqn:P
  end; cbn [bind] in H; try discriminate.
  - destruct fin; [discriminate|].
    unfold Autogen.generate_oai_reply in H.
    match type of H with context [llm ?c ?s ?h] =>
      destruct (llm c s h) as [reply|e1] eqn:G end; cbn [bind] in H.
    + match type of H with
      | context [send fuel y x ?a ?b st1 reply] =>
          destruct (send fuel y x a b st1 reply) as [[[p q] r]|e1|] eqn:R
      end; cbn [bind] in H; try discriminate.
      injection H as <-. apply IH in R.
      destruct R as [R|(a & s & t & n & A & R)]; [now left|].
      right. exists a, s, t, n. split; [tauto | exact R].
    + injection H as <-. left. eauto.
  - injection H as <-. right. exists y, st, m, (name x). auto.
Qed.

End TraceFacts.

Lemma chat_trace_answered (St : Type) (texts : list string) :
  forall (x y : Autogen.ConversableAgent St) (cx cy : nat),
  chat_trace x y cx cy texts ->
  answered (declined y) (declined x) (Autogen.name St x) (Autogen.name St y) texts.
Proof.
  induction texts as [|t ts IH]; intros x y cx cy T; [exact I|].
  cbn [chat_trace] in T. cbn [answered]. destruct ts as [|u us]; [exact I|].
  destruct T as (_ & D & T). split; [exact D | now apply IH in T].
Qed.

Section StatelessChat.

Variable llm : dict -> string -> list dict -> Autogen.completion.
Variables a b : Autogen.ConversableAgent unit.
Variables pa pb : dict -> outcome bool.

Hypothesis a_predicate :
  forall st msg, Autogen.agent_is_termination_msg unit a st msg = stateless pa st msg.
Hypothesis b_predicate :
  forall st msg, Autogen.agent_is_termination_msg unit b st msg = stateless pb st msg.

Lemma stateless_verdict (p : dict -> outcome bool) (st st' : unit) (msg : dict)
    (v : bool) :
  stateless p st msg = Ok (v, st') -> p msg = Ok v.
Proof.
  unfold stateless. destruct (p msg) as [w|e|]; cbn [bind]; congruence.
Qed.

(** The chat [a] starts with [b]: its history, its length, the verdicts
    on the turns before the last and the reason it stopped. *)
Lemma stateless_chat (message : string) (h : list dict)
    (r : Autogen.agent_state * Autogen.agent_state * unit) :
  Autogen.initiate_chat llm unit a b tt message = Ok (h, r) ->
  exists texts,
    h = turns "assistant" "user" (Autogen.name unit a) (Autogen.name unit b)
          (message :: texts) /\
    (length (message :: texts) <= 201)%nat /\
    (forall i t,
       nth_error (message :: texts) i = Some t ->
       (S i < length (message :: texts))%nat ->
       if Nat.even i
       then pb [("content", t); ("role", "user"); ("name", Autogen.name unit a)]
            = Ok false
       else pa [("content", t); ("role", "user"); ("name", Autogen.name unit b)]
            = Ok false) /\
    (length (message :: texts) = 201 \/
     exists i t,
       S i = length (message :: texts) /\
       nth_error (message :: texts) i = Some t /\
       if Nat.even i
       then pb [("content", t); ("role", "user"); ("name", Autogen.name unit a)]
            = Ok true
       else pa [("content", t); ("role", "user"); ("name", Autogen.name unit b)]
            = Ok true).
Proof.
  intros H. apply initiate_chat_trace in H. destruct H as (texts & -> & T).
  exists texts. split; [reflexivity|].
  pose proof (chat_trace_length _ _ _ _ _ _ T) as L.
  specialize (L ltac:(unfold Autogen.MAX_CONSECUTIVE_AUTO_REPLY; lia)
                ltac:(unfold Autogen.MAX_CONSECUTIVE_AUTO_REPLY; lia)).
  unfold Autogen.MAX_CONSECUTIVE_AUTO_REPLY in L.
  split; [lia|]. split.
  - intros i t N B.
    pose proof (answered_nth _ _ _ _ _ _ _
                  (chat_trace_answered _ _ _ _ _ _ T) N B) as D.
    destruct (Nat.even i); destruct D as (st & st' & D).
    + rewrite b_predicate in D. exact (stateless_verdict _ _ _ _ _ D).
    + rewrite a_predicate in D. exact (stateless_verdict _ _ _ _ _ D).
  - destruct (chat_trace_end _ _ _ _ _ _ T ltac:(lia)) as [E|(i & t & E & N & A)].
    + left. unfold Autogen.MAX_CONSECUTIVE_AUTO_REPLY in E. lia.
    + right. exists i, t. split; [exact E|]. split; [exact N|].
      destruct (Nat.even i); destruct A as (st & st' & A).
      * rewrite b_predicate in A. exact (stateless_verdict _ _ _ _ _ A).
      * rewrite a_predicate in A. exact (stateless_verdict _ _ _ _ _ A).
Qed.

End StatelessChat.

Lemma default_verdict (t n : string) (v : bool) :
  (Ok (String.eqb (get_default [("content", t); ("role", "user"); ("name", n)]
                     "content" "") "TERMINATE") : outcome bool) = Ok v ->
  v = String.eqb t "TERMINATE".
Proof. cbn. congruence. Qed.

(** ** dialog.py *)

(** X1: [generate_specific_dialogue] returns what [create_dialogue]
    returns on the same configuration list, names, situation and
    termination phrase, under every provider. *)
Theorem generate_specific_dialogue_is_create_dialogue
    (llm : dict -> string -> list dict -> Autogen.completion)
    (refuses : string -> string -> dict -> option exn)
    (config_list : list dict)
    (character1_name character2_name situation termination_condition : string) :
  generate_specific_dialogue llm refuses config_list character1_name character2_name
    situation termination_condition
  = create_dialogue llm refuses config_list character1_name character2_name
      situation termination_condition.
Proof.
  unfold generate_specific_dialogue, create_dialogue, _generate_starter_message.
  destruct (subscript0 config_list) as [cfg|e|]; cbn [bind]; try reflexivity.
  unfold create_dialogue_character1, create_dialogue_character2.
  repeat match goal with
         | |- context [Autogen.__init__ ?St ?r ?a] =>
             destruct (Autogen.__init__ St r a); cbn [bind]; try reflexivity
         end.
Qed.

(** X2: a completed session of [create_dialogue] has at most 201 turns,
    and one that has fewer ended on its last turn: a turn of the first
    participant that contains the termination phrase up to letter case,
    or a turn of the second participant that is the word TERMINATE. *)
Theorem create_dialogue_ending
    (llm : dict -> string -> list dict -> Autogen.completion)
    (refuses : string -> string -> dict -> option exn)
    (config_list : list dict)
    (character1_name character2_name situation termination_condition : string)
    (d : dialogue) :
  create_dialogue llm refuses config_list character1_name character2_name situation
    termination_condition = Ok d ->
  exists texts,
    d = ChatResult (turns "assistant" "user" character1_name character2_name texts) /\
    (1 <= length texts <= 201)%nat /\
    (length texts = 201 \/
     exists i t,
       S i = length texts /\ nth_error texts i = Some t /\
       if Nat.even i then ci_occurs termination_condition t
       else t = "TERMINATE").
Proof.
  unfold create_dialogue. destruct (subscript0 config_list) as [cfg|e|];
    cbn [bind]; try discriminate.
  do 2 built.
  destruct (_generate_starter_message llm refuses config_list character1_name
              character2_name situation) as [starter|e|]; cbn [bind];
    try discriminate.
  match goal with |- context [Autogen.initiate_chat llm unit ?a ?b tt starter] =>
    destruct (Autogen.initiate_chat llm unit a b tt starter) as [[h r]|e|] eqn:R
  end; cbn [bind]; try discriminate.
  intros H. inversion H; subst. clear H.
  apply (stateless_chat llm _ _
           (fun msg => Ok (String.eqb (get_default msg "content" "") "TERMINATE"))
           (is_termination_msg termination_condition)) in R;
    [|reflexivity|reflexivity].
  destruct R as (texts & -> & L & _ & E). exists (starter :: texts).
  split; [reflexivity|]. split; [cbn [length] in *; lia|].
  destruct E as [E|(i & t & E & N & A)]; [now left|].
  right. exists i, t. split; [exact E|]. split; [exact N|].
  destruct (Nat.even i).
  - rewrite (is_termination_msg_content _ _ t) in A by reflexivity.
    apply lower_occurs_iff, contains_iff. congruence.
  - apply default_verdict in A. symmetry in A. now apply String.eqb_eq in A.
Qed.

Lemma create_dialogue_ending_witness :
  exists texts,
    ChatResult
      [ [("content", "Let us begin."); ("role", "assistant"); ("name", "Teacher")];
        [("content", "Now I understand."); ("role", "user"); ("name", "Student")];
        [("content", "Good, I understand that you do."); ("role", "assistant");
         ("name", "Teacher")] ]
    = ChatResult (turns "assistant" "user" "Teacher" "Student" texts) /\
    (1 <= length texts <= 201)%nat /\
    (length texts = 201 \/
     exists i t,
       S i = length texts /\ nth_error texts i = Some t /\
       if Nat.even i then ci_occurs "I understand" t else t = "TERMINATE").
Proof.
  apply (create_dialogue_ending llm_understands wants_api_key [example_config]
           "Teacher" "Student" "Fibonacci problems" "I understand").
  vm_compute. reflexivity.
Defined.

(** X18: in a completed session of [create_dialogue], on a phrase and
    texts of code points below 256, a turn of the first participant (the
    starter line included) whose text contains the termination phrase up
    to letter case is the last turn of the transcript: the second
    participant, who holds the predicate, does not reply to it. *)
Theorem content_match_ends_session
    (llm : dict -> string -> list dict -> Autogen.completion)
    (refuses : string -> string -> dict -> option exn)
    (config_list : list dict)
    (character1_name character2_name situation termination_condition : string)
    (d : dialogue) :
  create_dialogue llm refuses config_list character1_name character2_name situation
    termination_condition = Ok d ->
  exists texts,
    d = ChatResult (turns "assistant" "user" character1_name character2_name texts) /\
    forall i t,
      nth_error texts i = Some t -> Nat.even i = true ->
      ci_occurs termination_condition t ->
      S i = length texts.
Proof.
  intros H. apply create_dialogue_shape in H.
  destruct H as (starter & texts & _ & -> & A).
  exists (starter :: texts). split; [reflexivity|].
  intros i t N E C.
  assert (L : (i < length (starter :: texts))%nat)
    by (apply nth_error_Some; congruence).
  destruct (Nat.eq_dec (S i) (length (starter :: texts))) as [|ne];
    [assumption | exfalso].
  assert (L' : (S i < length (starter :: texts))%nat) by lia.
  pose proof (answered_nth _ _ _ _ _ _ _ A N L') as P. rewrite E in P.
  rewrite (is_termination_msg_content _ _ t) in P by reflexivity.
  apply lower_occurs_iff, contains_iff in C. congruence.
Qed.

Lemma content_match_ends_session_witness :
  exists texts,
    ChatResult
      [ [("content", "Let us begin."); ("role", "assistant"); ("name", "Teacher")];
        [("content", "Now I understand."); ("role", "user"); ("name", "Student")];
        [("content", "Good, I understand that you do."); ("role", "assistant");
         ("name", "Teacher")] ]
    = ChatResult (turns "assistant" "user" "Teacher" "Student" texts) /\
    forall i t,
      nth_error texts i = Some t -> Nat.even i = true ->
      ci_occurs "I understand" t ->
      S i = length texts.
Proof.
  apply (content_match_ends_session llm_understands wants_api_key [example_config]
           "Teacher" "Student" "Fibonacci problems" "I understand").
  vm_compute. reflexivity.
Defined.

(** X3: a completed session of [generate_fibonacci_dialogue] starts with
    the teacher's fixed opening line and alternates Teacher and Student;
    a turn of the teacher that contains the agreed sentence is the last
    turn, and a turn of the student that contains it is not: the teacher
    replies to it. *)
Theorem fibonacci_dialogue_ending
    (llm : dict -> string -> list dict -> Autogen.completion)
    (refuses : string -> string -> dict -> option exn)
    (config_list : list dict) (d : dialogue) :
  generate_fibonacci_dialogue llm refuses config_list = Ok d ->
  exists texts,
    d = ChatResult (turns "assistant" "user" "Teacher" "Student"
                      (fibonacci_opening :: texts)) /\
    forall i t,
      nth_error (fibonacci_opening :: texts) i = Some t ->
      occurs fibonacci_phrase t ->
      if Nat.even i then S i = length (fibonacci_opening :: texts)
      else (S i < length (fibonacci_opening :: texts))%nat.
Proof.
  unfold generate_fibonacci_dialogue.
  destruct (subscript0 config_list) as [cfg|e|]; cbn [bind]; try discriminate.
  do 2 built.
  match goal with |- context [Autogen.initiate_chat llm unit ?a ?b tt ?m] =>
    destruct (Autogen.initiate_chat llm unit a b tt m) as [[h r]|e|] eqn:R
  end; cbn [bind]; try discriminate.
  intros H. inversion H; subst. clear H.
  apply (stateless_chat llm _ _
           (fun msg => Ok (String.eqb (get_default msg "content" "") "TERMINATE"))
           student_is_termination_msg) in R; [|reflexivity|reflexivity].
  destruct R as (texts & -> & L & D & E). exists texts.
  split; [reflexivity|]. intros i t N O.
  assert (B : (i < length (fibonacci_opening :: texts))%nat)
    by (apply nth_error_Some; congruence).
  apply contains_iff in O.
  destruct (Nat.even i) eqn:P.
  - destruct (Nat.eq_dec (S i) (length (fibonacci_opening :: texts))) as [|ne];
      [assumption | exfalso].
    specialize (D i t N ltac:(lia)). rewrite P in D.
    unfold student_is_termination_msg in D. cbn in D. congruence.
  - destruct (Nat.eq_dec (S i) (length (fibonacci_opening :: texts))) as [Z|ne];
      [exfalso | lia].
    destruct E as [E|(j & u & E & Nj & A)].
    + rewrite E in Z. injection Z as ->. discriminate P.
    + assert (j = i) by lia. subst j. rewrite N in Nj. injection Nj as <-.
      rewrite P in A. apply default_verdict in A. symmetry in A.
      apply String.eqb_eq in A. subst t. vm_compute in O. discriminate O.
Qed.

Lemma fibonacci_dialogue_ending_witness :
  exists texts,
    ChatResult
      (turns "assistant" "user" "Teacher" "Student"
         [ fibonacci_opening;
           "I understand how to solve Fibonacci problems now! Thank you for your help.";
           "You said: I understand how to solve Fibonacci problems now. Well done." ])
    = ChatResult (turns "assistant" "user" "Teacher" "Student"
                    (fibonacci_opening :: texts)) /\
    forall i t,
      nth_error (fibonacci_opening :: texts) i = Some t ->
      occurs fibonacci_phrase t ->
      if Nat.even i then S i = length (fibonacci_opening :: texts)
      else (S i < length (fibonacci_opening :: texts))%nat.
Proof.
  apply (fibonacci_dialogue_ending llm_fibonacci wants_api_key [example_config]).
  vm_compute. reflexivity.
Defined.

Lemma create_dialogue_is_chat_result
    (llm : dict -> string -> list dict -> Autogen.completion)
    (refuses : string -> string -> dict -> option exn)
    (config_list : list dict) (a b situation tc : string) (d : dialogue) :
  create_dialogue llm refuses config_list a b situation tc = Ok d ->
  exists h, d = ChatResult h.
Proof.
  intros H. apply create_dialogue_shape in H.
  destruct H as (starter & texts & _ & -> & _). now eexists.
Qed.

Lemma generate_fibonacci_dialogue_is_chat_result
    (llm : dict -> string -> list dict -> Autogen.completion)
    (refuses : string -> string -> dict -> option exn)
    (config_list : list dict) (d : dialogue) :
  generate_fibonacci_dialogue llm refuses config_list = Ok d ->
  exists h, d = ChatResult h.
Proof.
  unfold generate_fibonacci_dialogue.
  destruct (subscript0 config_list) as [cfg|e|]; cbn [bind]; try discriminate.
  do 2 built.
  match goal with |- context [Autogen.initiate_chat llm unit ?a ?b tt ?m] =>
    destruct (Autogen.initiate_chat llm unit a b tt m) as [[h r]|e|]
  end; cbn [bind]; try discriminate.
  intros H. inversion H. now eexists.
Qed.

Lemma format_dialogue_raised (ms : list dict) (e : exn) :
  fold_left format_dialogue_step ms (Raise e) = Raise e.
Proof. induction ms as [|m ms IH]; [reflexivity | exact IH]. Qed.

Lemma format_dialogue_step_missing (acc : string) (m : dict) :
  subscriptable m = false ->
  format_dialogue_step (Ok acc) m = Raise (KeyError (missing_key m)).
Proof.
  unfold subscriptable, format_dialogue_step, missing_key, item.
  cbn [bind]. destruct (get m "role") as [role|]; [|reflexivity].
  cbn [bind]. destruct (String.eqb role "assistant"); cbn [negb bind].
  - destruct (get m "name"); cbn [bind];
      [|destruct (get m "content"); reflexivity].
    destruct (get m "content"); [discriminate | reflexivity].
  - destruct (get m "content"); [discriminate | reflexivity].
Qed.

(** X4: [format_dialogue] raises [TypeError] on anything but a dict, so
    on every chat result; [KeyError] on a dict without messages; and, on
    a list of messages, [KeyError] naming the first key it misses in the
    first message that lacks its role, its content or, being an
    assistant's, its name: nothing is rendered then, whatever follows. *)
Theorem format_dialogue_errors :
  (forall chat_history messages,
     format_dialogue (PyObject chat_history messages) = Raise TypeError) /\
  format_dialogue (PyDict None) = Raise (KeyError "messages") /\
  (forall before m after,
     forallb subscriptable before = true -> subscriptable m = false ->
     format_dialogue (PyDict (Some (before ++ m :: after)%list))
     = Raise (KeyError (missing_key m))).
Proof.
  split; [reflexivity|]. split; [reflexivity|].
  intros before m after B M. unfold format_dialogue. cbn [messages_item bind].
  rewrite fold_left_app, (format_dialogue_loop _ _ B). cbn [fold_left].
  rewrite (format_dialogue_step_missing _ _ M). apply format_dialogue_raised.
Qed.

Lemma format_dialogue_errors_witness :
  format_dialogue
    (PyDict (Some ([ [("role", "assistant"); ("name", "Teacher"); ("content", "Hello")] ]
                   ++ [("role", "assistant"); ("content", "Hi")]
                   :: [ [("role", "system"); ("content", "note")] ])%list))
  = Raise (KeyError "name").
Proof.
  apply (proj2 (proj2 format_dialogue_errors)
           [ [("role", "assistant"); ("name", "Teacher"); ("content", "Hello")] ]
           [("role", "assistant"); ("content", "Hi")]
           [ [("role", "system"); ("content", "note")] ]); reflexivity.
Defined.

(** X5: dialog.py's [main] never gets to print what [format_dialogue]
    returns.  Under choice 1 or 2 it ends in an exception: [TypeError],
    raised by [format_dialogue] on the chat result, whenever the session
    itself completes; of its own calls to [print] only those of the three
    menu lines are made.  Under any other choice it prints
    "Invalid choice!" and returns. *)
Theorem dialog_main_ends_in_an_exception
    (llm : dict -> string -> list dict -> Autogen.completion)
    (refuses : string -> string -> dict -> option exn)
    (config_list : list dict)
    (choice character1 character2 situation termination : string) :
  let run := dialog_main llm refuses config_list choice character1 character2
               situation termination in
  (choice = "1" \/ choice = "2" ->
   (exists e, snd run = Raise e) /\
   (forall text, In (print text) (fst run) ->
      In text [ "Dialogue Generator - Choose an option:";
                "1. Use predefined Teacher-Student Fibonacci dialogue";
                "2. Create a custom dialogue" ])) /\
  (choice = "1" ->
   forall d, generate_fibonacci_dialogue llm refuses config_list = Ok d ->
             snd run = Raise TypeError) /\
  (choice = "2" ->
   forall d, create_dialogue llm refuses config_list character1 character2 situation
               termination = Ok d ->
             snd run = Raise TypeError) /\
  (choice <> "1" -> choice <> "2" ->
   run = ([ print "Dialogue Generator - Choose an option:";
            print "1. Use predefined Teacher-Student Fibonacci dialogue";
            print "2. Create a custom dialogue";
            prompt "Enter your choice (1 or 2): ";
            print "Invalid choice!" ], Ok tt)).
Proof.
  intros run.
  assert (F : forall h, format_dialogue (ChatResult h) = Raise TypeError)
    by reflexivity.
  assert (C1 : choice = "1" ->
               (exists e, snd run = Raise e) /\
               (forall d, generate_fibonacci_dialogue llm refuses config_list = Ok d ->
                          snd run = Raise TypeError) /\
               fst run = [ print "Dialogue Generator - Choose an option:";
                           print "1. Use predefined Teacher-Student Fibonacci dialogue";
                           print "2. Create a custom dialogue";
                           prompt "Enter your choice (1 or 2): " ]).
  { intros ->. unfold run, dialog_main. cbn [String.eqb Ascii.eqb Bool.eqb].
    pose proof (generate_fibonacci_dialogue_is_chat_result llm refuses
                  config_list) as S.
    pose proof (initiate_chat_returns llm unit) as R.
    destruct (generate_fibonacci_dialogue llm refuses config_list) as [d|e|] eqn:G;
      cbn [bind].
    - destruct (S d eq_refl) as [h ->]. rewrite F. cbn [fst snd].
      split; [now eexists|]. split; [reflexivity | reflexivity].
    - cbn [fst snd]. split; [now eexists|]. split; [discriminate | reflexivity].
    - exfalso. revert G. unfold generate_fibonacci_dialogue.
      destruct (subscript0 config_list) as [cfg|e|] eqn:Q; cbn [bind];
        try discriminate; [|destruct config_list; discriminate].
      do 2 (built_or_refused; [|discriminate]).
      match goal with |- context [Autogen.initiate_chat llm unit ?a ?b tt ?m] =>
        specialize (R a b tt m);
        destruct (Autogen.initiate_chat llm unit a b tt m) as [[h r]|e|]
      end; cbn [bind]; try discriminate.
      intros _. apply R; [| |reflexivity].
      + intros st msg. apply default_predicate_returns.
      + intros st msg. apply stateless_predicate_returns.
        unfold student_is_termination_msg, item.
        destruct (get msg "content"); discriminate. }
  assert (C2 : choice = "2" ->
               (exists e, snd run = Raise e) /\
               (forall d, create_dialogue llm refuses config_list character1 character2
                            situation termination = Ok d ->
                          snd run = Raise TypeError) /\
               fst run = [ print "Dialogue Generator - Choose an option:";
                           print "1. Use predefined Teacher-Student Fibonacci dialogue";
                           print "2. Create a custom dialogue";
                           prompt "Enter your choice (1 or 2): ";
                           prompt "Enter name for Character 1: ";
                           prompt "Enter name for Character 2: ";
                           prompt "Enter the situation: ";
                           prompt "Enter the termination condition: " ]).
  { intros ->. unfold run, dialog_main. cbn [String.eqb Ascii.eqb Bool.eqb].
    pose proof (create_dialogue_is_chat_result llm refuses config_list
                  character1 character2 situation termination) as S.
    pose proof (create_dialogue_returns llm refuses config_list character1
                  character2 situation termination) as R.
    destruct (create_dialogue llm refuses config_list character1 character2 situation
                termination) as [d|e|] eqn:G; cbn [bind].
    - destruct (S d eq_refl) as [h ->]. rewrite F. cbn [fst snd].
      split; [now eexists|]. split; [reflexivity | reflexivity].
    - cbn [fst snd]. split; [now eexists|]. split; [discriminate | reflexivity].
    - now exfalso. }
  split; [|split; [|split]].
  - intros [E|E].
    + destruct (C1 E) as (X & _ & P). split; [exact X|].
      rewrite P. cbn [In]. intros text I.
      repeat (destruct I as [I|I]; [inversion I; auto|]); try discriminate;
        contradiction.
    + destruct (C2 E) as (X & _ & P). split; [exact X|].
      rewrite P. cbn [In]. intros text I.
      repeat (destruct I as [I|I]; [inversion I; auto|]); try discriminate;
        contradiction.
  - intros E. apply (C1 E).
  - intros E. apply (C2 E).
  - intros N1 N2. unfold run, dialog_main.
    apply String.eqb_neq in N1, N2. now rewrite N1, N2.
Qed.

Lemma dialog_main_ends_in_an_exception_witness :
  snd (dialog_main llm_understands wants_api_key [example_config] "2" "Teacher" "Student"
         "Fibonacci problems" "I understand") = Raise TypeError.
Proof.
  apply (proj1 (proj2 (proj2 (dialog_main_ends_in_an_exception llm_understands
                                wants_api_key
                                [example_config] "2" "Teacher" "Student"
                                "Fibonacci problems" "I understand")))
           eq_refl
           (ChatResult
              [ [("content", "Let us begin."); ("role", "assistant"); ("name", "Teacher")];
                [("content", "Now I understand."); ("role", "user"); ("name", "Student")];
                [("content", "Good, I understand that you do."); ("role", "assistant");
                 ("name", "Teacher")] ])).
  vm_compute. reflexivity.
Defined.

(** ** interface_dilogue.py: the number of turns *)

Section ExactTurns.

Variable llm : dict -> string -> list dict -> Autogen.completion.
Hypothesis llm_talkative : talkative llm.

#[local] Abbreviation send := (Autogen.send llm TurnCounter).
#[local] Abbreviation log := (Autogen.chat_messages).
#[local] Abbreviation replies := (Autogen.consecutive_auto_reply_counter).

Variables character1 character2 : Autogen.ConversableAgent TurnCounter.

Hypothesis character1_predicate :
  Autogen.agent_is_termination_msg _ character1
  = Autogen.default_is_termination_msg TurnCounter.

Hypothesis character2_predicate :
  Autogen.agent_is_termination_msg _ character2 = is_max_turns_reached.

Lemma generate_oai_reply_talkative (a : Autogen.ConversableAgent TurnCounter)
    (messages : list dict) (reply : string) :
  Autogen.generate_oai_reply llm TurnCounter a messages = Ok reply ->
  reply <> "TERMINATE".
Proof.
  unfold Autogen.generate_oai_reply.
  destruct (llm_talkative (Autogen.llm_config _ a) (Autogen.system_message _ a)
              messages) as (text & -> & N).
  congruence.
Qed.

Lemma send_turn_exact (fuel : nat) :
  forall (s1 s2 : Autogen.agent_state) (st : TurnCounter) (m : string)
         (s1' s2' : Autogen.agent_state) (st' : TurnCounter),
  (max st <= 100)%Z ->
  (send fuel character1 character2 s1 s2 st m = Ok (s1', s2', st') ->
   Z.of_nat (length (log s1)) = 2 * count st ->
   Z.of_nat (replies s1) = count st -> Z.of_nat (replies s2) = count st ->
   0 <= count st < max st ->
   Z.of_nat (length (log s1')) = 2 * max st - 1)%Z /\
  (send fuel character2 character1 s2 s1 st m = Ok (s2', s1', st') ->
   m <> "TERMINATE" ->
   Z.of_nat (length (log s1)) = 2 * count st - 1 ->
   Z.of_nat (replies s1) = count st - 1 -> Z.of_nat (replies s2) = count st ->
   1 <= count st < max st ->
   Z.of_nat (length (log s1')) = 2 * max st - 1)%Z.
Proof.
  induction fuel as [|fuel IH]; intros s1 s2 st m s1' s2' st' M;
    [split; discriminate|].
  split.
  - intros H L R1 R2 C. apply send_cases in H. cbv zeta in H.
    destruct H as [(-> & _ & E)|(st1 & reply & _ & P & G & R)].
    + cbn [Autogen.logged log replies] in *. unfold list_append.
      rewrite length_app. cbn [length].
      destruct E as [[E _]|E].
      * apply Nat.leb_le in E. unfold Autogen.MAX_CONSECUTIVE_AUTO_REPLY in E. lia.
      * rewrite character2_predicate in E. unfold is_max_turns_reached in E.
        injection E as E _. cbn [count max] in E. lia.
    + rewrite character2_predicate in P. unfold is_max_turns_reached in P.
      injection P as P <-. cbn [count max] in P.
      apply generate_oai_reply_talkative in G.
      apply (proj2 (IH _ _ {| count := count st + 1; max := max st |}
                      _ _ _ _ M)) in R; [exact R | exact G | | | |];
        cbn [Autogen.replied Autogen.logged log replies count max];
        unfold list_append; rewrite ?length_app; cbn [length]; lia.
  - intros H T L R1 R2 C. apply send_cases in H. cbv zeta in H.
    destruct H as [(_ & -> & E)|(st1 & reply & _ & P & G & R)].
    + exfalso. destruct E as [[E _]|E].
      * cbn [Autogen.logged replies] in E. apply Nat.leb_le in E.
        unfold Autogen.MAX_CONSECUTIVE_AUTO_REPLY in E. lia.
      * rewrite character1_predicate in E.
        unfold Autogen.default_is_termination_msg in E. injection E as E _.
        cbn in E. apply String.eqb_eq in E. contradiction.
    + rewrite character1_predicate in P.
      unfold Autogen.default_is_termination_msg in P. injection P as _ <-.
      apply (proj1 (IH _ _ _ _ _ _ _ M)) in R; [exact R | | | |];
        cbn [Autogen.replied Autogen.logged log replies];
        unfold list_append; rewrite ?length_app; cbn [length]; lia.
Qed.

Lemma initiate_chat_turn_exact (max_turns : Z) (message : string) :
  (1 <= max_turns <= 100)%Z ->
  exists h r,
    Autogen.initiate_chat llm TurnCounter character1 character2
      {| count := 0; max := max_turns |} message = Ok (h, r) /\
    (Z.of_nat (length h) = 2 * max_turns - 1)%Z.
Proof.
  intros B.
  pose proof (initiate_chat_returns llm TurnCounter character1 character2
                {| count := 0; max := max_turns |} message) as F.
  unfold Autogen.initiate_chat in *.
  destruct (send (2 * Autogen.MAX_CONSECUTIVE_AUTO_REPLY + 1) character1
              character2 Autogen.fresh Autogen.fresh
              {| count := 0; max := max_turns |} message)
    as [[[sa sb] st']|e|] eqn:R; cbn [bind] in *.
  - eexists. eexists. split; [reflexivity|].
    apply (proj1 (send_turn_exact _ _ _ {| count := 0; max := max_turns |}
                    _ _ _ _ ltac:(cbn [max]; lia))) in R;
      cbn [count max Autogen.fresh log replies length] in *; [exact R | lia..].
  - exfalso. apply send_raises in R.
    destruct R as [(c & s & h & R)|(a & st & t & n & A & R)].
    + destruct (llm_talkative c s h) as (text & E & _). congruence.
    + destruct A as [-> | ->].
      * rewrite character1_predicate in R. discriminate R.
      * rewrite character2_predicate in R. discriminate R.
  - exfalso. apply F; [| |reflexivity]; intros st msg.
    + rewrite character1_predicate. discriminate.
    + rewrite character2_predicate. discriminate.
Qed.

End ExactTurns.

(** X6: in [generate_dialogue_with_autogen], when the library builds
    agents from the configuration and the provider always answers, never
    with the bare word TERMINATE, a bound N from 1 to 100 gives a
    transcript of exactly 2N-1 turns, with the two spinners shown and
    nothing else; and whatever the library and the provider do, a
    transcript returned under a bound of 1 or less is the starter line
    alone. *)
Theorem max_turns_exact
    (llm : dict -> string -> list dict -> Autogen.completion)
    (refuses : string -> string -> dict -> option exn)
    (character1_name character2_name situation : string) (max_turns : Z)
    (kv : string * string) (model_config : dict) :
  (talkative llm -> (1 <= max_turns <= 100)%Z ->
   (forall name system_message,
      refuses name system_message (kv :: model_config) = None) ->
   exists texts,
     generate_dialogue_with_autogen llm refuses character1_name character2_name
       situation max_turns (Some (kv :: model_config))
     = ([st_spinner "Generating dialogue starter...";
         st_spinner "Generating dialogue..."],
        Ok (Some (ChatResult (turns "assistant" "user" character1_name
                                character2_name texts)))) /\
     (Z.of_nat (length texts) = 2 * max_turns - 1)%Z) /\
  ((max_turns <= 1)%Z ->
   forall shown d,
     generate_dialogue_with_autogen llm refuses character1_name character2_name
       situation max_turns (Some (kv :: model_config)) = (shown, Ok (Some d)) ->
     exists starter_message,
       d = ChatResult [ [("content", starter_message); ("role", "assistant");
                         ("name", character1_name)] ]).
Proof.
  split.
  - intros T B A. unfold generate_dialogue_with_autogen,
      generate_dialogue_with_autogen_try, Autogen.generate_reply,
      Autogen.generate_oai_reply.
    repeat match goal with
           | |- context [Autogen.__init__ ?St ?r ?a] =>
               rewrite (init_built St r a (A _ _)); cbn [bind]
           end.
    match goal with |- context [llm ?c ?s ?h] =>
      destruct (T c s h) as (starter & -> & _) end.
    match goal with |- context [Autogen.initiate_chat llm _ ?x ?y ?st starter] =>
      destruct (initiate_chat_turn_exact llm T x y eq_refl eq_refl max_turns
                  starter B) as (h & r & R & L);
      rewrite R; apply initiate_chat_shape in R
    end.
    destruct R as (texts & -> & _). cbn [bind fst list_append Autogen.name].
    exists (starter :: texts). split; [reflexivity|].
    now rewrite length_turns in L.
  - intros B shown d. unfold generate_dialogue_with_autogen,
      generate_dialogue_with_autogen_try. do 3 built.
    match goal with |- context [Autogen.generate_reply ?l ?S ?ag ?ms] =>
      destruct (Autogen.generate_reply l S ag ms) as [starter|e|] end;
      try discriminate.
    match goal with |- context [Autogen.initiate_chat ?l ?S ?x ?y ?st ?m] =>
      destruct (Autogen.initiate_chat l S x y st m) as [[h r]|e|] eqn:R end;
      cbn [bind]; try discriminate.
    intros H. inversion H; subst. clear H.
    pose proof R as L. apply initiate_chat_turn_bound in L; [|reflexivity..].
    apply initiate_chat_shape in R. destruct R as (texts & -> & _).
    rewrite length_turns in L. cbn [length] in L.
    destruct texts as [|t ts]; [|cbn [length] in L; lia].
    exists starter. reflexivity.
Qed.

Lemma max_turns_exact_witness :
  exists texts,
    generate_dialogue_with_autogen llm_ok wants_api_key "Teacher" "Student"
      "Fibonacci problems" 5 (Some example_config)
    = ([st_spinner "Generating dialogue starter...";
        st_spinner "Generating dialogue..."],
       Ok (Some (ChatResult (turns "assistant" "user" "Teacher" "Student" texts)))) /\
    (Z.of_nat (length texts) = 2 * 5 - 1)%Z.
Proof.
  apply (proj1 (max_turns_exact llm_ok wants_api_key "Teacher" "Student" "Fibonacci problems" 5
                  ("model", "llama-3.3-70b-versatile")
             [("api_key", "gsk_example"); ("api_type", "groq")])).
  - intros c s h. exists "ok". split; [reflexivity | discriminate].
  - lia.
  - reflexivity.
Defined.

(** ** interface_dilogue.py: what [generate_dialogue] returns *)

(** X7: whatever the provider does, [generate_dialogue] returns a
    dialogue when the situation has a word; the one exception it raises
    is the [IndexError] of the fallback generator, on a situation that is
    empty or white space only. *)
Theorem generate_dialogue_errors
    (llm : dict -> string -> list dict -> Autogen.completion)
    (refuses : string -> string -> dict -> option exn)
    (AUTOGEN_AVAILABLE : bool) (draw : nat)
    (character1_name character2_name situation : string) (max_turns : Z)
    (model_config : option dict) :
  let run := generate_dialogue llm refuses AUTOGEN_AVAILABLE draw character1_name
               character2_name situation max_turns model_config in
  (blank situation = false -> exists d, snd run = Ok d) /\
  (forall e, snd run = Raise e -> e = IndexError /\ blank situation = true).
Proof.
  intros run.
  assert (F : (blank situation = false ->
               exists d, generate_dialogue_fallback draw character1_name
                           character2_name situation max_turns = Ok d) /\
              (forall e, generate_dialogue_fallback draw character1_name
                           character2_name situation max_turns = Raise e ->
                         e = IndexError /\ blank situation = true)).
  { destruct (Py.split situation) as [|w rest] eqn:E.
    - apply split_nil in E. rewrite (fallback_blank _ _ _ _ _ E).
      split; [congruence|]. intros e H. injection H as <-. auto.
    - destruct (fallback_ok draw character1_name character2_name situation
                  max_turns w rest E) as (starter & _ & ->).
      split; [intros _; now eexists | discriminate]. }
  pose proof (generate_dialogue_returns llm refuses AUTOGEN_AVAILABLE draw
                character1_name character2_name situation max_turns
                model_config) as R.
  fold run in R. revert R. unfold run, generate_dialogue.
  destruct (AUTOGEN_AVAILABLE && truthy model_config); [|intros _; exact F].
  destruct (generate_dialogue_with_autogen llm refuses character1_name character2_name
              situation max_turns model_config) as [shown [[d|]|e|]];
    cbn [snd]; intros R; try exact F.
  - split; [intros _; now eexists | discriminate].
  - now exfalso.
Qed.

Lemma generate_dialogue_errors_witness :
  (exists d, snd (generate_dialogue llm_rate_limited wants_api_key true 0 "Teacher" "Student"
                    "Fibonacci problems" 5 (Some example_config)) = Ok d) /\
  (IndexError = IndexError /\ blank "  " = true).
Proof.
  split.
  - apply (proj1 (generate_dialogue_errors llm_rate_limited wants_api_key true 0 "Teacher"
                    "Student" "Fibonacci problems" 5 (Some example_config))).
    reflexivity.
  - apply (proj2 (generate_dialogue_errors llm_ok wants_api_key false 0 "Teacher" "Student"
                    "  " 5 None) IndexError).
    reflexivity.
Defined.

(** X8: [initialize_model_config] gives a usable configuration only when
    the library is there and the first configuration loaded is not
    empty; in every other case (library absent, loading failed, nothing
    loaded, empty first configuration) [generate_dialogue] on its result
    shows nothing and returns what the fallback generator returns,
    without a call to the provider. *)
Theorem no_configuration_means_fallback
    (llm : dict -> string -> list dict -> Autogen.completion)
    (refuses : string -> string -> dict -> option exn)
    (AUTOGEN_AVAILABLE : bool) (config_list_from_dotenv : list dict + exn)
    (draw : nat) (character1_name character2_name situation : string)
    (max_turns : Z) :
  let model_config :=
    snd (initialize_model_config AUTOGEN_AVAILABLE config_list_from_dotenv) in
  (truthy model_config = true <->
   AUTOGEN_AVAILABLE = true /\
   exists kv config rest,
     config_list_from_dotenv = inl ((kv :: config) :: rest) /\
     model_config = Some (kv :: config)) /\
  (truthy model_config = false ->
   generate_dialogue llm refuses AUTOGEN_AVAILABLE draw character1_name
     character2_name situation max_turns model_config
   = ([], generate_dialogue_fallback draw character1_name character2_name
            situation max_turns)).
Proof.
  intros model_config. split.
  - unfold model_config, initialize_model_config.
    destruct AUTOGEN_AVAILABLE; cbn [negb snd].
    + destruct config_list_from_dotenv as [[|[|kv config] rest]|e];
        cbn [snd truthy]; split; try discriminate;
        try (intros (_ & kv' & c & r & E & _); discriminate).
      * intros _. split; [reflexivity|]. now exists kv, config, rest.
      * reflexivity.
    + split; [discriminate | intros [E _]; discriminate].
  - intros T. unfold generate_dialogue. rewrite T.
    now rewrite andb_false_r.
Qed.

Lemma no_configuration_means_fallback_witness :
  generate_dialogue llm_ok wants_api_key true 0 "Teacher" "Student" "Fibonacci problems" 5
    (snd (initialize_model_config true (inr (ProviderError "no .env file"))))
  = ([], generate_dialogue_fallback 0 "Teacher" "Student" "Fibonacci problems" 5).
Proof.
  apply (proj2 (no_configuration_means_fallback llm_ok wants_api_key true
                  (inr (ProviderError "no .env file")) 0 "Teacher" "Student"
                  "Fibonacci problems" 5)).
  reflexivity.
Defined.

(** ** interface_dilogue.py: the fallback transcript *)

Lemma string_of_list_ascii_app (l1 l2 : list ascii) :
  string_of_list_ascii (l1 ++ l2)
  = string_of_list_ascii l1 ++ string_of_list_ascii l2.
Proof.
  induction l1 as [|c l1 IH]; [reflexivity|]. cbn. now rewrite IH.
Qed.

Lemma split_aux_word (s : string) :
  forall cur, cur <> [] ->
  Py.split_aux cur s
  = (string_of_list_ascii (rev cur) ++ take_word s)
      :: Py.split_aux [] (drop_word s).
Proof.
  induction s as [|c s IH]; intros cur N.
  - destruct cur; [contradiction|]. cbn [Py.split_aux take_word drop_word].
    now rewrite append_nil_r.
  - cbn [Py.split_aux take_word drop_word]. destruct (Py.isspace c) eqn:W.
    + destruct cur; [contradiction|]. cbn [Py.split_aux app].
      rewrite W. now rewrite append_nil_r.
    + rewrite IH by discriminate. cbn [rev].
      rewrite string_of_list_ascii_app. cbn. now rewrite append_assoc.
Qed.

Lemma split_first_word (s : string) (w : string) (rest : list string) :
  Py.split s = w :: rest -> w = take_word (drop_spaces s).
Proof.
  unfold Py.split. induction s as [|c s IH]; [discriminate|].
  cbn [Py.split_aux drop_spaces app]. destruct (Py.isspace c) eqn:W.
  - exact IH.
  - rewrite split_aux_word by discriminate. cbn [rev app take_word].
    rewrite W. cbn. congruence.
Qed.

Lemma drop_spaces_prefix (s : string) :
  exists pre, blank pre = true /\ s = pre ++ drop_spaces s.
Proof.
  induction s as [|c s (pre & B & E)]; [now exists ""|].
  cbn [drop_spaces]. destruct (Py.isspace c) eqn:W.
  - exists (String c pre). cbn [blank append]. rewrite W, B. now rewrite <- E.
  - now exists "".
Qed.

Lemma take_drop_word (s : string) : s = take_word s ++ drop_word s.
Proof.
  induction s as [|c s IH]; [reflexivity|].
  cbn [take_word drop_word]. destruct (Py.isspace c); [reflexivity|].
  cbn [append]. now rewrite <- IH.
Qed.

Lemma first_word_not_empty (s : string) :
  blank s = false -> take_word (drop_spaces s) <> "".
Proof.
  induction s as [|c s IH]; [discriminate|].
  cbn [blank drop_spaces]. destruct (Py.isspace c) eqn:W.
  - exact IH.
  - intros _. cbn [take_word]. rewrite W. discriminate.
Qed.

(** X9: on a situation that has a word, the fallback generator returns
    exactly four messages: a starter line of the first participant (one
    of three sentences, by the draw), the placeholder note as a system
    message, a reply of the second participant and a closing line of the
    first.  The starter and the reply name the first word of the
    situation, i.e. its first run of code points that are not white
    space, and the closing line quotes the whole situation; [max_turns]
    plays no part. *)
Theorem generate_dialogue_fallback_text
    (draw : nat) (character1_name character2_name situation : string) :
  blank situation = false ->
  let w := take_word (drop_spaces situation) in
  w <> "" /\
  (exists before,
     blank before = true /\
     situation = before ++ w ++ drop_word (drop_spaces situation)) /\
  exists starter,
    nth_error (starter_templates character2_name w) (draw mod 3) = Some starter /\
    forall max_turns,
      generate_dialogue_fallback draw character1_name character2_name
        situation max_turns
      = Ok (PyDict (Some (fallback_messages character1_name character2_name
                            situation w starter))).
Proof.
  intros B w. split; [now apply first_word_not_empty|]. split.
  - destruct (drop_spaces_prefix situation) as (pre & P & E).
    exists pre. split; [exact P|]. unfold w.
    now rewrite <- take_drop_word.
  - destruct (Py.split situation) as [|w' rest] eqn:E.
    + apply split_nil in E. congruence.
    + pose proof (split_first_word _ _ _ E) as ->. fold w in E |- *.
      destruct (fallback_ok draw character1_name character2_name situation 0
                  w rest E) as (starter & T & _).
      exists starter. split; [exact T|]. intros n.
      destruct (fallback_ok draw character1_name character2_name situation n
                  w rest E) as (starter' & T' & R).
      rewrite T in T'. injection T' as <-. exact R.
Qed.

Lemma generate_dialogue_fallback_text_witness :
  exists starter,
    nth_error (starter_templates "Student" "The") (4 mod 3) = Some starter /\
    forall max_turns,
      generate_dialogue_fallback 4 "Teacher" "Student"
        "  The teacher is helping the student." max_turns
      = Ok (PyDict (Some (fallback_messages "Teacher" "Student"
                            "  The teacher is helping the student." "The" starter))).
Proof.
  apply (proj2 (proj2 (generate_dialogue_fallback_text 4 "Teacher" "Student"
                         "  The teacher is helping the student." eq_refl))).
Defined.

(** ** interface_dilogue.py: what is shown and downloaded *)

Lemma extract_messages_entries (chat_history : list entry) :
  forall acc : list dict,
  fold_left
    (fun messages e =>
       match e with
       | EDict entry =>
           let sender_name := get_default entry "name" "Unknown" in
           let content := get_default entry "content" "" in
           list_append messages
             [("role", "assistant"); ("name", sender_name); ("content", content)]
       | EOther => messages
       end)
    chat_history acc
  = (acc ++ map normalised (dict_entries chat_history))%list.
Proof.
  induction chat_history as [|[e|] h IH]; intros acc;
    cbn [fold_left dict_entries map].
  - now rewrite app_nil_r.
  - rewrite IH. unfold list_append. now rewrite <- app_assoc.
  - apply IH.
Qed.

Lemma extract_messages_object (chat_history : list entry)
    (messages : option (list dict)) :
  extract_messages (PyObject (Some chat_history) messages)
  = map normalised (dict_entries chat_history).
Proof. unfold extract_messages. now rewrite extract_messages_entries. Qed.

Lemma normalised_is_shown (l : list dict) :
  filter (fun m => negb (is_system m)) (map normalised l) = map normalised l.
Proof. induction l as [|e l IH]; [reflexivity|]. cbn. now rewrite IH. Qed.

(** X10: of an object with a chat history, [extract_messages] keeps the
    dict entries, in order, each as an assistant message under the
    entry's name (or "Unknown") with the entry's content (or the empty
    text); the entry's own role is dropped.  So [format_dialogue_text]
    renders one line for every dict entry of a chat result, also for an
    entry whose role is system. *)
Theorem chat_history_is_rendered_whole
    (chat_history : list entry) (messages : option (list dict))
    (character1_name character2_name situation : string) :
  extract_messages (PyObject (Some chat_history) messages)
  = map normalised (dict_entries chat_history) /\
  format_dialogue_text (PyObject (Some chat_history) messages)
    character1_name character2_name situation
  = ("Dialogue between " ++ character1_name ++ " and " ++ character2_name ++ nl
     ++ "Situation: " ++ situation ++ nl ++ nl)
    ++ concat_lines
         (map (fun e => get_default e "name" "Unknown" ++ ": "
                        ++ get_default e "content" "" ++ nl ++ nl)
            (dict_entries chat_history)).
Proof.
  split; [apply extract_messages_object|].
  unfold format_dialogue_text. rewrite format_dialogue_text_loop.
  rewrite extract_messages_object, normalised_is_shown, map_map.
  f_equal. now rewrite !append_assoc.
Qed.

(** X11: the text and the page made of a fallback transcript are, letter
    for letter, those made of a chat result with the same three lines:
    the placeholder note is in neither (the page shows it in debug mode
    only). *)
Theorem placeholder_is_rendered_as_a_session
    (draw : nat) (character1_name character2_name situation : string)
    (max_turns : Z) (d : dialogue) (debug_report : dialogue -> list Page.item)
    (type_ str_ : dialogue -> string) :
  generate_dialogue_fallback draw character1_name character2_name situation
    max_turns = Ok d ->
  exists text1 text2 text3,
    let session :=
      ChatResult (turns "assistant" "user" character1_name character2_name
                    [text1; text2; text3]) in
    format_dialogue_text d character1_name character2_name situation
    = format_dialogue_text session character1_name character2_name situation /\
    display_dialogue false debug_report type_ str_ d character1_name
      character2_name
    = display_dialogue false debug_report type_ str_ session character1_name
        character2_name.
Proof.
  intros H. destruct (Py.split situation) as [|w rest] eqn:E.
  - apply split_nil in E. rewrite (fallback_blank _ _ _ _ _ E) in H. discriminate.
  - destruct (fallback_ok draw character1_name character2_name situation
                max_turns w rest E) as (starter & _ & R).
    rewrite R in H. injection H as <-.
    eexists starter, _, _. split; reflexivity.
Qed.

Lemma placeholder_is_rendered_as_a_session_witness :
  exists text1 text2 text3,
    let session :=
      ChatResult (turns "assistant" "user" "Teacher" "Student"
                    [text1; text2; text3]) in
    format_dialogue_text
      (PyDict (Some (fallback_messages "Teacher" "Student" "Fibonacci problems"
                       "Fibonacci" "Hi Student! I've been thinking about Fibonacci.")))
      "Teacher" "Student" "Fibonacci problems"
    = format_dialogue_text session "Teacher" "Student" "Fibonacci problems" /\
    display_dialogue false (fun _ => []) (fun _ => "") (fun _ => "")
      (PyDict (Some (fallback_messages "Teacher" "Student" "Fibonacci problems"
                       "Fibonacci" "Hi Student! I've been thinking about Fibonacci.")))
      "Teacher" "Student"
    = display_dialogue false (fun _ => []) (fun _ => "") (fun _ => "") session
        "Teacher" "Student".
Proof.
  apply (placeholder_is_rendered_as_a_session 2 "Teacher" "Student"
           "Fibonacci problems" 5 _ (fun _ => []) (fun _ => "") (fun _ => "")).
  reflexivity.
Defined.

Lemma display_dialogue_step_bubble (debug_mode : bool) (a b : string)
    (page : list Page.item) (m : dict) :
  display_dialogue_step debug_mode a b page m
  = if is_system m && negb debug_mode then page
    else (page ++ [Page.markdown (bubble_of a b m) true; Page.sleep])%list.
Proof.
  unfold display_dialogue_step, bubble_of, is_system, speaker.
  destruct (option_eqb (get m "role") (Some "system") && negb debug_mode);
    [reflexivity|].
  match goal with |- context [String.eqb ?s a] => destruct (String.eqb s a) end;
    cbn [negb andb]; [reflexivity|].
  match goal with |- context [String.eqb ?s b] => destruct (String.eqb s b) end;
    reflexivity.
Qed.

Lemma bubbles_app (p q : list Page.item) :
  bubbles (p ++ q)%list = (bubbles p ++ bubbles q)%list.
Proof.
  induction p as [|[t|t|body [|]|] p IH]; cbn [bubbles app];
    [reflexivity | exact IH | exact IH | | exact IH | exact IH].
  now rewrite IH.
Qed.

Lemma display_dialogue_loop (debug_mode : bool) (a b : string)
    (messages : list dict) :
  forall page,
  bubbles (fold_left (display_dialogue_step debug_mode a b) messages page)
  = (bubbles page
     ++ map (bubble_of a b)
          (filter (fun m => negb (is_system m) || debug_mode) messages))%list.
Proof.
  induction messages as [|m ms IH]; intros page; cbn [fold_left filter map].
  - now rewrite app_nil_r.
  - rewrite IH, display_dialogue_step_bubble.
    destruct (is_system m); destruct debug_mode; cbn [negb andb orb map];
      rewrite ?bubbles_app; cbn [bubbles]; rewrite <- ?app_assoc; reflexivity.
Qed.

Lemma bubbles_extract_messages_writes (debug_mode : bool)
    (type_ str_ : dialogue -> string) (d : dialogue) :
  bubbles (extract_messages_writes debug_mode type_ str_ d) = [].
Proof. destruct d as [[m|]|[h|] [m|]], debug_mode; reflexivity. Qed.

(** X12: when no message can be extracted, [display_dialogue] shows a
    warning and nothing else of the dialogue, after what debug mode
    writes about the object: the report of its own debug block and, for
    an object of unknown format, the two lines [extract_messages] writes.
    Otherwise it draws, after the title, one bubble for every message
    that is not a system message (for every message in debug mode), in
    order, under the speaker and with the content [format_dialogue_text]
    writes for it.  A bubble is drawn in the second participant's colours
    only when the speaker has the second participant's name and not the
    first's: when both participants have one name, every bubble is drawn
    in the first's. *)
Theorem display_dialogue_bubbles
    (debug_mode : bool) (debug_report : dialogue -> list Page.item)
    (type_ str_ : dialogue -> string)
    (d : dialogue) (character1_name character2_name : string) :
  let page := display_dialogue debug_mode debug_report type_ str_ d
                character1_name character2_name in
  let warning :=
    Page.warning "No dialogue generated or messages couldn't be extracted." in
  (extract_messages d = [] ->
   page = if debug_mode
          then (debug_report d
                ++ match d with
                   | PyDict None | PyObject None None =>
                       [ Page.write ("Unknown dialogue format: " ++ type_ d);
                         Page.write (substring 0 500 (str_ d)) ]
                   | _ => []
                   end
                ++ [warning])%list
          else [warning]) /\
  bubbles page
  = (bubbles (if debug_mode then debug_report d else [])
     ++ map (bubble_of character1_name character2_name)
          (filter (fun m => negb (is_system m) || debug_mode)
             (extract_messages d)))%list /\
  (forall m,
     bubble_of character1_name character1_name m
     = bubble "character1-name" "character1-bubble" (speaker m)
         (get_default m "content" "")).
Proof.
  intros page warning. split; [|split].
  - intros E. unfold page, display_dialogue. rewrite E.
    unfold list_append, extract_messages_writes. rewrite <- app_assoc.
    destruct debug_mode; [reflexivity|].
    destruct d as [[m|]|[h|] [m|]]; reflexivity.
  - unfold page, display_dialogue.
    destruct (extract_messages d) as [|m ms] eqn:E.
    + unfold list_append. rewrite !bubbles_app, bubbles_extract_messages_writes.
      cbn [bubbles map filter]. now rewrite !app_nil_r.
    + rewrite display_dialogue_loop. unfold list_append.
      rewrite !bubbles_app, bubbles_extract_messages_writes.
      cbn [bubbles]. now rewrite !app_nil_r.
  - intros m. unfold bubble_of.
    destruct (String.eqb (speaker m) character1_name); reflexivity.
Qed.

Lemma display_dialogue_bubbles_witness :
  display_dialogue true (fun _ => [Page.write "Dialogue type: <class 'dict'>"])
    (fun _ => "<class 'dict'>") (fun _ => "{'turns': []}") (PyDict None)
    "Teacher" "Student"
  = [ Page.write "Dialogue type: <class 'dict'>";
      Page.write "Unknown dialogue format: <class 'dict'>";
      Page.write "{'turns': []}";
      Page.warning "No dialogue generated or messages couldn't be extracted." ].
Proof.
  apply (proj1 (display_dialogue_bubbles true
                  (fun _ => [Page.write "Dialogue type: <class 'dict'>"])
                  (fun _ => "<class 'dict'>") (fun _ => "{'turns': []}")
                  (PyDict None) "Teacher" "Student")).
  reflexivity.
Defined.

(** ** interface_dilogue.py: the saved files *)





(** ** main.py *)

Lemma nth_error_turns (texts : list string) :
  forall (role1 role2 name1 name2 : string) (i : nat),
  nth_error (turns role1 role2 name1 name2 texts) i
  = option_map
      (fun t => [("content", t);
                 ("role", if Nat.even i then role1 else role2);
                 ("name", if Nat.even i then name1 else name2)])
      (nth_error texts i).
Proof.
  induction texts as [|t ts IH]; intros role1 role2 name1 name2 [|i];
    try reflexivity.
  cbn [turns nth_error]. rewrite IH, Nat.even_succ, <- Nat.negb_even.
  destruct (Nat.even i); reflexivity.
Qed.

(** X14: the chat of main.py, which the shopkeeper opens, has at most
    201 turns; a line of the customer that contains the phrase "thank you
    for your service" letter for letter is its last turn, and a chat of
    fewer than 201 turns ended either on such a line or on a line of the
    shopkeeper that is the word TERMINATE. *)
Theorem chat_result_ending
    (llm : dict -> string -> list dict -> Autogen.completion)
    (refuses : string -> string -> dict -> option exn)
    (config_list : list dict) (d : dialogue) :
  chat_result llm refuses config_list = Ok d ->
  exists texts,
    d = ChatResult (turns "assistant" "user" "shopkeeper" "customer" texts) /\
    (1 <= length texts <= 201)%nat /\
    (forall i t,
       nth_error texts i = Some t -> Nat.odd i = true ->
       occurs shopkeeper_phrase t -> S i = length texts) /\
    (length texts = 201 \/
     exists i t,
       S i = length texts /\ nth_error texts i = Some t /\
       if Nat.even i then t = "TERMINATE" else occurs shopkeeper_phrase t).
Proof.
  unfold chat_result, customer, shopkeeper.
  destruct (subscript0 config_list) as [cfg|e|]; cbn [bind]; try discriminate.
  do 2 built.
  match goal with |- context [Autogen.initiate_chat llm unit ?a ?b tt ?m] =>
    destruct (Autogen.initiate_chat llm unit a b tt m) as [[h r]|e|] eqn:R
  end; cbn [bind]; try discriminate.
  intros H. inversion H; subst. clear H.
  apply (stateless_chat llm _ _ shopkeeper_is_termination_msg
           (fun msg => Ok (String.eqb (get_default msg "content" "") "TERMINATE")))
    in R; [|reflexivity|reflexivity].
  destruct R as (texts & -> & L & D & E).
  exists ("What do you want to find?" :: texts).
  split; [reflexivity|]. split; [cbn [length] in *; lia|]. split.
  - intros i t N O C.
    assert (B : (i < length ("What do you want to find?" :: texts))%nat)
      by (apply nth_error_Some; congruence).
    destruct (Nat.eq_dec (S i) (length ("What do you want to find?" :: texts)))
      as [|ne]; [assumption | exfalso].
    specialize (D i t N ltac:(lia)).
    rewrite <- Nat.negb_even in O. apply negb_true_iff in O. rewrite O in D.
    apply contains_iff in C. unfold shopkeeper_is_termination_msg in D.
    cbn in D. congruence.
  - destruct E as [E|(i & t & E & N & A)]; [now left|].
    right. exists i, t. split; [exact E|]. split; [exact N|].
    destruct (Nat.even i).
    + apply default_verdict in A. symmetry in A. now apply String.eqb_eq in A.
    + unfold shopkeeper_is_termination_msg in A. cbn in A.
      apply contains_iff. congruence.
Qed.

Lemma chat_result_ending_witness :
  exists texts,
    ChatResult
      (turns "assistant" "user" "shopkeeper" "customer"
         [ "What do you want to find?"; "milk, thank you for your service" ])
    = ChatResult (turns "assistant" "user" "shopkeeper" "customer" texts) /\
    (1 <= length texts <= 201)%nat /\
    (forall i t,
       nth_error texts i = Some t -> Nat.odd i = true ->
       occurs shopkeeper_phrase t -> S i = length texts) /\
    (length texts = 201 \/
     exists i t,
       S i = length texts /\ nth_error texts i = Some t /\
       if Nat.even i then t = "TERMINATE" else occurs shopkeeper_phrase t).
Proof.
  apply (chat_result_ending llm_thanks wants_api_key [example_config]).
  vm_compute. reflexivity.
Defined.

(** X15: at the end of main.py's script the shopkeeper's log is the
    history of the chat followed by the customer's question and the
    turns it sets off; when the chat ended on a line of the customer, the
    log has that line and the question, two turns of the customer, in a
    row. *)
Theorem main_py_logs
    (llm : dict -> string -> list dict -> Autogen.completion)
    (refuses : string -> string -> dict -> option exn)
    (config_list : list dict) (shopkeeper_log customer_log : list dict) :
  main_py llm refuses config_list = Ok (shopkeeper_log, customer_log) ->
  exists texts1 texts2,
    chat_result llm refuses config_list
    = Ok (ChatResult (turns "assistant" "user" "shopkeeper" "customer"
                        ("What do you want to find?" :: texts1))) /\
    shopkeeper_log
    = (turns "assistant" "user" "shopkeeper" "customer"
         ("What do you want to find?" :: texts1)
       ++ turns "user" "assistant" "customer" "shopkeeper"
            ("What did I ask you previously?" :: texts2))%list /\
    (Nat.odd (length texts1) = true ->
     exists t,
       nth_error shopkeeper_log (length texts1)
       = Some [("content", t); ("role", "user"); ("name", "customer")] /\
       nth_error shopkeeper_log (S (length texts1))
       = Some [("content", "What did I ask you previously?"); ("role", "user");
               ("name", "customer")]).
Proof.
  intros H. apply main_py_shape in H. destruct H as (texts1 & texts2 & C & L2).
  exists texts1, texts2. split; [exact C|].
  split; [exact L2|]. intros O. rewrite L2.
  assert (B : (length texts1 < length ("What do you want to find?" :: texts1))%nat)
    by (cbn [length]; lia).
  destruct (nth_error ("What do you want to find?" :: texts1) (length texts1))
    as [t|] eqn:N; [|apply nth_error_None in N; lia].
  exists t. split.
  - rewrite nth_error_app1 by (rewrite length_turns; exact B).
    rewrite nth_error_turns, N. cbn [option_map].
    rewrite <- Nat.negb_even in O. apply negb_true_iff in O. now rewrite O.
  - rewrite nth_error_app2 by (rewrite length_turns; cbn [length]; lia).
    rewrite length_turns. cbn [length]. now rewrite Nat.sub_diag.
Qed.

Lemma main_py_logs_witness :
  let shopkeeper_log :=
    (turns "assistant" "user" "shopkeeper" "customer"
       [ "What do you want to find?"; "milk, thank you for your service" ]
     ++ turns "user" "assistant" "customer" "shopkeeper"
          [ "What did I ask you previously?"; "You asked what I want to find.";
            "milk, thank you for your service" ])%list in
  exists texts1 texts2,
    chat_result llm_thanks wants_api_key [example_config]
    = Ok (ChatResult (turns "assistant" "user" "shopkeeper" "customer"
                        ("What do you want to find?" :: texts1))) /\
    shopkeeper_log
    = (turns "assistant" "user" "shopkeeper" "customer"
         ("What do you want to find?" :: texts1)
       ++ turns "user" "assistant" "customer" "shopkeeper"
            ("What did I ask you previously?" :: texts2))%list /\
    (Nat.odd (length texts1) = true ->
     exists t,
       nth_error shopkeeper_log (length texts1)
       = Some [("content", t); ("role", "user"); ("name", "customer")] /\
       nth_error shopkeeper_log (S (length texts1))
       = Some [("content", "What did I ask you previously?"); ("role", "user");
               ("name", "customer")]).
Proof.
  intros shopkeeper_log.
  apply (main_py_logs llm_thanks wants_api_key [example_config] shopkeeper_log
           (turns "user" "assistant" "shopkeeper" "customer"
              [ "What do you want to find?"; "milk, thank you for your service" ]
            ++ turns "assistant" "user" "customer" "shopkeeper"
                 [ "What did I ask you previously?"; "You asked what I want to find.";
                   "milk, thank you for your service" ])%list).
  vm_compute. reflexivity.
Defined.

(** ** What the sessions raise *)

Lemma initiate_chat_raises
    (llm : dict -> string -> list dict -> Autogen.completion) (St : Type)
    (a b : Autogen.ConversableAgent St) (st : St) (message : string) (e : exn) :
  Autogen.initiate_chat llm St a b st message = Raise e ->
  (exists llm_config system_message messages,
     llm llm_config system_message messages = Autogen.Failed e) \/
  (exists c st t n,
     (c = a \/ c = b) /\
     Autogen.agent_is_termination_msg St c st
       [("content", t); ("role", "user"); ("name", n)] = Raise e).
Proof.
  unfold Autogen.initiate_chat.
  destruct (Autogen.send llm St (2 * Autogen.MAX_CONSECUTIVE_AUTO_REPLY + 1) a b
              Autogen.fresh Autogen.fresh st message) as [[[sa sb] st']|e'|] eqn:R;
    cbn [bind]; try discriminate.
  intros H. injection H as <-. now apply send_raises in R.
Qed.

(** X16: [create_dialogue] raises [IndexError] when the configuration
    list is empty, and otherwise raises nothing but what the constructor
    of an agent or a call to the provider raised: its predicate, which
    subscripts the content of the message, never misses it in a chat. *)
Theorem create_dialogue_raises
    (llm : dict -> string -> list dict -> Autogen.completion)
    (refuses : string -> string -> dict -> option exn)
    (config_list : list dict)
    (character1_name character2_name situation termination_condition : string) :
  (config_list = [] ->
   create_dialogue llm refuses config_list character1_name character2_name
     situation termination_condition = Raise IndexError) /\
  (forall e,
     create_dialogue llm refuses config_list character1_name character2_name
       situation termination_condition = Raise e ->
     (config_list = [] /\ e = IndexError)
     \/ (exists name system_message llm_config,
           refuses name system_message llm_config = Some e)
     \/ (exists llm_config system_message messages,
           llm llm_config system_message messages = Autogen.Failed e)).
Proof.
  split; [intros ->; reflexivity|].
  intros e. unfold create_dialogue, _generate_starter_message.
  destruct config_list as [|cfg rest]; cbn [subscript0 bind].
  - intros H. injection H as <-. now left.
  - do 3 (built_or_refused;
          [|intros H; injection H as <-; right; left; eauto]).
    unfold Autogen.generate_reply, Autogen.generate_oai_reply.
    match goal with |- context [llm ?c ?s ?h] =>
      destruct (llm c s h) as [starter|e'] eqn:G end; cbn [bind].
    + match goal with |- context [Autogen.initiate_chat llm unit ?a ?b tt starter] =>
        destruct (Autogen.initiate_chat llm unit a b tt starter) as [[h r]|e'|] eqn:R
      end; cbn [bind]; try discriminate.
      intros H. injection H as <-. apply initiate_chat_raises in R.
      destruct R as [R|(c & st & t & n & [-> | ->] & R)]; [now right; right | |].
      * discriminate R.
      * unfold create_dialogue_character2 in R.
        cbn [Autogen.agent_is_termination_msg] in R. unfold stateless in R.
        rewrite (is_termination_msg_content _ _ t) in R by reflexivity.
        discriminate R.
    + intros H. injection H as <-. right; right. eauto.
Qed.

Lemma create_dialogue_raises_witness :
  (exists name system_message llm_config,
     wants_api_key name system_message llm_config
     = Some (OtherException "AssertionError" "no api_key in the configuration"))
  \/ (exists llm_config system_message messages,
        llm_ok llm_config system_message messages
        = Autogen.Failed
            (OtherException "AssertionError" "no api_key in the configuration")).
Proof.
  destruct (proj2 (create_dialogue_raises llm_ok wants_api_key
                     [[("model", "llama-3.3-70b-versatile")]]
                     "Teacher" "Student" "Fibonacci problems" "I understand")
              (OtherException "AssertionError" "no api_key in the configuration")
              eq_refl) as [[H _]|H].
  - discriminate H.
  - exact H.
Defined.

(** X17: [generate_dialogue_with_autogen] raises nothing.  It returns
    [None] with nothing shown when the configuration is missing or
    empty.  Otherwise it returns [None] only after the constructor of an
    agent or a call to the provider failed, and what it has shown then
    ends with the error and its message: the error alone when the
    constructor failed, the error after one spinner or two when the
    provider did. *)
Theorem generate_dialogue_with_autogen_none
    (llm : dict -> string -> list dict -> Autogen.completion)
    (refuses : string -> string -> dict -> option exn)
    (character1_name character2_name situation : string) (max_turns : Z)
    (model_config : option dict) (shown : list ui_event) :
  (forall e,
     snd (generate_dialogue_with_autogen llm refuses character1_name
            character2_name situation max_turns model_config) <> Raise e) /\
  (truthy model_config = false ->
   generate_dialogue_with_autogen llm refuses character1_name character2_name
     situation max_turns model_config = ([], Ok None)) /\
  (truthy model_config = true ->
   generate_dialogue_with_autogen llm refuses character1_name character2_name
     situation max_turns model_config = (shown, Ok None) ->
   exists e,
     let error := st_error ("Error generating dialogue: " ++ exn_str e) in
     ((exists name system_message llm_config,
         refuses name system_message llm_config = Some e) /\
      shown = [error])
     \/
     ((exists llm_config system_message messages,
         llm llm_config system_message messages = Autogen.Failed e) /\
      (shown = [st_spinner "Generating dialogue starter..."; error]
       \/ shown = [st_spinner "Generating dialogue starter...";
                   st_spinner "Generating dialogue..."; error]))).
Proof.
  unfold generate_dialogue_with_autogen.
  destruct model_config as [[|kv cfg]|]; cbn [truthy];
    try (split; [discriminate | split; [reflexivity | discriminate]]).
  destruct (generate_dialogue_with_autogen_try llm refuses character1_name
              character2_name situation max_turns (kv :: cfg))
    as [shown0 [d|e|]] eqn:T; cbn [snd];
    (split; [discriminate|]); (split; [discriminate|]); intros _ H;
    try discriminate.
  injection H as <-. exists e. cbv zeta.
  revert T. unfold generate_dialogue_with_autogen_try.
  do 3 (built_or_refused;
        [|intros H; injection H as <- <-; left; split; [eauto | reflexivity]]).
  unfold Autogen.generate_reply, Autogen.generate_oai_reply.
  match goal with |- context [llm ?c ?s ?h] =>
    destruct (llm c s h) as [starter|e'] eqn:G end.
  - match goal with |- context [Autogen.initiate_chat llm _ ?a ?b ?st starter] =>
      destruct (Autogen.initiate_chat llm TurnCounter a b st starter)
        as [[h r]|e'|] eqn:R
    end; cbn [bind]; try discriminate.
    intros H. injection H as <- <-. right. split; [|right; reflexivity].
    apply initiate_chat_raises in R.
    destruct R as [R|(c & st & t & n & [-> | ->] & R)];
      [exact R | discriminate R | discriminate R].
  - intros H. injection H as <- <-. right. split; [eauto | left; reflexivity].
Qed.

Lemma generate_dialogue_with_autogen_none_witness :
  exists e,
    let error := st_error ("Error generating dialogue: " ++ exn_str e) in
    ((exists name system_message llm_config,
        wants_api_key name system_message llm_config = Some e) /\
     [st_error "Error generating dialogue: no api_key in the configuration"]
     = [error])
    \/
    ((exists llm_config system_message messages,
        llm_ok llm_config system_message messages = Autogen.Failed e) /\
     ([st_error "Error generating dialogue: no api_key in the configuration"]
      = [st_spinner "Generating dialogue starter..."; error]
      \/ [st_error "Error generating dialogue: no api_key in the configuration"]
         = [st_spinner "Generating dialogue starter...";
            st_spinner "Generating dialogue..."; error])).
Proof.
  apply (proj2 (proj2 (generate_dialogue_with_autogen_none llm_ok wants_api_key
                         "Teacher" "Student" "Fibonacci problems" 5
                         (Some [("model", "llama-3.3-70b-versatile")])
                         [st_error "Error generating dialogue: no api_key in the configuration"]))).
  - reflexivity.
  - vm_compute. reflexivity.
Defined.
